(** * The DirectX 12 graphics driver of Ebiten: frame scheduling, pipeline
      cache and descriptor table

    A shallow embedding of
    [internal/graphicsdriver/directx/graphics_windows.go] and
    [internal/graphicsdriver/directx/pipeline_windows.go].

    The Go code is imperative: it mutates the process-wide [Graphics]
    value, the [Image] objects it points to, and it talks to the
    Direct3D 12 / DXGI / Win32 API.  The embedding is a state-and-error
    monad over a [world]:
    - the [Graphics] struct and the Go heap of [Image] objects,
    - the native side: a log of the native calls that took effect
      ([trace], newest first), the contents of the descriptor heaps, a
      counter for fresh COM objects, and an [oracle] that decides, call
      by call, what the native API answers (an error code, a fence
      value, a back-buffer index, a wait result).

    A Go function that returns [error] returns [Err]; a Go run-time panic
    (index out of range, nil dereference, [panic(...)]) is [Panic]. *)

From Stdlib Require Import ZArith List Lia Bool.
From stdpp Require Import base gmap list.

Local Open Scope Z_scope.

(** ** Results *)

Inductive error : Type :=
| DeviceError (code : Z)           (* an error returned by a native call *)
| ErrSwapChainNotInitializedAtEnd  (* "the swap chain is not initialized yet at End" *)
| ErrWindowNotInitialized          (* "the window handle is not initialized yet" *)
| ErrTooManyConstantBuffers        (* "too many constant buffers" *)
| ErrShaderNotImplemented          (* "shader is not implemented yet" *)
| ErrPixelsOnScreen                (* "Pixels cannot be called on the screen" *)
| ErrPixelsNotImplemented          (* "Image.Pixels is not implemented yet" *)
| ErrReplacePixelsOnScreen         (* "ReplacePixels cannot be called on the screen" *)
| ErrCreateEventFailed (code : Z). (* "CreateEvent failed: %w" *)

Inductive panic : Type :=
| PanicInvalidOperation (c : Z)    (* panic("directx: invalid operation: %d") *)
| PanicImageIDRegistered (id : Z)  (* panic("directx: image ID %d was already registered") *)
| PanicIndexOutOfRange (i len : Z) (* Go run-time: index or slice bound out of range *)
| PanicNilDereference              (* Go run-time: method call or field access through nil *)
| PanicNilMap.                     (* Go run-time: assignment to entry in nil map *)

Inductive result (A : Type) : Type :=
| Ok (a : A)
| Err (e : error)
| Panic (p : panic).
Arguments Ok {A} a.
Arguments Err {A} e.
Arguments Panic {A} p.

Definition is_err {A} (r : result A) : bool :=
  match r with Err _ => true | _ => false end.

(** ** Machine integers *)

Definition uint32 (z : Z) : Z := z mod 2 ^ 32.
Definition uint64 (z : Z) : Z := z mod 2 ^ 64.
Definition int32 (z : Z) : Z := (z + 2 ^ 31) mod 2 ^ 32 - 2 ^ 31.

(** ** Constants *)

Definition frameCount : Z := 2.
Definition numDescriptorsPerFrame : Z := 256.

(** [graphics.ShaderImageNum] is declared outside these two files; the
    layout comment of [pipelineStates.initialize] ("5n+0: constants,
    5n+m (1<=4): textures") fixes it to 4. *)
Definition ShaderImageNum : Z := 4.
Definition numConstantBufferAndSourceTextures : Z := 1 + ShaderImageNum.

(** ** Arrays of length [frameCount] *)

Record perFrame (T : Type) : Type := PerFrame { frame0 : T; frame1 : T }.
Arguments PerFrame {T} _ _.
Arguments frame0 {T} _.
Arguments frame1 {T} _.

Definition pf_get {T} (a : perFrame T) (i : Z) : option T :=
  if i =? 0 then Some (frame0 a) else if i =? 1 then Some (frame1 a) else None.

Definition pf_set {T} (a : perFrame T) (i : Z) (v : T) : perFrame T :=
  if i =? 0 then PerFrame v (frame1 a)
  else if i =? 1 then PerFrame (frame0 a) v else a.

Definition pf_all {T} (v : T) : perFrame T := PerFrame v v.

(** ** Go slices

    A slice is a window of length [sl_len] on a backing array; the
    capacity is the length of the array.  Reslicing keeps the array, so
    [s[:0]] followed by [s[:n]] sees the old elements again: this is how
    the driver reuses its buffers. *)

Record slice (T : Type) : Type := Slice { sl_array : list T; sl_len : nat }.
Arguments Slice {T} _ _.
Arguments sl_array {T} _.
Arguments sl_len {T} _.

Definition nil_slice {T} : slice T := Slice [] 0.
Definition cap {T} (s : slice T) : nat := length (sl_array s).

(** [s[:n]]: legal when [n <= cap s]. *)
Definition reslice {T} (s : slice T) (n : nat) : slice T := Slice (sl_array s) n.

(** [append(s, x)] when [cap s <= len s]: a new array is allocated, the
    [len s] elements are copied, [x] is stored, and the spare capacity
    holds zero values.  The run time at least doubles small arrays. *)
Definition growslice {T} (zero : T) (s : slice T) (x : T) : slice T :=
  let n := sl_len s in
  let newcap := Nat.max (S n) (2 * cap s) in
  Slice (firstn n (sl_array s) ++ x :: repeat zero (newcap - S n)) (S n).

(** The elements of the window. *)
Definition sl_elems {T} (s : slice T) : list T := firstn (sl_len s) (sl_array s).

(** ** Blend operations

    [graphicsdriver.Operation] is an integer type declared outside these
    two files; [operationToBlend] names seven of its constants.  Every
    other value of the type is [OtherOperation]. *)

Inductive Operation : Type :=
| Zero | One | SrcAlpha | DstAlpha | OneMinusSrcAlpha | OneMinusDstAlpha | DstColor
| OtherOperation (raw : Z).

Inductive D3D12_BLEND : Type :=
| D3D12_BLEND_ZERO
| D3D12_BLEND_ONE
| D3D12_BLEND_SRC_ALPHA
| D3D12_BLEND_INV_SRC_ALPHA
| D3D12_BLEND_DEST_ALPHA
| D3D12_BLEND_INV_DEST_ALPHA
| D3D12_BLEND_DEST_COLOR.

Definition operationToBlend (c : Operation) : result D3D12_BLEND :=
  match c with
  | Zero => Ok D3D12_BLEND_ZERO
  | One => Ok D3D12_BLEND_ONE
  | SrcAlpha => Ok D3D12_BLEND_SRC_ALPHA
  | DstAlpha => Ok D3D12_BLEND_DEST_ALPHA
  | OneMinusSrcAlpha => Ok D3D12_BLEND_INV_SRC_ALPHA
  | OneMinusDstAlpha => Ok D3D12_BLEND_INV_DEST_ALPHA
  | DstColor => Ok D3D12_BLEND_DEST_COLOR
  | OtherOperation raw => Panic (PanicInvalidOperation raw)
  end.

(** ** The native side *)

(** COM objects (devices' resources, heaps, blobs, fences, ...) are known
    by the order of their creation. *)
Definition handle : Type := nat.

(** Go pointers to [Image] objects. *)
Definition ptr : Type := nat.

Inductive D3D12_RESOURCE_STATES : Type :=
| D3D12_RESOURCE_STATE_PRESENT
| D3D12_RESOURCE_STATE_RENDER_TARGET
| D3D12_RESOURCE_STATE_PIXEL_SHADER_RESOURCE
| D3D12_RESOURCE_STATE_COPY_DEST
| D3D12_RESOURCE_STATE_COPY_SOURCE
| D3D12_RESOURCE_STATE_GENERIC_READ.

#[global] Instance D3D12_RESOURCE_STATES_eq_dec : EqDecision D3D12_RESOURCE_STATES.
Proof. solve_decision. Defined.

Inductive D3D12_DESCRIPTOR_HEAP_TYPE : Type :=
| D3D12_DESCRIPTOR_HEAP_TYPE_CBV_SRV_UAV
| D3D12_DESCRIPTOR_HEAP_TYPE_SAMPLER
| D3D12_DESCRIPTOR_HEAP_TYPE_RTV.

Inductive D3D12_HEAP_TYPE : Type :=
| D3D12_HEAP_TYPE_DEFAULT
| D3D12_HEAP_TYPE_UPLOAD.

Inductive D3D12_RESOURCE_DIMENSION : Type :=
| D3D12_RESOURCE_DIMENSION_BUFFER
| D3D12_RESOURCE_DIMENSION_TEXTURE2D.

(** What a slot of a descriptor heap holds. *)
Inductive descriptor : Type :=
| ConstantBufferView (buffer : handle) (sizeInBytes : Z)
| ShaderResourceView (resource : option handle)
| RenderTargetView (resource : option handle)
| Sampler.

(** A descriptor heap: its kind, the number of descriptors it was created
    with, and what has been written to its slots.  A CPU or GPU
    descriptor handle is the heap start moved by [Offset(n, size)]; it is
    kept as the pair of the heap and the slot number [n].  The native API
    does not check [n] against [dh_num]: a write past the end is kept in
    [dh_slots] like any other, so that it can be told apart. *)
Record descriptorHeap : Type := DescriptorHeap {
  dh_type : D3D12_DESCRIPTOR_HEAP_TYPE;
  dh_num : Z;
  dh_slots : gmap Z descriptor
}.

Inductive shaderEntry : Type := VSMain | PSMain.

Inductive D3D12_DESCRIPTOR_RANGE_TYPE : Type :=
| D3D12_DESCRIPTOR_RANGE_TYPE_CBV
| D3D12_DESCRIPTOR_RANGE_TYPE_SRV
| D3D12_DESCRIPTOR_RANGE_TYPE_SAMPLER.

Inductive D3D12_SHADER_VISIBILITY : Type :=
| D3D12_SHADER_VISIBILITY_ALL
| D3D12_SHADER_VISIBILITY_PIXEL.

(** One root parameter of the root signature: a descriptor table of one
    range. *)
Record rootParameter : Type := RootParameter {
  rp_rangeType : D3D12_DESCRIPTOR_RANGE_TYPE;
  rp_numDescriptors : Z;
  rp_baseShaderRegister : Z;
  rp_registerSpace : Z;
  rp_shaderVisibility : D3D12_SHADER_VISIBILITY
}.

Inductive D3D12_BLEND_OP : Type := D3D12_BLEND_OP_ADD.
Inductive D3D12_LOGIC_OP : Type := D3D12_LOGIC_OP_NOOP.
Inductive D3D12_FILL_MODE : Type := D3D12_FILL_MODE_SOLID.
Inductive D3D12_CULL_MODE : Type := D3D12_CULL_MODE_NONE.
Inductive DXGI_FORMAT : Type := DXGI_FORMAT_UNKNOWN | DXGI_FORMAT_R8G8B8A8_UNORM.

Record D3D12_RENDER_TARGET_BLEND_DESC : Type := RenderTargetBlendDesc {
  BlendEnable : Z;
  LogicOpEnable : Z;
  SrcBlend : D3D12_BLEND;
  DestBlend : D3D12_BLEND;
  BlendOp : D3D12_BLEND_OP;
  SrcBlendAlpha : D3D12_BLEND;
  DestBlendAlpha : D3D12_BLEND;
  BlendOpAlpha : D3D12_BLEND_OP;
  LogicOp : D3D12_LOGIC_OP;
  RenderTargetWriteMask : Z
}.

Record D3D12_RASTERIZER_DESC : Type := RasterizerDesc {
  FillMode : D3D12_FILL_MODE;
  CullMode : D3D12_CULL_MODE;
  FrontCounterClockwise : Z;
  DepthClipEnable : Z;
  MultisampleEnable : Z;
  AntialiasedLineEnable : Z;
  ForcedSampleCount : Z
}.

Record D3D12_GRAPHICS_PIPELINE_STATE_DESC : Type := PipelineStateDesc {
  pRootSignature : handle;
  VS : handle;
  PS : handle;
  AlphaToCoverageEnable : Z;
  IndependentBlendEnable : Z;
  RenderTarget0 : D3D12_RENDER_TARGET_BLEND_DESC;
  RasterizerState : D3D12_RASTERIZER_DESC;
  NumRenderTargets : Z;
  RTVFormat0 : DXGI_FORMAT;
  SampleCount : Z
}.

(** Native calls that took effect, as the log keeps them. *)
Inductive event : Type :=
(* device *)
| EvCreateCommandQueue (h : handle)
| EvCreateCommandAllocator (h : handle)
| EvCreateFence (initial : Z) (h : handle)
| EvCreateCommandList (allocator : option handle) (h : handle)
| EvCreateDescriptorHeap (ty : D3D12_DESCRIPTOR_HEAP_TYPE) (num : Z) (h : handle)
| EvCreateCommittedResource (heap : D3D12_HEAP_TYPE) (dim : D3D12_RESOURCE_DIMENSION)
    (width height : Z) (initial : D3D12_RESOURCE_STATES) (h : handle)
| EvCreateSampler (heap : handle) (slot : Z)
| EvCreateConstantBufferView (buffer : handle) (sizeInBytes : Z) (heap : handle) (slot : Z)
| EvCreateShaderResourceView (resource : option handle) (heap : handle) (slot : Z)
| EvCreateRenderTargetView (resource : option handle) (heap : handle) (slot : Z)
| EvSerializeRootSignature (params : list rootParameter) (blob : handle)
| EvCreateRootSignature (blob : handle) (h : handle)
| EvD3DCompile (entry : shaderEntry) (blob : handle)
| EvCreateGraphicsPipelineState (desc : D3D12_GRAPHICS_PIPELINE_STATE_DESC) (h : handle)
| EvCreateSwapChainForHwnd (window width height : Z) (h : handle)
| EvGetBuffer (i : Z) (h : handle)
| EvRelease (h : handle)
(* resources *)
| EvMap (h : handle)
| EvUnmap (h : handle)
| EvWrite (h : handle) (offset : Z) (data : list Z)
(* command allocator, command list *)
| EvAllocatorReset (allocator : handle)
| EvCommandListReset (allocator : option handle)
| EvClose
| EvResourceBarrier (resource : option handle) (before after : D3D12_RESOURCE_STATES)
| EvOMSetRenderTargets (heap : handle) (slot : Z)
| EvSetPipelineState (state : option handle)
| EvSetGraphicsRootSignature (sig : option handle)
| EvSetDescriptorHeaps (heaps : list (option handle))
| EvSetGraphicsRootDescriptorTable (index : Z) (heap : handle) (slot : Z)
| EvRSSetViewports (width height : Z)
| EvRSSetScissorRects (left top right bottom : Z)
| EvIASetPrimitiveTopology
| EvIASetVertexBuffers (buffer : handle) (sizeInBytes strideInBytes : Z)
| EvIASetIndexBuffer (buffer : handle) (sizeInBytes : Z)
| EvDrawIndexedInstanced (indexCount instanceCount startIndex : Z)
| EvCopyTextureRegion (dst : option handle) (x y : Z) (src : handle) (right bottom : Z)
(* command queue, swap chain, fences *)
| EvExecuteCommandLists (list_ : handle)
| EvPresent (syncInterval : Z)
| EvSignal (fence : handle) (value : Z)
| EvSetEventOnCompletion (fence : handle) (value : Z) (ev : Z)
| EvWaitForSingleObject (ev : Z) (milliseconds : Z) (waitResult : Z).

(** What the native side answers to one call: an error code or none, and a
    value for the calls that return one. *)
Record answer : Type := Answer { ans_err : option Z; ans_val : Z }.

Definition succeed : answer := Answer None 0.

(** ** The driver's data *)

Record pipelineStatesKey : Type := PipelineStatesKey {
  compositeMode : Z;   (* graphicsdriver.CompositeMode, an integer type *)
  screen : bool
}.

#[global] Instance pipelineStatesKey_eq_dec : EqDecision pipelineStatesKey.
Proof. solve_decision. Defined.

#[global] Instance pipelineStatesKey_countable : Countable pipelineStatesKey.
Proof.
  refine (inj_countable' (fun k => (compositeMode k, screen k))
                         (fun p => PipelineStatesKey p.1 p.2) _).
  intros []; reflexivity.
Defined.

Record pipelineStatesValue : Type := PipelineStatesValue {
  rootSignature : option handle;
  vertexShader : option handle;
  pixelShader : option handle;
  state : option handle
}.

Record pipelineStates : Type := PipelineStates {
  cache : option (gmap pipelineStatesKey pipelineStatesValue);  (* [None]: the nil map *)
  shaderDescriptorHeap : option handle;
  shaderDescriptorSize : Z;
  samplerDescriptorHeap : option handle;
  lastFrameIndex : Z;
  constantBuffers : perFrame (slice (option handle))
}.

Record Image : Type := MkImage {
  img_id : Z;
  img_width : Z;
  img_height : Z;
  img_screen : bool;
  img_state : D3D12_RESOURCE_STATES;
  img_texture : option handle;
  img_rowSizeInBytes : Z;
  img_totalBytes : Z;
  img_stagingBuffer : option handle;
  img_rtvDescriptorHeap : option handle;
  img_needsSync : bool
}.

Record Graphics : Type := MkGraphics {
  commandQueue : option handle;
  rtvDescriptorHeap : option handle;
  rtvDescriptorSize : Z;
  renderTargets : perFrame (option handle);
  commandAllocators : perFrame (option handle);
  fences : perFrame (option handle);
  fenceValues : perFrame Z;
  fenceWaitEvent : Z;
  commandList : option handle;
  vertices : perFrame (slice (option handle));
  indices : perFrame (slice (option handle));
  swapChain : option handle;
  window : Z;
  frameIndex : Z;
  images : option (gmap Z ptr);                (* [None]: the nil map *)
  screenImage : option ptr;
  nextImageID : Z;
  disposedImages : perFrame (list ptr);
  pipeline : pipelineStates                     (* the embedded pipelineStates *)
}.

Record world : Type := World {
  gfx : Graphics;                    (* theGraphics *)
  objs : gmap ptr Image;             (* the Image objects *)
  nextPtr : ptr;
  heaps : gmap handle descriptorHeap;
  trace : list event;                (* newest first *)
  nextHandle : handle;
  oracle : nat -> answer;            (* the answer to the n-th native call *)
  tick : nat                         (* native calls answered so far *)
}.

(** Field updates. *)

Definition set_cache (v : _) (x : pipelineStates) : pipelineStates :=
  PipelineStates v (shaderDescriptorHeap x) (shaderDescriptorSize x) (samplerDescriptorHeap x) (lastFrameIndex x) (constantBuffers x).
Definition set_shaderDescriptorHeap (v : _) (x : pipelineStates) : pipelineStates :=
  PipelineStates (cache x) v (shaderDescriptorSize x) (samplerDescriptorHeap x) (lastFrameIndex x) (constantBuffers x).
Definition set_shaderDescriptorSize (v : _) (x : pipelineStates) : pipelineStates :=
  PipelineStates (cache x) (shaderDescriptorHeap x) v (samplerDescriptorHeap x) (lastFrameIndex x) (constantBuffers x).
Definition set_samplerDescriptorHeap (v : _) (x : pipelineStates) : pipelineStates :=
  PipelineStates (cache x) (shaderDescriptorHeap x) (shaderDescriptorSize x) v (lastFrameIndex x) (constantBuffers x).
Definition set_lastFrameIndex (v : _) (x : pipelineStates) : pipelineStates :=
  PipelineStates (cache x) (shaderDescriptorHeap x) (shaderDescriptorSize x) (samplerDescriptorHeap x) v (constantBuffers x).
Definition set_constantBuffers (v : _) (x : pipelineStates) : pipelineStates :=
  PipelineStates (cache x) (shaderDescriptorHeap x) (shaderDescriptorSize x) (samplerDescriptorHeap x) (lastFrameIndex x) v.
Definition set_img_id (v : _) (x : Image) : Image :=
  MkImage v (img_width x) (img_height x) (img_screen x) (img_state x) (img_texture x) (img_rowSizeInBytes x) (img_totalBytes x) (img_stagingBuffer x) (img_rtvDescriptorHeap x) (img_needsSync x).
Definition set_img_width (v : _) (x : Image) : Image :=
  MkImage (img_id x) v (img_height x) (img_screen x) (img_state x) (img_texture x) (img_rowSizeInBytes x) (img_totalBytes x) (img_stagingBuffer x) (img_rtvDescriptorHeap x) (img_needsSync x).
Definition set_img_height (v : _) (x : Image) : Image :=
  MkImage (img_id x) (img_width x) v (img_screen x) (img_state x) (img_texture x) (img_rowSizeInBytes x) (img_totalBytes x) (img_stagingBuffer x) (img_rtvDescriptorHeap x) (img_needsSync x).
Definition set_img_screen (v : _) (x : Image) : Image :=
  MkImage (img_id x) (img_width x) (img_height x) v (img_state x) (img_texture x) (img_rowSizeInBytes x) (img_totalBytes x) (img_stagingBuffer x) (img_rtvDescriptorHeap x) (img_needsSync x).
Definition set_img_state (v : _) (x : Image) : Image :=
  MkImage (img_id x) (img_width x) (img_height x) (img_screen x) v (img_texture x) (img_rowSizeInBytes x) (img_totalBytes x) (img_stagingBuffer x) (img_rtvDescriptorHeap x) (img_needsSync x).
Definition set_img_texture (v : _) (x : Image) : Image :=
  MkImage (img_id x) (img_width x) (img_height x) (img_screen x) (img_state x) v (img_rowSizeInBytes x) (img_totalBytes x) (img_stagingBuffer x) (img_rtvDescriptorHeap x) (img_needsSync x).
Definition set_img_rowSizeInBytes (v : _) (x : Image) : Image :=
  MkImage (img_id x) (img_width x) (img_height x) (img_screen x) (img_state x) (img_texture x) v (img_totalBytes x) (img_stagingBuffer x) (img_rtvDescriptorHeap x) (img_needsSync x).
Definition set_img_totalBytes (v : _) (x : Image) : Image :=
  MkImage (img_id x) (img_width x) (img_height x) (img_screen x) (img_state x) (img_texture x) (img_rowSizeInBytes x) v (img_stagingBuffer x) (img_rtvDescriptorHeap x) (img_needsSync x).
Definition set_img_stagingBuffer (v : _) (x : Image) : Image :=
  MkImage (img_id x) (img_width x) (img_height x) (img_screen x) (img_state x) (img_texture x) (img_rowSizeInBytes x) (img_totalBytes x) v (img_rtvDescriptorHeap x) (img_needsSync x).
Definition set_img_rtvDescriptorHeap (v : _) (x : Image) : Image :=
  MkImage (img_id x) (img_width x) (img_height x) (img_screen x) (img_state x) (img_texture x) (img_rowSizeInBytes x) (img_totalBytes x) (img_stagingBuffer x) v (img_needsSync x).
Definition set_img_needsSync (v : _) (x : Image) : Image :=
  MkImage (img_id x) (img_width x) (img_height x) (img_screen x) (img_state x) (img_texture x) (img_rowSizeInBytes x) (img_totalBytes x) (img_stagingBuffer x) (img_rtvDescriptorHeap x) v.
Definition set_commandQueue (v : _) (x : Graphics) : Graphics :=
  MkGraphics v (rtvDescriptorHeap x) (rtvDescriptorSize x) (renderTargets x) (commandAllocators x) (fences x) (fenceValues x) (fenceWaitEvent x) (commandList x) (vertices x) (indices x) (swapChain x) (window x) (frameIndex x) (images x) (screenImage x) (nextImageID x) (disposedImages x) (pipeline x).
Definition set_rtvDescriptorHeap (v : _) (x : Graphics) : Graphics :=
  MkGraphics (commandQueue x) v (rtvDescriptorSize x) (renderTargets x) (commandAllocators x) (fences x) (fenceValues x) (fenceWaitEvent x) (commandList x) (vertices x) (indices x) (swapChain x) (window x) (frameIndex x) (images x) (screenImage x) (nextImageID x) (disposedImages x) (pipeline x).
Definition set_rtvDescriptorSize (v : _) (x : Graphics) : Graphics :=
  MkGraphics (commandQueue x) (rtvDescriptorHeap x) v (renderTargets x) (commandAllocators x) (fences x) (fenceValues x) (fenceWaitEvent x) (commandList x) (vertices x) (indices x) (swapChain x) (window x) (frameIndex x) (images x) (screenImage x) (nextImageID x) (disposedImages x) (pipeline x).
Definition set_renderTargets (v : _) (x : Graphics) : Graphics :=
  MkGraphics (commandQueue x) (rtvDescriptorHeap x) (rtvDescriptorSize x) v (commandAllocators x) (fences x) (fenceValues x) (fenceWaitEvent x) (commandList x) (vertices x) (indices x) (swapChain x) (window x) (frameIndex x) (images x) (screenImage x) (nextImageID x) (disposedImages x) (pipeline x).
Definition set_commandAllocators (v : _) (x : Graphics) : Graphics :=
  MkGraphics (commandQueue x) (rtvDescriptorHeap x) (rtvDescriptorSize x) (renderTargets x) v (fences x) (fenceValues x) (fenceWaitEvent x) (commandList x) (vertices x) (indices x) (swapChain x) (window x) (frameIndex x) (images x) (screenImage x) (nextImageID x) (disposedImages x) (pipeline x).
Definition set_fences (v : _) (x : Graphics) : Graphics :=
  MkGraphics (commandQueue x) (rtvDescriptorHeap x) (rtvDescriptorSize x) (renderTargets x) (commandAllocators x) v (fenceValues x) (fenceWaitEvent x) (commandList x) (vertices x) (indices x) (swapChain x) (window x) (frameIndex x) (images x) (screenImage x) (nextImageID x) (disposedImages x) (pipeline x).
Definition set_fenceValues (v : _) (x : Graphics) : Graphics :=
  MkGraphics (commandQueue x) (rtvDescriptorHeap x) (rtvDescriptorSize x) (renderTargets x) (commandAllocators x) (fences x) v (fenceWaitEvent x) (commandList x) (vertices x) (indices x) (swapChain x) (window x) (frameIndex x) (images x) (screenImage x) (nextImageID x) (disposedImages x) (pipeline x).
Definition set_fenceWaitEvent (v : _) (x : Graphics) : Graphics :=
  MkGraphics (commandQueue x) (rtvDescriptorHeap x) (rtvDescriptorSize x) (renderTargets x) (commandAllocators x) (fences x) (fenceValues x) v (commandList x) (vertices x) (indices x) (swapChain x) (window x) (frameIndex x) (images x) (screenImage x) (nextImageID x) (disposedImages x) (pipeline x).
Definition set_commandList (v : _) (x : Graphics) : Graphics :=
  MkGraphics (commandQueue x) (rtvDescriptorHeap x) (rtvDescriptorSize x) (renderTargets x) (commandAllocators x) (fences x) (fenceValues x) (fenceWaitEvent x) v (vertices x) (indices x) (swapChain x) (window x) (frameIndex x) (images x) (screenImage x) (nextImageID x) (disposedImages x) (pipeline x).
Definition set_vertices (v : _) (x : Graphics) : Graphics :=
  MkGraphics (commandQueue x) (rtvDescriptorHeap x) (rtvDescriptorSize x) (renderTargets x) (commandAllocators x) (fences x) (fenceValues x) (fenceWaitEvent x) (commandList x) v (indices x) (swapChain x) (window x) (frameIndex x) (images x) (screenImage x) (nextImageID x) (disposedImages x) (pipeline x).
Definition set_indices (v : _) (x : Graphics) : Graphics :=
  MkGraphics (commandQueue x) (rtvDescriptorHeap x) (rtvDescriptorSize x) (renderTargets x) (commandAllocators x) (fences x) (fenceValues x) (fenceWaitEvent x) (commandList x) (vertices x) v (swapChain x) (window x) (frameIndex x) (images x) (screenImage x) (nextImageID x) (disposedImages x) (pipeline x).
Definition set_swapChain (v : _) (x : Graphics) : Graphics :=
  MkGraphics (commandQueue x) (rtvDescriptorHeap x) (rtvDescriptorSize x) (renderTargets x) (commandAllocators x) (fences x) (fenceValues x) (fenceWaitEvent x) (commandList x) (vertices x) (indices x) v (window x) (frameIndex x) (images x) (screenImage x) (nextImageID x) (disposedImages x) (pipeline x).
Definition set_window (v : _) (x : Graphics) : Graphics :=
  MkGraphics (commandQueue x) (rtvDescriptorHeap x) (rtvDescriptorSize x) (renderTargets x) (commandAllocators x) (fences x) (fenceValues x) (fenceWaitEvent x) (commandList x) (vertices x) (indices x) (swapChain x) v (frameIndex x) (images x) (screenImage x) (nextImageID x) (disposedImages x) (pipeline x).
Definition set_frameIndex (v : _) (x : Graphics) : Graphics :=
  MkGraphics (commandQueue x) (rtvDescriptorHeap x) (rtvDescriptorSize x) (renderTargets x) (commandAllocators x) (fences x) (fenceValues x) (fenceWaitEvent x) (commandList x) (vertices x) (indices x) (swapChain x) (window x) v (images x) (screenImage x) (nextImageID x) (disposedImages x) (pipeline x).
Definition set_images (v : _) (x : Graphics) : Graphics :=
  MkGraphics (commandQueue x) (rtvDescriptorHeap x) (rtvDescriptorSize x) (renderTargets x) (commandAllocators x) (fences x) (fenceValues x) (fenceWaitEvent x) (commandList x) (vertices x) (indices x) (swapChain x) (window x) (frameIndex x) v (screenImage x) (nextImageID x) (disposedImages x) (pipeline x).
Definition set_screenImage (v : _) (x : Graphics) : Graphics :=
  MkGraphics (commandQueue x) (rtvDescriptorHeap x) (rtvDescriptorSize x) (renderTargets x) (commandAllocators x) (fences x) (fenceValues x) (fenceWaitEvent x) (commandList x) (vertices x) (indices x) (swapChain x) (window x) (frameIndex x) (images x) v (nextImageID x) (disposedImages x) (pipeline x).
Definition set_nextImageID (v : _) (x : Graphics) : Graphics :=
  MkGraphics (commandQueue x) (rtvDescriptorHeap x) (rtvDescriptorSize x) (renderTargets x) (commandAllocators x) (fences x) (fenceValues x) (fenceWaitEvent x) (commandList x) (vertices x) (indices x) (swapChain x) (window x) (frameIndex x) (images x) (screenImage x) v (disposedImages x) (pipeline x).
Definition set_disposedImages (v : _) (x : Graphics) : Graphics :=
  MkGraphics (commandQueue x) (rtvDescriptorHeap x) (rtvDescriptorSize x) (renderTargets x) (commandAllocators x) (fences x) (fenceValues x) (fenceWaitEvent x) (commandList x) (vertices x) (indices x) (swapChain x) (window x) (frameIndex x) (images x) (screenImage x) (nextImageID x) v (pipeline x).
Definition set_pipeline (v : _) (x : Graphics) : Graphics :=
  MkGraphics (commandQueue x) (rtvDescriptorHeap x) (rtvDescriptorSize x) (renderTargets x) (commandAllocators x) (fences x) (fenceValues x) (fenceWaitEvent x) (commandList x) (vertices x) (indices x) (swapChain x) (window x) (frameIndex x) (images x) (screenImage x) (nextImageID x) (disposedImages x) v.
Definition set_gfx (v : _) (x : world) : world :=
  World v (objs x) (nextPtr x) (heaps x) (trace x) (nextHandle x) (oracle x) (tick x).
Definition set_objs (v : _) (x : world) : world :=
  World (gfx x) v (nextPtr x) (heaps x) (trace x) (nextHandle x) (oracle x) (tick x).
Definition set_nextPtr (v : _) (x : world) : world :=
  World (gfx x) (objs x) v (heaps x) (trace x) (nextHandle x) (oracle x) (tick x).
Definition set_heaps (v : _) (x : world) : world :=
  World (gfx x) (objs x) (nextPtr x) v (trace x) (nextHandle x) (oracle x) (tick x).
Definition set_trace (v : _) (x : world) : world :=
  World (gfx x) (objs x) (nextPtr x) (heaps x) v (nextHandle x) (oracle x) (tick x).
Definition set_nextHandle (v : _) (x : world) : world :=
  World (gfx x) (objs x) (nextPtr x) (heaps x) (trace x) v (oracle x) (tick x).
Definition set_oracle (v : _) (x : world) : world :=
  World (gfx x) (objs x) (nextPtr x) (heaps x) (trace x) (nextHandle x) v (tick x).
Definition set_tick (v : _) (x : world) : world :=
  World (gfx x) (objs x) (nextPtr x) (heaps x) (trace x) (nextHandle x) (oracle x) v.

Arguments set_cache v x /.
Arguments set_shaderDescriptorHeap v x /.
Arguments set_shaderDescriptorSize v x /.
Arguments set_samplerDescriptorHeap v x /.
Arguments set_lastFrameIndex v x /.
Arguments set_constantBuffers v x /.
Arguments set_img_id v x /.
Arguments set_img_width v x /.
Arguments set_img_height v x /.
Arguments set_img_screen v x /.
Arguments set_img_state v x /.
Arguments set_img_texture v x /.
Arguments set_img_rowSizeInBytes v x /.
Arguments set_img_totalBytes v x /.
Arguments set_img_stagingBuffer v x /.
Arguments set_img_rtvDescriptorHeap v x /.
Arguments set_img_needsSync v x /.
Arguments set_commandQueue v x /.
Arguments set_rtvDescriptorHeap v x /.
Arguments set_rtvDescriptorSize v x /.
Arguments set_renderTargets v x /.
Arguments set_commandAllocators v x /.
Arguments set_fences v x /.
Arguments set_fenceValues v x /.
Arguments set_fenceWaitEvent v x /.
Arguments set_commandList v x /.
Arguments set_vertices v x /.
Arguments set_indices v x /.
Arguments set_swapChain v x /.
Arguments set_window v x /.
Arguments set_frameIndex v x /.
Arguments set_images v x /.
Arguments set_screenImage v x /.
Arguments set_nextImageID v x /.
Arguments set_disposedImages v x /.
Arguments set_pipeline v x /.
Arguments set_gfx v x /.
Arguments set_objs v x /.
Arguments set_nextPtr v x /.
Arguments set_heaps v x /.
Arguments set_trace v x /.
Arguments set_nextHandle v x /.
Arguments set_oracle v x /.
Arguments set_tick v x /.

(** ** The monad *)

Definition M (A : Type) : Type := world -> result A * world.

Definition ret {A} (a : A) (w : world) : result A * world := (Ok a, w).

Definition bind {A B} (m : M A) (k : A -> M B) (w : world) : result B * world :=
  match m w with
  | (Ok a, w') => k a w'
  | (Err e, w') => (Err e, w')
  | (Panic p, w') => (Panic p, w')
  end.

Notation "'let*' x ':=' m 'in' k" := (bind m (fun x => k))
  (at level 10, x name, m at level 100, k at level 200).

Definition throw {A} (e : error) (w : world) : result A * world := (Err e, w).
Definition crash {A} (p : panic) (w : world) : result A * world := (Panic p, w).
Definition gets {A} (f : world -> A) (w : world) : result A * world := (Ok (f w), w).
Definition modify (f : world -> world) (w : world) : result unit * world := (Ok tt, f w).

(** [defer]: the deferred function runs when the surrounding function
    leaves, by [return] or by panic, and sees the function's result.  The
    driver's deferred functions test the named result [ferr]; during a
    panic [ferr] is still nil. *)
Definition defer {A} (body : M A) (deferred : result A -> M unit) (w : world)
  : result A * world :=
  let (r, w1) := body w in (r, snd (deferred r w1)).

Definition when (b : bool) (m : M unit) : M unit := if b then m else ret tt.

(** Reads of the driver's state. *)
Definition getG {A} (f : Graphics -> A) : M A := gets (fun w => f (gfx w)).
Definition getP {A} (f : pipelineStates -> A) : M A := gets (fun w => f (pipeline (gfx w))).

(** Writes. *)
Definition setG (f : Graphics -> Graphics) : M unit :=
  modify (fun w => set_gfx (f (gfx w)) w).
Definition setP (f : pipelineStates -> pipelineStates) : M unit :=
  setG (fun g => set_pipeline (f (pipeline g)) g).

(** Dereferencing a pointer that may be nil. *)
Definition deref {A} (o : option A) : M A :=
  match o with Some a => ret a | None => crash PanicNilDereference end.

(** [a[i]] on an array of length [frameCount]. *)
Definition index {T} (a : perFrame T) (i : Z) : M T :=
  match pf_get a i with
  | Some v => ret v
  | None => crash (PanicIndexOutOfRange i frameCount)
  end.

(** [s[i]] on a slice. *)
Definition at_ {T} (s : slice T) (i : Z) : M T :=
  if (0 <=? i) && (i <? Z.of_nat (sl_len s)) then
    match sl_array s !! Z.to_nat i with
    | Some v => ret v
    | None => crash (PanicIndexOutOfRange i (Z.of_nat (sl_len s)))
    end
  else crash (PanicIndexOutOfRange i (Z.of_nat (sl_len s))).

(** [s[i] = v] for [i] inside the window. *)
Definition store {T} (s : slice T) (i : nat) (v : T) : slice T :=
  Slice (<[i := v]> (sl_array s)) (sl_len s).

(** The idiom of [SetVertices] and [useGraphicsPipelineState]:
    [if cap(s) > idx { s = s[:idx+1] } else { s = append(s, nil) }] with
    [idx = len(s)]. *)
Definition extend (s : slice (option handle)) : slice (option handle) :=
  let idx := sl_len s in
  if (idx <? cap s)%nat then reslice s (S idx) else growslice None s None.

(** The [Image] behind a pointer. *)
Definition image (i : ptr) : M Image :=
  let* o := gets (fun w => objs w !! i) in deref o.

Definition setImage (i : ptr) (f : Image -> Image) : M unit :=
  modify (fun w => set_objs (alter f i (objs w)) w).

(** Native calls. *)
Definition emit (e : event) : M unit := modify (fun w => set_trace (e :: trace w) w).

Definition ask (w : world) : result answer * world :=
  (Ok (oracle w (tick w)), set_tick (S (tick w)) w).

Definition fresh (w : world) : result handle * world :=
  (Ok (nextHandle w), set_nextHandle (S (nextHandle w)) w).

(** A call that returns only an error. *)
Definition native (e : event) : M unit :=
  let* a := ask in
  match ans_err a with
  | Some c => throw (DeviceError c)
  | None => emit e
  end.

(** A call that returns a new object or an error. *)
Definition create (e : handle -> event) : M handle :=
  let* a := ask in
  match ans_err a with
  | Some c => throw (DeviceError c)
  | None => let* h := fresh in let* _ := emit (e h) in ret h
  end.

(** A call that returns a value and cannot fail. *)
Definition query : M Z := let* a := ask in ret (ans_val a).

(** [h.Release()]. *)
Definition release (o : option handle) : M unit :=
  let* h := deref o in emit (EvRelease h).

(** Descriptor heaps. *)
Definition createDescriptorHeap (ty : D3D12_DESCRIPTOR_HEAP_TYPE) (num : Z) : M handle :=
  let* h := create (EvCreateDescriptorHeap ty num) in
  let* _ := modify (fun w => set_heaps (<[h := DescriptorHeap ty num ∅]> (heaps w)) w) in
  ret h.

Definition writeDescriptor (heap : handle) (slot : Z) (d : descriptor) : M unit :=
  modify (fun w =>
    set_heaps (alter (fun dh => DescriptorHeap (dh_type dh) (dh_num dh)
                                  (<[slot := d]> (dh_slots dh))) heap (heaps w)) w).

Definition lift {A} (r : result A) (w : world) : result A * world := (r, w).

(** A method of the command list; the receiver must not be nil. *)
Definition cmd (e : event) : M unit :=
  let* cl := getG commandList in
  let* _ := deref cl in
  emit e.

(** A method of the command list that returns an error. *)
Definition cmdNative (e : event) : M unit :=
  let* cl := getG commandList in
  let* _ := deref cl in
  native e.

Fixpoint forEach {A} (l : list A) (f : A -> M unit) : M unit :=
  match l with
  | [] => ret tt
  | x :: l' => let* _ := f x in forEach l' f
  end.


(** The monadic operations unfold when they are run. *)
Arguments ret {A} a w /.
Arguments bind {A B} m k w /.
Arguments throw {A} e w /.
Arguments crash {A} p w /.
Arguments gets {A} f w /.
Arguments modify f w /.
Arguments defer {A} body deferred w /.
Arguments lift {A} r w /.
Arguments ask w /.
Arguments fresh w /.
Arguments when b m /.
Arguments getG {A} f /.
Arguments getP {A} f /.
Arguments setG f /.
Arguments setP f /.
Arguments deref {A} o /.
Arguments index {T} a i /.
Arguments image i /.
Arguments setImage i f /.
Arguments emit e /.
Arguments native e /.
Arguments create e /.
Arguments query /.
Arguments release o /.
Arguments createDescriptorHeap ty num /.
Arguments writeDescriptor heap slot d /.
Arguments cmd e /.
Arguments cmdNative e /.

(** ** The state at process start *)

Definition zeroPipelineStates : pipelineStates :=
  {| cache := None;
     shaderDescriptorHeap := None;
     shaderDescriptorSize := 0;
     samplerDescriptorHeap := None;
     lastFrameIndex := 0;
     constantBuffers := pf_all nil_slice |}.

(** The zero value of [Graphics]. *)
Definition zeroGraphics : Graphics :=
  {| commandQueue := None;
     rtvDescriptorHeap := None;
     rtvDescriptorSize := 0;
     renderTargets := pf_all None;
     commandAllocators := pf_all None;
     fences := pf_all None;
     fenceValues := pf_all 0;
     fenceWaitEvent := 0;
     commandList := None;
     vertices := pf_all nil_slice;
     indices := pf_all nil_slice;
     swapChain := None;
     window := 0;
     frameIndex := 0;
     images := None;
     screenImage := None;
     nextImageID := 0;
     disposedImages := pf_all [];
     pipeline := zeroPipelineStates |}.

(** The world before [Initialize], for a native side that answers as
    [o] says. *)
Definition boot (o : nat -> answer) : world :=
  {| gfx := zeroGraphics;
     objs := ∅;
     nextPtr := 0%nat;
     heaps := ∅;
     trace := [];
     nextHandle := 1%nat;
     oracle := o;
     tick := 0%nat |}.

(** An oracle that gives the listed answers to the first calls and
    succeeds with value 0 afterwards. *)
Definition script (l : list answer) : nat -> answer :=
  fun n => nth n l succeed.

(** Running one operation after another, while they succeed. *)
Definition exec {A} (m : M A) (w : world) : world := snd (m w).
Definition outcome {A} (m : M A) (w : world) : result A := fst (m w).
(** * The driver *)

Section Driver.

(** Declared in the packages [graphicsdriver] and [graphics], outside the
    two files. *)
Variable Operations : Z -> Operation * Operation.  (* CompositeMode.Operations *)
Variable InternalImageSize : Z -> Z.               (* graphics.InternalImageSize *)
Variable IndicesNum : Z.                           (* graphics.IndicesNum *)
Variable VertexFloatNum : Z.                       (* graphics.VertexFloatNum *)
Variable InvalidShaderID : Z.                      (* graphicsdriver.InvalidShaderID *)

(** ** pipeline_windows.go *)

Definition createBuffer (bufferSize : Z) : M handle :=
  create (EvCreateCommittedResource D3D12_HEAP_TYPE_UPLOAD
            D3D12_RESOURCE_DIMENSION_BUFFER bufferSize 1
            D3D12_RESOURCE_STATE_GENERIC_READ).

Definition initialize : M unit :=
  let* shaderH := createDescriptorHeap D3D12_DESCRIPTOR_HEAP_TYPE_CBV_SRV_UAV
                    (frameCount * numDescriptorsPerFrame
                     * numConstantBufferAndSourceTextures) in
  let* _ := setP (set_shaderDescriptorHeap (Some shaderH)) in
  defer
    (let* size := query in
     let* _ := setP (set_shaderDescriptorSize (uint32 size)) in
     let* samplerH := createDescriptorHeap D3D12_DESCRIPTOR_HEAP_TYPE_SAMPLER 1 in
     let* _ := setP (set_samplerDescriptorHeap (Some samplerH)) in
     let* _ := emit (EvCreateSampler samplerH 0) in
     writeDescriptor samplerH 0 Sampler)
    (fun ferr =>
       when (is_err ferr)
         (let* h := getP shaderDescriptorHeap in
          let* _ := release h in
          setP (set_shaderDescriptorHeap None))).

Definition cacheLookup (p : pipelineStates) (key : pipelineStatesKey)
  : option pipelineStatesValue :=
  match cache p with
  | Some m => m !! key
  | None => None
  end.

Definition rootParams : list rootParameter :=
  [ RootParameter D3D12_DESCRIPTOR_RANGE_TYPE_CBV 1 0 0 D3D12_SHADER_VISIBILITY_ALL;
    RootParameter D3D12_DESCRIPTOR_RANGE_TYPE_SRV 1 0 0 D3D12_SHADER_VISIBILITY_PIXEL;
    RootParameter D3D12_DESCRIPTOR_RANGE_TYPE_SAMPLER 1 0 0 D3D12_SHADER_VISIBILITY_PIXEL ].

Definition rasterizerDesc : D3D12_RASTERIZER_DESC :=
  {| FillMode := D3D12_FILL_MODE_SOLID;
     CullMode := D3D12_CULL_MODE_NONE;
     FrontCounterClockwise := 0;
     DepthClipEnable := 0;
     MultisampleEnable := 0;
     AntialiasedLineEnable := 0;
     ForcedSampleCount := 0 |}.

Definition D3D12_COLOR_WRITE_ENABLE_ALL : Z := 15.

Definition graphicsPipelineState (key : pipelineStatesKey) : M pipelineStatesValue :=
  let* hit := getP (fun p => cacheLookup p key) in
  match hit with
  | Some s => ret s
  | None =>
    let* c := getP cache in
    let* _ := match c with
              | None => setP (set_cache (Some ∅))
              | Some _ => ret tt
              end in
    (* Create a root signature. *)
    let* sig := create (EvSerializeRootSignature rootParams) in
    defer
      (let* rootSignature := create (EvCreateRootSignature sig) in
       defer
         (* Create a shader *)
         (let* vsh := create (EvD3DCompile VSMain) in
          defer
            (let* psh := create (EvD3DCompile PSMain) in
             defer
               (let srcOp := fst (Operations (compositeMode key)) in
                let dstOp := snd (Operations (compositeMode key)) in
                let* srcBlend := lift (operationToBlend srcOp) in
                let* destBlend := lift (operationToBlend dstOp) in
                let* srcBlendAlpha := lift (operationToBlend srcOp) in
                let* destBlendAlpha := lift (operationToBlend dstOp) in
                let renderTargetBlendDesc :=
                  {| BlendEnable := 1;
                     LogicOpEnable := 0;
                     SrcBlend := srcBlend;
                     DestBlend := destBlend;
                     BlendOp := D3D12_BLEND_OP_ADD;
                     SrcBlendAlpha := srcBlendAlpha;
                     DestBlendAlpha := destBlendAlpha;
                     BlendOpAlpha := D3D12_BLEND_OP_ADD;
                     LogicOp := D3D12_LOGIC_OP_NOOP;
                     RenderTargetWriteMask := D3D12_COLOR_WRITE_ENABLE_ALL |} in
                (* Create a pipeline state. *)
                let psoDesc :=
                  {| pRootSignature := rootSignature;
                     VS := vsh;
                     PS := psh;
                     AlphaToCoverageEnable := 0;
                     IndependentBlendEnable := 0;
                     RenderTarget0 := renderTargetBlendDesc;
                     RasterizerState := rasterizerDesc;
                     NumRenderTargets := 1;
                     RTVFormat0 := DXGI_FORMAT_R8G8B8A8_UNORM;
                     SampleCount := 1 |} in
                let* s := create (EvCreateGraphicsPipelineState psoDesc) in
                let psv :=
                  {| rootSignature := Some rootSignature;
                     vertexShader := Some vsh;
                     pixelShader := Some psh;
                     state := Some s |} in
                let* c := getP cache in
                match c with
                | None => crash PanicNilMap
                | Some m =>
                  let* _ := setP (set_cache (Some (<[key := psv]> m))) in
                  ret psv
                end)
               (fun ferr => when (is_err ferr) (release (Some psh))))
            (fun ferr => when (is_err ferr) (release (Some vsh))))
         (fun ferr => when (is_err ferr) (release (Some rootSignature))))
      (fun _ => release (Some sig))
  end.

(** [p.constantBuffers[frameIndex] = s]. *)
Definition setConstantBuffers (frameIndex : Z) (s : slice (option handle)) : M unit :=
  setP (fun p => set_constantBuffers (pf_set (constantBuffers p) frameIndex s) p).

(** The slot of the descriptor table that draw [idx] of frame [frameIndex]
    starts at. *)
Definition tableOffset (frameIndex : Z) (idx : nat) : Z :=
  int32 (frameIndex * numDescriptorsPerFrame
         + numConstantBufferAndSourceTextures * Z.of_nat idx).

Definition useGraphicsPipelineState (frameIndex : Z) (key : pipelineStatesKey)
    (screenWidth screenHeight : Z) (sourceTexture : option handle) : M unit :=
  let* psv := graphicsPipelineState key in
  let* last := getP lastFrameIndex in
  let* _ := when (negb (last =? frameIndex))
              (let* cbs := getP constantBuffers in
               let* s := index cbs frameIndex in
               setConstantBuffers frameIndex (reslice s 0)) in
  let* _ := setP (set_lastFrameIndex frameIndex) in
  let* cbs := getP constantBuffers in
  let* s := index cbs frameIndex in
  let idx := sl_len s in
  if numDescriptorsPerFrame * 2 <=? Z.of_nat idx then throw ErrTooManyConstantBuffers
  else
    let* _ := setConstantBuffers frameIndex (extend s) in
    let* cbs := getP constantBuffers in
    let* s := index cbs frameIndex in
    let* cb := at_ s (Z.of_nat idx) in
    let* cb :=
      match cb with
      | Some cb => ret cb
      | None =>
        let* cb := createBuffer 256 in
        let* _ := setConstantBuffers frameIndex (store s idx (Some cb)) in
        let* hp := getP shaderDescriptorHeap in
        let* h := deref hp in
        let* _ := emit (EvCreateConstantBufferView cb 256 h (tableOffset frameIndex idx)) in
        let* _ := writeDescriptor h (tableOffset frameIndex idx) (ConstantBufferView cb 256) in
        ret cb
      end in
    let* hp := getP shaderDescriptorHeap in
    let* h := deref hp in
    let srvSlot := int32 (frameIndex * numDescriptorsPerFrame
                          + numConstantBufferAndSourceTextures * Z.of_nat idx + 1) in
    let* _ := emit (EvCreateShaderResourceView sourceTexture h srvSlot) in
    let* _ := writeDescriptor h srvSlot (ShaderResourceView sourceTexture) in
    (* Update the constant buffer. *)
    let* _ := native (EvMap cb) in
    let* _ := emit (EvWrite cb 0 [screenWidth; screenHeight]) in
    let* _ := native (EvUnmap cb) in
    let* _ := cmd (EvSetPipelineState (state psv)) in
    let* _ := cmd (EvSetGraphicsRootSignature (rootSignature psv)) in
    let* sp := getP samplerDescriptorHeap in
    let* _ := cmd (EvSetDescriptorHeaps [hp; sp]) in
    let* _ := cmd (EvSetGraphicsRootDescriptorTable 0 h (tableOffset frameIndex idx)) in
    let* _ := cmd (EvSetGraphicsRootDescriptorTable 1 h (tableOffset frameIndex idx + 1)) in
    let* sh := deref sp in
    cmd (EvSetGraphicsRootDescriptorTable 2 sh 0).

(** ** graphics_windows.go *)

(** [g.images[id]]: reading the nil map finds nothing. *)
Definition lookupImage (id : Z) : M (option ptr) :=
  getG (fun g => match images g with Some m => m !! id | None => None end).

Definition setVertices (i : Z) (s : slice (option handle)) : M unit :=
  setG (fun g => set_vertices (pf_set (vertices g) i s) g).
Definition setIndices (i : Z) (s : slice (option handle)) : M unit :=
  setG (fun g => set_indices (pf_set (indices g) i s) g).
Definition setRenderTarget (i : Z) (r : option handle) : M unit :=
  setG (fun g => set_renderTargets (pf_set (renderTargets g) i r) g).
Definition setCommandAllocator (i : Z) (r : option handle) : M unit :=
  setG (fun g => set_commandAllocators (pf_set (commandAllocators g) i r) g).
Definition setFence (i : Z) (r : option handle) : M unit :=
  setG (fun g => set_fences (pf_set (fences g) i r) g).
Definition setFenceValue (i : Z) (v : Z) : M unit :=
  setG (fun g => set_fenceValues (pf_set (fenceValues g) i v) g).
Definition setDisposedImages (i : Z) (l : list ptr) : M unit :=
  setG (fun g => set_disposedImages (pf_set (disposedImages g) i l) g).

(** [for i := 0; i < frameCount; i++]: the body registers a deferred
    function, so the rest of the caller runs inside it. *)
Fixpoint createCommandAllocators (is_ : list Z) (rest : M unit) : M unit :=
  match is_ with
  | [] => rest
  | i :: is' =>
    let* ca := create EvCreateCommandAllocator in
    let* _ := setCommandAllocator i (Some ca) in
    defer (createCommandAllocators is' rest)
      (fun ferr =>
         when (is_err ferr)
           (let* cas := getG commandAllocators in
            let* c := index cas i in
            let* _ := release c in
            setCommandAllocator i None))
  end.

Fixpoint createFences (is_ : list Z) (rest : M unit) : M unit :=
  match is_ with
  | [] => rest
  | i :: is' =>
    let* f := create (EvCreateFence 0) in
    let* _ := setFence i (Some f) in
    defer (createFences is' rest)
      (fun ferr =>
         when (is_err ferr)
           (let* fs := getG fences in
            let* f := index fs i in
            let* _ := release f in
            setFence i None))
  end.

Definition Initialize : M unit :=
  (* Create an event for a fence. *)
  let* a := ask in
  match ans_err a with
  | Some c => throw (ErrCreateEventFailed c)
  | None =>
    let* _ := setG (set_fenceWaitEvent (ans_val a)) in
    (* Create a command queue. *)
    let* c := create EvCreateCommandQueue in
    let* _ := setG (set_commandQueue (Some c)) in
    defer
      ((* Create command allocators. *)
       createCommandAllocators (seqZ 0 frameCount)
         ((* Create frame fences. *)
          createFences (seqZ 0 frameCount)
            ((* Create a command list. *)
             let* cas := getG commandAllocators in
             let* ca0 := index cas 0 in
             let* cl := create (EvCreateCommandList ca0) in
             let* _ := setG (set_commandList (Some cl)) in
             defer
               ((* Close the command list once as this is immediately Reset at Begin. *)
                let* _ := cmdNative EvClose in
                (* Create a descriptor heap for RTV. *)
                let* h := createDescriptorHeap D3D12_DESCRIPTOR_HEAP_TYPE_RTV frameCount in
                let* _ := setG (set_rtvDescriptorHeap (Some h)) in
                defer
                  (let* size := query in
                   let* _ := setG (set_rtvDescriptorSize (uint32 size)) in
                   initialize)
                  (fun ferr =>
                     when (is_err ferr)
                       (let* h := getG rtvDescriptorHeap in
                        let* _ := release h in
                        setG (set_rtvDescriptorHeap None))))
               (fun ferr =>
                  when (is_err ferr)
                    (let* cl := getG commandList in
                     let* _ := release cl in
                     setG (set_commandList None))))))
      (fun ferr =>
         when (is_err ferr)
           (let* q := getG commandQueue in
            let* _ := release q in
            setG (set_commandQueue None)))
  end.

Fixpoint getBuffers (h : handle) (is_ : list Z) : M unit :=
  match is_ with
  | [] => ret tt
  | i :: is' =>
    let* r := create (EvGetBuffer (uint32 i)) in
    let* _ := setRenderTarget i (Some r) in
    defer
      (let* _ := emit (EvCreateRenderTargetView (Some r) h i) in
       let* _ := writeDescriptor h i (RenderTargetView (Some r)) in
       getBuffers h is')
      (fun ferr =>
         when (is_err ferr)
           (let* rts := getG renderTargets in
            let* r := index rts i in
            let* _ := release r in
            setRenderTarget i None))
  end.

Definition initSwapChain (width height : Z) : M unit :=
  (* Create a swap chain. *)
  let* win := getG window in
  let* s := create (EvCreateSwapChainForHwnd win (uint32 width) (uint32 height)) in
  let* _ := setG (set_swapChain (Some s)) in
  defer
    ((* Create frame resources. *)
     let* hp := getG rtvDescriptorHeap in
     let* h := deref hp in
     getBuffers h (seqZ 0 frameCount))
    (fun ferr =>
       when (is_err ferr)
         (let* sc := getG swapChain in
          let* _ := release sc in
          setG (set_swapChain None))).

Definition updateSwapChain (width height : Z) : M unit :=
  let* win := getG window in
  if win =? 0 then throw ErrWindowNotInitialized
  else
    let* sc := getG swapChain in
    let* _ := match sc with
              | None => initSwapChain width height
              | Some _ => ret tt
              end in
    let* sc := getG swapChain in
    let* _ := deref sc in
    let* i := query in
    setG (set_frameIndex (uint32 i)).

Definition SetWindow (window : Z) : M unit := setG (set_window window).

Definition Begin : M unit :=
  let* _ := setG (set_frameIndex 0) in
  (* The swap chain is initialized when NewScreenFramebufferImage is called. *)
  let* sc := getG swapChain in
  let* _ := match sc with
            | Some _ => let* i := query in setG (set_frameIndex (uint32 i))
            | None => ret tt
            end in
  let* fi := getG frameIndex in
  let* cas := getG commandAllocators in
  let* ca := index cas fi in
  let* a := deref ca in
  let* _ := native (EvAllocatorReset a) in
  cmdNative (EvCommandListReset ca).

(** [i.resource()]. *)
Definition resource (i : ptr) : M (option handle) :=
  let* img := image i in
  if img_screen img then
    let* rts := getG renderTargets in
    let* fi := getG frameIndex in
    index rts fi
  else ret (img_texture img).

Definition transiteState (i : ptr) (newState : D3D12_RESOURCE_STATES) : M unit :=
  let* img := image i in
  if bool_decide (img_state img = newState) then ret tt
  else
    let* r := resource i in
    let* _ := cmd (EvResourceBarrier r (img_state img) newState) in
    setImage i (set_img_state newState).

Definition disposeImpl (i : ptr) : M unit :=
  let* img := image i in
  let* _ := match img_rtvDescriptorHeap img with
            | Some h =>
              let* _ := emit (EvRelease h) in setImage i (set_img_rtvDescriptorHeap None)
            | None => ret tt
            end in
  let* _ := match img_stagingBuffer img with
            | Some h =>
              let* _ := emit (EvRelease h) in setImage i (set_img_stagingBuffer None)
            | None => ret tt
            end in
  match img_texture img with
  | Some h => let* _ := emit (EvRelease h) in setImage i (set_img_texture None)
  | None => ret tt
  end.

Definition gpuWaitTimeout : Z := 10 * 1000. (* 10[s] *)

Definition WAIT_OBJECT_0 : Z := 0.
Definition WAIT_TIMEOUT : Z := 258.
Definition WAIT_FAILED : Z := 4294967295.

(** [windows.WaitForSingleObject] of golang.org/x/sys/windows returns
    [(event uint32, err error)].  It is generated with
    [failretval==0xffffffff]: [err] is non-nil exactly when the system
    call returns WAIT_FAILED.  When the time-out elapses the system call
    returns WAIT_TIMEOUT (0x102), so [event] is WAIT_TIMEOUT and [err] is
    nil. *)
Definition WaitForSingleObject (ev milliseconds : Z) : M Z :=
  let* a := ask in
  let r := uint32 (ans_val a) in
  let* _ := emit (EvWaitForSingleObject ev milliseconds r) in
  if r =? WAIT_FAILED then throw (DeviceError (default 0 (ans_err a)))
  else ret r.

Definition End (present : bool) : M unit :=
  let* sc := getG swapChain in
  match sc with
  | None => throw ErrSwapChainNotInitializedAtEnd
  | Some _ =>
    let* _ := when present
                (let* si := getG screenImage in
                 let* i := deref si in
                 transiteState i D3D12_RESOURCE_STATE_PRESENT) in
    let* _ := cmdNative EvClose in
    let* q := getG commandQueue in
    let* _ := deref q in
    let* cl := getG commandList in
    let* l := deref cl in
    let* _ := emit (EvExecuteCommandLists l) in
    if present then
      let* _ := native (EvPresent 1) in
      (* Wait for the previous frame. *)
      let* fi := getG frameIndex in
      let* fs := getG fences in
      let* fence := index fs fi in
      let* fvs := getG fenceValues in
      let* v := index fvs fi in
      let* _ := setFenceValue fi (uint64 (v + 1)) in
      let* f := deref fence in
      let* _ := native (EvSignal f (uint64 (v + 1))) in
      let nextIndex := Z.rem (fi + 1) frameCount in
      let* fvs := getG fenceValues in
      let* expected := index fvs nextIndex in
      let* nf := index fs nextIndex in
      let* nfence := deref nf in
      let* c := query in
      let actual := uint64 c in
      let* _ := when (actual <? expected)
                  (let* ev := getG fenceWaitEvent in
                   let* _ := native (EvSetEventOnCompletion nfence expected ev) in
                   let* _ := WaitForSingleObject ev gpuWaitTimeout in
                   ret tt) in
      let* vs := getG vertices in
      let* s := index vs nextIndex in
      let* _ := setVertices nextIndex (reslice s 0) in
      let* is_ := getG indices in
      let* s := index is_ nextIndex in
      let* _ := setIndices nextIndex (reslice s 0) in
      let* ds := getG disposedImages in
      let* d := index ds nextIndex in
      let* _ := forEach d disposeImpl in
      setDisposedImages nextIndex []
    else ret tt
  end.

(** The vertex and index data are carried as the integers that encode
    the [float32] and [uint16] values. *)
Definition SetVertices (vertexData : list Z) (indexData : list Z) : M unit :=
  let* fi := getG frameIndex in
  (* Create buffers if necessary. *)
  let* vs := getG vertices in
  let* s := index vs fi in
  let vidx := sl_len s in
  let* _ := setVertices fi (extend s) in
  let* vs := getG vertices in
  let* s := index vs fi in
  let* cur := at_ s (Z.of_nat vidx) in
  let* createdV :=
    match cur with
    | Some _ => ret false
    | None =>
      let* b := createBuffer (IndicesNum * VertexFloatNum * 4) in
      let* _ := setVertices fi (store s vidx (Some b)) in
      ret true
    end in
  defer
    (let* is_ := getG indices in
     let* s := index is_ fi in
     let iidx := sl_len s in
     let* _ := setIndices fi (extend s) in
     let* is_ := getG indices in
     let* s := index is_ fi in
     let* cur := at_ s (Z.of_nat iidx) in
     let* createdI :=
       match cur with
       | Some _ => ret false
       | None =>
         let* b := createBuffer (IndicesNum * 2) in
         let* _ := setIndices fi (store s iidx (Some b)) in
         ret true
       end in
     defer
       (let* vs := getG vertices in
        let* s := index vs fi in
        let* vo := at_ s (Z.of_nat vidx) in
        let* v := deref vo in
        let* _ := native (EvMap v) in
        let* _ := emit (EvWrite v 0 vertexData) in
        let* _ := native (EvUnmap v) in
        let* is_ := getG indices in
        let* s := index is_ fi in
        let* io := at_ s (Z.of_nat iidx) in
        let* i := deref io in
        let* _ := native (EvMap i) in
        let* _ := emit (EvWrite i 0 indexData) in
        native (EvUnmap i))
       (fun ferr =>
          when (createdI && is_err ferr)
            (let* is_ := getG indices in
             let* s := index is_ fi in
             let* io := at_ s (Z.of_nat iidx) in
             let* _ := release io in
             setIndices fi (store s iidx None))))
    (fun ferr =>
       when (createdV && is_err ferr)
         (let* vs := getG vertices in
          let* s := index vs fi in
          let* vo := at_ s (Z.of_nat vidx) in
          let* _ := release vo in
          setVertices fi (store s vidx None))).

Definition int64 (z : Z) : Z := (z + 2 ^ 63) mod 2 ^ 64 - 2 ^ 63.

Definition genNextImageID : M Z :=
  let* n := getG nextImageID in
  let* _ := setG (set_nextImageID (int64 (n + 1))) in
  ret (int64 (n + 1)).

(** [&Image{...}]: a new object. *)
Definition newObject (img : Image) : M ptr :=
  let* i := gets nextPtr in
  let* _ := modify (fun w => set_nextPtr (S i) (set_objs (<[i := img]> (objs w)) w)) in
  ret i.

Definition addImage (i : ptr) : M unit :=
  let* m := getG images in
  let* _ := match m with
            | None => setG (set_images (Some ∅))
            | Some _ => ret tt
            end in
  let* img := image i in
  let* m := getG images in
  match m with
  | None => crash PanicNilMap
  | Some m =>
    match m !! img_id img with
    | Some _ => crash (PanicImageIDRegistered (img_id img))
    | None =>
      let* _ := setG (set_images (Some (<[img_id img := i]> m))) in
      when (img_screen img) (setG (set_screenImage (Some i)))
    end
  end.

Definition removeImage (i : ptr) : M unit :=
  let* img := image i in
  let* _ := setG (fun g => set_images (delete (img_id img) <$> images g) g) in
  let* fi := getG frameIndex in
  let* ds := getG disposedImages in
  let* d := index ds fi in
  let* _ := setDisposedImages fi (d ++ [i]) in
  when (img_screen img) (setG (set_screenImage None)).

Definition NewImage (width height : Z) : M ptr :=
  let st := D3D12_RESOURCE_STATE_PIXEL_SHADER_RESOURCE in
  let* t := create (EvCreateCommittedResource D3D12_HEAP_TYPE_DEFAULT
                      D3D12_RESOURCE_DIMENSION_TEXTURE2D
                      (uint64 (InternalImageSize width))
                      (uint32 (InternalImageSize height)) st) in
  (* GetCopyableFootprints: the row size and the total size come from the device. *)
  let* rowSizeInBytes := query in
  let* totalBytes := query in
  let* id := genNextImageID in
  let* i := newObject
              {| img_id := id;
                 img_width := width;
                 img_height := height;
                 img_screen := false;
                 img_state := st;
                 img_texture := Some t;
                 img_rowSizeInBytes := uint64 rowSizeInBytes;
                 img_totalBytes := uint64 totalBytes;
                 img_stagingBuffer := None;
                 img_rtvDescriptorHeap := None;
                 img_needsSync := false |} in
  let* _ := addImage i in
  ret i.

Definition NewScreenFramebufferImage (width height : Z) : M ptr :=
  let* _ := updateSwapChain width height in
  let* id := genNextImageID in
  let* i := newObject
              {| img_id := id;
                 img_width := width;
                 img_height := height;
                 img_screen := true;
                 img_state := D3D12_RESOURCE_STATE_PRESENT;
                 img_texture := None;
                 img_rowSizeInBytes := 0;
                 img_totalBytes := 0;
                 img_stagingBuffer := None;
                 img_rtvDescriptorHeap := None;
                 img_needsSync := false |} in
  let* _ := addImage i in
  ret i.

Definition Dispose (i : ptr) : M unit :=
  (* Dipose the images later as this image might still be used. *)
  removeImage i.

Definition ensureStagingBuffer (i : ptr) : M unit :=
  let* img := image i in
  match img_stagingBuffer img with
  | Some _ => ret tt
  | None =>
    let* b := createBuffer (img_totalBytes img) in
    setImage i (set_img_stagingBuffer (Some b))
  end.

Definition ReadPixels (i : ptr) : M unit :=
  let* img := image i in
  if img_screen img then throw ErrPixelsOnScreen
  else
    let* _ := ensureStagingBuffer i in
    let* _ := transiteState i D3D12_RESOURCE_STATE_COPY_SOURCE in
    throw ErrPixelsNotImplemented.

Record ReplacePixelsArgs : Type := MkReplacePixelsArgs {
  Pixels : list Z;
  X : Z;
  Y : Z;
  Width : Z;
  Height : Z
}.

(** [l[lo:hi]] on a slice whose capacity is its length. *)
Definition subslice (l : list Z) (lo hi : Z) : M (list Z) :=
  if (0 <=? lo) && (lo <=? hi) && (hi <=? Z.of_nat (length l)) then
    ret (firstn (Z.to_nat (hi - lo)) (skipn (Z.to_nat lo) l))
  else crash (PanicIndexOutOfRange hi (Z.of_nat (length l))).

(** [copy(dst[start:], src)] into the mapped staging buffer of
    [totalBytes] bytes. *)
Definition copyRow (staging : handle) (totalBytes start : Z) (src : list Z) : M unit :=
  if (0 <=? start) && (start <=? totalBytes) then
    emit (EvWrite staging start (firstn (Z.to_nat (totalBytes - start)) src))
  else crash (PanicIndexOutOfRange start totalBytes).

Definition ReplacePixels (i : ptr) (args : list ReplacePixelsArgs) : M unit :=
  let* img := image i in
  if img_screen img then throw ErrReplacePixelsOnScreen
  else
    let* _ := ensureStagingBuffer i in
    let* img := image i in
    let* _ := when (img_needsSync img) (setImage i (set_img_needsSync false)) in
    let* _ := transiteState i D3D12_RESOURCE_STATE_COPY_DEST in
    let* img := image i in
    let* sb := deref (img_stagingBuffer img) in
    let* _ := native (EvMap sb) in
    let* _ :=
      forEach args (fun a =>
        let* _ :=
          forEach (seqZ 0 (Height a)) (fun j =>
            let* row := subslice (Pixels a) (j * Width a * 4) ((j + 1) * Width a * 4) in
            copyRow sb (img_totalBytes img)
                    ((Y a + j) * img_rowSizeInBytes img + X a * 4) row) in
        cmd (EvCopyTextureRegion (img_texture img) (uint32 (X a)) (uint32 (Y a)) sb
               (uint32 (X a + Width a)) (uint32 (Y a + Height a)))) in
    native (EvUnmap sb).

Definition internalSize (img : Image) : Z * Z :=
  if img_screen img then (img_width img, img_height img)
  else (InternalImageSize (img_width img), InternalImageSize (img_height img)).

Definition setAsRenderTarget (i : ptr) : M unit :=
  let* _ := transiteState i D3D12_RESOURCE_STATE_RENDER_TARGET in
  let* _ := setImage i (set_img_needsSync true) in
  let* img := image i in
  if img_screen img then
    let* hp := getG rtvDescriptorHeap in
    let* h := deref hp in
    let* fi := getG frameIndex in
    cmd (EvOMSetRenderTargets h (int32 fi))
  else
    let* _ :=
      match img_rtvDescriptorHeap img with
      | Some _ => ret tt
      | None =>
        let* h := createDescriptorHeap D3D12_DESCRIPTOR_HEAP_TYPE_RTV 1 in
        let* _ := setImage i (set_img_rtvDescriptorHeap (Some h)) in
        let* _ := emit (EvCreateRenderTargetView (img_texture img) h 0) in
        writeDescriptor h 0 (RenderTargetView (img_texture img))
      end in
    let* img := image i in
    let* h := deref (img_rtvDescriptorHeap img) in
    cmd (EvOMSetRenderTargets h 0).

Record Region : Type := MkRegion {
  RegionX : Z;
  RegionY : Z;
  RegionWidth : Z;
  RegionHeight : Z
}.

(** The part of [DrawTriangles] up to the viewport and scissor commands. *)
Definition drawSetup (dstID src0 shaderID mode : Z) (dstRegion : Region) : M unit :=
  let* dst := lookupImage dstID in
  if negb (shaderID =? InvalidShaderID) then throw ErrShaderNotImplemented
  else
    let* d := deref dst in
    let* _ := setAsRenderTarget d in
    let* dimg := image d in
    let key := {| compositeMode := mode; screen := img_screen dimg |} in
    let w := fst (internalSize dimg) in
    let h := snd (internalSize dimg) in
    let* src := lookupImage src0 in
    let* s := deref src in
    let* _ := transiteState s D3D12_RESOURCE_STATE_PIXEL_SHADER_RESOURCE in
    let* r := resource s in
    let* fi := getG frameIndex in
    let* _ := useGraphicsPipelineState fi key w h r in
    let* _ := cmd (EvRSSetViewports w h) in
    cmd (EvRSSetScissorRects
           (int32 (RegionX dstRegion)) (int32 (RegionY dstRegion))
           (int32 (RegionX dstRegion + RegionWidth dstRegion))
           (int32 (RegionY dstRegion + RegionHeight dstRegion))).

(** The input-assembler part of [DrawTriangles]:
    [g.vertices[g.frameIndex][len(g.vertices[g.frameIndex])-1]] and the
    same for the indices. *)
Definition bindBuffers : M unit :=
  let* _ := cmd EvIASetPrimitiveTopology in
  let* fi := getG frameIndex in
  let* vs := getG vertices in
  let* s := index vs fi in
  let* vo := at_ s (Z.of_nat (sl_len s) - 1) in
  let* v := deref vo in
  let* _ := cmd (EvIASetVertexBuffers v (uint32 (IndicesNum * VertexFloatNum * 4))
                   (uint32 (VertexFloatNum * 4))) in
  let* is_ := getG indices in
  let* s := index is_ fi in
  let* io := at_ s (Z.of_nat (sl_len s) - 1) in
  let* i := deref io in
  cmd (EvIASetIndexBuffer i (uint32 (IndicesNum * 2))).

(** [srcs] is the array of source image IDs; only [srcs[0]] is read.  Of
    the other parameters of the Go function (offsets, colorM, filter,
    address, srcRegion, uniforms, evenOdd) none is read. *)
Definition DrawTriangles (dstID : Z) (srcs : Z * Z * Z * Z) (shaderID : Z)
    (indexLen indexOffset : Z) (mode : Z) (dstRegion : Region) : M unit :=
  let* _ := drawSetup dstID (srcs.1.1.1) shaderID mode dstRegion in
  let* _ := bindBuffers in
  cmd (EvDrawIndexedInstanced (uint32 indexLen) 1 (uint32 indexOffset)).

(** ** The operations a caller may perform, in any order *)

Inductive operation : Type :=
| OpInitialize
| OpSetWindow (window : Z)
| OpBegin
| OpEnd (present : bool)
| OpSetVertices (vertexData indexData : list Z)
| OpNewImage (width height : Z)
| OpNewScreenFramebufferImage (width height : Z)
| OpDispose (i : ptr)
| OpReadPixels (i : ptr)
| OpReplacePixels (i : ptr) (args : list ReplacePixelsArgs)
| OpDrawTriangles (dstID : Z) (srcs : Z * Z * Z * Z)
    (shaderID indexLen indexOffset mode : Z) (dstRegion : Region).

Definition perform (op : operation) : M unit :=
  match op with
  | OpInitialize => Initialize
  | OpSetWindow window => SetWindow window
  | OpBegin => Begin
  | OpEnd present => End present
  | OpSetVertices vertexData indexData => SetVertices vertexData indexData
  | OpNewImage width height => let* _ := NewImage width height in ret tt
  | OpNewScreenFramebufferImage width height =>
      let* _ := NewScreenFramebufferImage width height in ret tt
  | OpDispose i => Dispose i
  | OpReadPixels i => ReadPixels i
  | OpReplacePixels i args => ReplacePixels i args
  | OpDrawTriangles dstID srcs shaderID indexLen indexOffset mode dstRegion =>
      DrawTriangles dstID srcs shaderID indexLen indexOffset mode dstRegion
  end.

(** The worlds that follow [w] after one operation, and after any number
    of them. *)
Definition step (w w' : world) : Prop := exists op, w' = exec (perform op) w.
Definition reachable : relation world := rtc step.

(** ** What the log says *)

(** The object an event creates. *)
Definition created (e : event) : option handle :=
  match e with
  | EvCreateCommandQueue h | EvCreateCommandAllocator h | EvCreateFence _ h
  | EvCreateCommandList _ h | EvCreateDescriptorHeap _ _ h
  | EvCreateCommittedResource _ _ _ _ _ h | EvSerializeRootSignature _ h
  | EvCreateRootSignature _ h | EvD3DCompile _ h
  | EvCreateGraphicsPipelineState _ h | EvCreateSwapChainForHwnd _ _ _ h
  | EvGetBuffer _ h => Some h
  | _ => None
  end.

(** The cache never loses an entry. *)
Definition cacheGrows : relation world := fun w w' =>
  forall k v, cacheLookup (pipeline (gfx w)) k = Some v ->
              cacheLookup (pipeline (gfx w')) k = Some v.

(** The last element of the window of a slice. *)
Definition lastBuffer (s : slice (option handle)) : option (option handle) :=
  match sl_len s with
  | O => None
  | S n => sl_array s !! n
  end.


(** The log only grows, and by events that satisfy [P]. *)
Definition logs (P : event -> Prop) : relation world := fun w w' =>
  exists evs, trace w' = evs ++ trace w /\ Forall P evs.

(** Every descriptor heap stays, with the kind and the number of
    descriptors it was created with. *)
Definition heapSizes : relation world := fun w w' =>
  forall h dh, heaps w !! h = Some dh ->
    exists dh', heaps w' !! h = Some dh'
                /\ dh_num dh' = dh_num dh /\ dh_type dh' = dh_type dh.


(** * Reasoning about monadic code *)

Lemma bind_Ok {A B} (m : M A) (k : A -> M B) w a w' :
  m w = (Ok a, w') -> bind m k w = k a w'.
Proof. unfold bind. intros ->. reflexivity. Qed.

Lemma bind_Err {A B} (m : M A) (k : A -> M B) w e w' :
  m w = (Err e, w') -> bind m k w = (Err e, w').
Proof. unfold bind. intros ->. reflexivity. Qed.

Lemma bind_Panic {A B} (m : M A) (k : A -> M B) w p w' :
  m w = (Panic p, w') -> bind m k w = (Panic p, w').
Proof. unfold bind. intros ->. reflexivity. Qed.

Lemma bind_inv_Ok {A B} (m : M A) (k : A -> M B) w b w2 :
  bind m k w = (Ok b, w2) ->
  exists a w1, m w = (Ok a, w1) /\ k a w1 = (Ok b, w2).
Proof.
  unfold bind. destruct (m w) as [[a|e|p] w1]; intros H; try discriminate.
  exists a, w1. split; [reflexivity | exact H].
Qed.

Lemma bind_inv_Err {A B} (m : M A) (k : A -> M B) w e w2 :
  bind m k w = (Err e, w2) ->
  m w = (Err e, w2) \/ exists a w1, m w = (Ok a, w1) /\ k a w1 = (Err e, w2).
Proof.
  unfold bind. destruct (m w) as [[a|e'|p] w1]; intros H; try discriminate.
  - right. exists a, w1. split; [reflexivity | exact H].
  - left. injection H as -> ->. reflexivity.
Qed.

(** ** Relations that a computation keeps

    [preserves R m]: whatever the outcome of [m], the world it leaves is
    related by [R] to the world it started in. *)

Definition preserves {A} (R : relation world) (m : M A) : Prop :=
  forall w, R w (snd (m w)).

Section Preserves.
Context (R : relation world) `{!PreOrder R}.

Lemma preserves_ret {A} (a : A) : preserves R (ret a).
Proof. intros w. reflexivity. Qed.

Lemma preserves_throw {A} e : preserves R (@throw A e).
Proof. intros w. reflexivity. Qed.

Lemma preserves_crash {A} p : preserves R (@crash A p).
Proof. intros w. reflexivity. Qed.

Lemma preserves_gets {A} (f : world -> A) : preserves R (gets f).
Proof. intros w. reflexivity. Qed.

Lemma preserves_lift {A} (r : result A) : preserves R (lift r).
Proof. intros w. reflexivity. Qed.

Lemma preserves_modify (f : world -> world) :
  (forall w, R w (f w)) -> preserves R (modify f).
Proof. intros H w. apply H. Qed.

Lemma preserves_bind {A B} (m : M A) (k : A -> M B) :
  preserves R m -> (forall a, preserves R (k a)) -> preserves R (bind m k).
Proof.
  intros Hm Hk w. unfold bind. specialize (Hm w).
  destruct (m w) as [[a|e|p] w1]; simpl in *; try exact Hm.
  etransitivity; [exact Hm | apply Hk].
Qed.

Lemma preserves_defer {A} (body : M A) (deferred : result A -> M unit) :
  preserves R body -> (forall r, preserves R (deferred r)) ->
  preserves R (defer body deferred).
Proof.
  intros Hb Hd w. unfold defer. specialize (Hb w).
  destruct (body w) as [r w1]; simpl in *.
  etransitivity; [exact Hb | apply Hd].
Qed.

Lemma preserves_when b (m : M unit) : preserves R m -> preserves R (when b m).
Proof. intros H. destruct b; [exact H | apply preserves_ret]. Qed.

Lemma preserves_forEach {A} (l : list A) (f : A -> M unit) :
  (forall x, preserves R (f x)) -> preserves R (forEach l f).
Proof.
  intros H. induction l as [|x l IH]; simpl.
  - apply preserves_ret.
  - apply preserves_bind; [apply H | intros _; exact IH].
Qed.

Lemma preserves_deref {A} (o : option A) : preserves R (deref o).
Proof. destruct o; [apply preserves_ret | apply preserves_crash]. Qed.

Lemma preserves_index {T} (a : perFrame T) i : preserves R (index a i).
Proof. unfold index. destruct (pf_get a i); [apply preserves_ret | apply preserves_crash]. Qed.

Lemma preserves_at {T} (s : slice T) i : preserves R (at_ s i).
Proof.
  unfold at_. destruct (_ && _); [| apply preserves_crash].
  destruct (_ !! _); [apply preserves_ret | apply preserves_crash].
Qed.

Lemma preserves_image i : preserves R (image i).
Proof. unfold image. apply preserves_bind; [apply preserves_gets | intros; apply preserves_deref]. Qed.
End Preserves.

(** A relation that compares one component of the world. *)
Definition same {A} (f : world -> A) : relation world := fun w w' => f w = f w'.

#[global] Instance same_preorder {A} (f : world -> A) : PreOrder (same f).
Proof. split; [intros w; reflexivity | intros a b c Hab Hbc; unfold same in *; congruence]. Qed.

Create HintDb preserves.

Ltac head_of t := lazymatch t with ?f _ => head_of f | _ => t end.

(** One step of the decomposition of a goal [preserves R m]; [tac] proves
    the facts about single writes. *)
Ltac tc := try (solve [typeclasses eauto]).

Ltac preserves_step tac :=
  lazymatch goal with
  | |- preserves _ (bind _ _) => apply preserves_bind; tc; [| intros ?]
  | |- preserves _ (ret _) => apply preserves_ret; tc
  | |- preserves _ (throw _) => apply preserves_throw; tc
  | |- preserves _ (crash _) => apply preserves_crash; tc
  | |- preserves _ (gets _) => apply preserves_gets; tc
  | |- preserves _ (lift _) => apply preserves_lift; tc
  | |- preserves _ (deref _) => apply preserves_deref; tc
  | |- preserves _ (index _ _) => apply preserves_index; tc
  | |- preserves _ (at_ _ _) => apply preserves_at; tc
  | |- preserves _ (image _) => apply preserves_image; tc
  | |- preserves _ (defer _ _) => apply preserves_defer; tc; [| intros ?]
  | |- preserves _ (when _ _) => apply preserves_when; tc
  | |- preserves _ (forEach _ _) => apply preserves_forEach; tc; intros ?
  | |- preserves _ (modify _) => apply preserves_modify; tc; intros ?; tac
  | |- preserves _ ask => intros ?; tac
  | |- preserves _ fresh => intros ?; tac
  | |- preserves _ (match ?x with _ => _ end) => destruct x
  | |- preserves _ (let (_, _) := ?x in _) => destruct x
  | |- preserves _ (createCommandAllocators _ _) =>
      change (seqZ 0 frameCount) with [0; 1]; cbn [createCommandAllocators]
  | |- preserves _ (createFences _ _) =>
      change (seqZ 0 frameCount) with [0; 1]; cbn [createFences]
  | |- preserves _ (getBuffers _ _) =>
      change (seqZ 0 frameCount) with [0; 1]; cbn [getBuffers]
  | |- preserves _ ?m => let h := head_of m in unfold h
  end.

Ltac preserves_auto tac := repeat (first [ solve [eauto with preserves] | preserves_step tac ]).

#[global] Instance logs_preorder P : PreOrder (logs P).
Proof.
  split.
  - intros w. exists []. split; [reflexivity | constructor].
  - intros a b c (e1 & H1 & F1) (e2 & H2 & F2). exists (e2 ++ e1). split.
    + rewrite H2, H1. apply app_assoc.
    + apply Forall_app. split; assumption.
Qed.

#[global] Instance heapSizes_preorder : PreOrder heapSizes.
Proof.
  split.
  - intros w h dh H. exists dh. auto.
  - intros a b c Hab Hbc h dh H.
    destruct (Hab h dh H) as (dh1 & H1 & N1 & T1).
    destruct (Hbc h dh1 H1) as (dh2 & H2 & N2 & T2).
    exists dh2. repeat split; congruence.
Qed.

Lemma logs_nil P w w' : trace w' = trace w -> logs P w w'.
Proof. intros H. exists []. split; [exact H | constructor]. Qed.

Lemma logs_one P w w' e : trace w' = e :: trace w -> P e -> logs P w w'.
Proof. intros H HP. exists [e]. split; [exact H | repeat constructor; exact HP]. Qed.



Ltac keeps_same := cbn; reflexivity.

(** ** Running a computation towards a postcondition

    [wp m w Q]: the outcome of [m] in the world [w], and the world it
    leaves, satisfy [Q]. *)

Definition wp {A} (m : M A) (w : world) (Q : result A -> world -> Prop) : Prop :=
  Q (fst (m w)) (snd (m w)).

(** What is left to show after the first half of a [bind]. *)
Definition bindQ {A B} (k : A -> M B) (Q : result B -> world -> Prop)
  : result A -> world -> Prop :=
  fun r w =>
    match r with
    | Ok a => wp (k a) w Q
    | Err e => Q (Err e) w
    | Panic p => Q (Panic p) w
    end.

(** What is left to show after the body of a function with a deferred
    call. *)
Definition deferQ {A} (deferred : result A -> M unit) (Q : result A -> world -> Prop)
  : result A -> world -> Prop :=
  fun r w => wp (deferred r) w (fun _ w' => Q r w').

Lemma wp_intro {A} (m : M A) w (Q : result A -> world -> Prop) r w' :
  m w = (r, w') -> Q r w' -> wp m w Q.
Proof. unfold wp. intros ->. exact (fun H => H). Qed.

Lemma wp_elim {A} (m : M A) w (Q : result A -> world -> Prop) r w' :
  wp m w Q -> m w = (r, w') -> Q r w'.
Proof. unfold wp. intros H E. rewrite E in H. exact H. Qed.

Lemma wp_bind {A B} (m : M A) (k : A -> M B) w Q :
  wp m w (bindQ k Q) -> wp (bind m k) w Q.
Proof. unfold wp, bindQ, bind. destruct (m w) as [[a|e|p] w1]; exact (fun H => H). Qed.

Lemma wp_defer {A} (body : M A) (deferred : result A -> M unit) w Q :
  wp body w (deferQ deferred Q) -> wp (defer body deferred) w Q.
Proof. unfold wp, deferQ, defer. destruct (body w) as [r w1]. exact (fun H => H). Qed.

Lemma wp_ret {A} (a : A) w (Q : result A -> world -> Prop) : Q (Ok a) w -> wp (ret a) w Q.
Proof. exact (fun H => H). Qed.

Lemma wp_throw {A} e w (Q : result A -> world -> Prop) : Q (Err e) w -> wp (throw e) w Q.
Proof. exact (fun H => H). Qed.

Lemma wp_crash {A} p w (Q : result A -> world -> Prop) : Q (Panic p) w -> wp (crash p) w Q.
Proof. exact (fun H => H). Qed.

Lemma wp_lift {A} (r : result A) w (Q : result A -> world -> Prop) : Q r w -> wp (lift r) w Q.
Proof. exact (fun H => H). Qed.

Lemma wp_gets {A} (f : world -> A) w (Q : result A -> world -> Prop) :
  Q (Ok (f w)) w -> wp (gets f) w Q.
Proof. exact (fun H => H). Qed.

Lemma wp_modify (f : world -> world) w (Q : result unit -> world -> Prop) :
  Q (Ok tt) (f w) -> wp (modify f) w Q.
Proof. exact (fun H => H). Qed.

Lemma wp_ask w (Q : result answer -> world -> Prop) :
  Q (Ok (oracle w (tick w))) (set_tick (S (tick w)) w) -> wp ask w Q.
Proof. exact (fun H => H). Qed.

Lemma wp_fresh w (Q : result handle -> world -> Prop) :
  Q (Ok (nextHandle w)) (set_nextHandle (S (nextHandle w)) w) -> wp fresh w Q.
Proof. exact (fun H => H). Qed.

Lemma bindQ_Ok {A B} (k : A -> M B) Q a w : wp (k a) w Q -> bindQ k Q (Ok a) w.
Proof. exact (fun H => H). Qed.

Lemma bindQ_Err {A B} (k : A -> M B) (Q : result B -> world -> Prop) e w :
  Q (Err e) w -> bindQ k Q (Err e) w.
Proof. exact (fun H => H). Qed.

Lemma bindQ_Panic {A B} (k : A -> M B) (Q : result B -> world -> Prop) p w :
  Q (Panic p) w -> bindQ k Q (Panic p) w.
Proof. exact (fun H => H). Qed.

Lemma deferQ_intro {A} (deferred : result A -> M unit) (Q : result A -> world -> Prop) r w :
  wp (deferred r) w (fun _ w' => Q r w') -> deferQ deferred Q r w.
Proof. exact (fun H => H). Qed.

Lemma wp_forEach {A} (I : world -> Prop) (l : list A) (f : A -> M unit) w
    (Q : result unit -> world -> Prop) :
  I w ->
  (forall x w1, In x l -> I w1 ->
     wp (f x) w1 (fun r w2 => match r with Ok _ => I w2 | _ => Q r w2 end)) ->
  (forall w1, I w1 -> Q (Ok tt) w1) ->
  wp (forEach l f) w Q.
Proof.
  revert w. induction l as [|x l IH]; intros w Hw Hf HQ.
  - apply HQ, Hw.
  - cbn [forEach]. apply wp_bind. unfold wp, bindQ.
    pose proof (Hf x w (or_introl eq_refl) Hw) as Hx. unfold wp in Hx.
    destruct (f x w) as [[[]|e|p] w1]; cbn in *; try exact Hx.
    apply IH; [exact Hx | | exact HQ].
    intros y w2 Hy. apply Hf. right. exact Hy.
Qed.

(** Values and worlds are kept in normal form while a computation is
    run. *)
Ltac wp_norm t := eval cbn in t.

Ltac wp_leaf :=
  lazymatch goal with
  | |- bindQ ?k ?Q (Ok ?a) ?w =>
      let a' := wp_norm a in
      let w' := wp_norm w in
      change (bindQ k Q (Ok a') w'); apply bindQ_Ok; cbv beta
  | |- bindQ ?k ?Q (Err ?e) ?w =>
      let w' := wp_norm w in
      change (bindQ k Q (Err e) w'); apply bindQ_Err
  | |- bindQ ?k ?Q (Panic ?p) ?w =>
      let w' := wp_norm w in
      change (bindQ k Q (Panic p) w'); apply bindQ_Panic
  | |- bindQ _ _ ?r _ =>
      let E := fresh "E" in destruct r eqn:E
  | |- deferQ ?d ?Q (Ok ?a) ?w =>
      let w' := wp_norm w in
      change (deferQ d Q (Ok a) w'); apply deferQ_intro; cbv beta
  | |- deferQ ?d ?Q (Err ?e) ?w =>
      let w' := wp_norm w in
      change (deferQ d Q (Err e) w'); apply deferQ_intro; cbv beta
  | |- deferQ ?d ?Q (Panic ?p) ?w =>
      let w' := wp_norm w in
      change (deferQ d Q (Panic p) w'); apply deferQ_intro; cbv beta
  | |- deferQ _ _ ?r _ =>
      let E := fresh "E" in destruct r eqn:E
  end.

(** One step of a run.  A [match] or an [if] on a value that the run
    does not determine splits the goal. *)
Ltac wp_step_core :=
  lazymatch goal with
  | |- wp (bind _ _) _ _ => apply wp_bind
  | |- wp (defer _ _) _ _ => apply wp_defer
  | |- wp (ret _) _ _ => apply wp_ret
  | |- wp (throw _) _ _ => apply wp_throw
  | |- wp (crash _) _ _ => apply wp_crash
  | |- wp (lift _) _ _ => apply wp_lift
  | |- wp (gets _) _ _ => apply wp_gets
  | |- wp (modify _) _ _ => apply wp_modify
  | |- wp ask _ _ => apply wp_ask
  | |- wp fresh _ _ => apply wp_fresh
  | |- wp (match ?x with _ => _ end) _ _ =>
      first [ match goal with H : x = _ |- _ => rewrite H end
            | let x' := wp_norm x in
              let h := head_of x' in
              is_constructor h; change x with x'; cbv beta iota
            | let E := fresh "E" in destruct x eqn:E ]
  | |- wp (createCommandAllocators _ _) _ _ =>
      change (seqZ 0 frameCount) with [0; 1]; cbn [createCommandAllocators]
  | |- wp (createFences _ _) _ _ =>
      change (seqZ 0 frameCount) with [0; 1]; cbn [createFences]
  | |- wp (getBuffers _ _) _ _ =>
      change (seqZ 0 frameCount) with [0; 1]; cbn [getBuffers]
  | |- wp (forEach _ _) _ _ => fail "forEach: use wp_forEach"
  | |- wp ?m _ _ => let h := head_of m in unfold h
  | |- _ => wp_leaf
  end.

Ltac wp_hook := fail.

Ltac wp_step := first [ wp_hook | wp_step_core ].

Ltac wp_run := repeat wp_step.


(** Entering and leaving the calculus. *)
Lemma wp_run_eq {A} (m : M A) w (Q : result A -> world -> Prop) :
  wp m w Q -> forall r w', m w = (r, w') -> Q r w'.
Proof. intros H r w' E. exact (wp_elim _ _ _ _ _ H E). Qed.

Ltac open_world w :=
  let g := fresh "g" in
  let p := fresh "p" in
  destruct w as [g ? ? ? ? ? ? ?]; destruct g as [? ? ? ? ? ? ? ? ? ? ? ? ? ? ? ? ? ? p];
  destruct p as [? ? ? ? ? ?].

(** * The pipeline-state cache *)

Set Default Proof Using "Type".

(** Proofs keep only the parameters of the driver that their statement
    names. *)
Ltac params :=
  try clear InternalImageSize; try clear IndicesNum; try clear VertexFloatNum;
  try clear InvalidShaderID; try clear Operations.

(** The events a world has logged since an earlier one. *)
Ltac log_since t base :=
  lazymatch t with
  | base => constr:(@nil event)
  | ?e :: ?t' => let r := log_since t' base in constr:(e :: r)
  end.

Ltac since_log :=
  lazymatch goal with
  | |- exists evs, ?t = evs ++ ?base /\ _ =>
      let p := log_since t base in exists p; split; [reflexivity |]
  end.

(** Both blend factors of a composite mode are among those that
    [operationToBlend] knows. *)
Definition knownOperations (mode : Z) : Prop :=
  exists src dst,
    operationToBlend (fst (Operations mode)) = Ok src /\
    operationToBlend (snd (Operations mode)) = Ok dst.

Lemma operationToBlend_not_Err c e : operationToBlend c <> Err e.
Proof. params. destruct c; discriminate. Qed.

Ltac no_blend_error :=
  match goal with
  | H : operationToBlend _ = Err _ |- _ =>
      exfalso; exact (operationToBlend_not_Err _ _ H)
  end.

Lemma graphicsPipelineState_hit key w v :
  cacheLookup (pipeline (gfx w)) key = Some v ->
  graphicsPipelineState key w = (Ok v, w).
Proof. params. intros H. unfold graphicsPipelineState. cbn. rewrite H. reflexivity. Qed.

(** What holds when the build of an entry fails in world [w] with error
    [e], leaving [w']. *)
Definition buildFailed (w : world) (e : error) (w' : world) : Prop :=
  (forall k, cacheLookup (pipeline (gfx w')) k = cacheLookup (pipeline (gfx w)) k)
  /\ (exists c, e = DeviceError c
                /\ ans_err (oracle w (Nat.pred (tick w'))) = Some c)
  /\ (exists evs, trace w' = evs ++ trace w
                  /\ forall ev h, In ev evs -> created ev = Some h ->
                                  In (EvRelease h) evs)
  /\ objs w' = objs w /\ heaps w' = heaps w.

Lemma graphicsPipelineState_on_error key w :
  wp (graphicsPipelineState key) w
     (fun r w' => match r with Err e => buildFailed w e w' | _ => True end).
Proof. params.
  open_world w. unfold graphicsPipelineState. wp_run.
  all: try exact I.
  all: try no_blend_error.
  all: unfold buildFailed, cacheLookup; cbn.
  all: (split; [intros k; try reflexivity; apply lookup_empty |]);
       (split; [eexists; split; [reflexivity | eassumption] |]);
       (split; [| split; reflexivity]);
       since_log;
       intros ev h Hin Hcr; cbn in Hin;
       repeat (destruct Hin as [<- | Hin];
               [cbn in Hcr; try discriminate; injection Hcr as <-; cbn; tauto |]);
       contradiction.
Qed.

(** C8.  When a step of the build of a pipeline entry fails (the
    serialization or the creation of the root signature, the compilation
    of the vertex or of the pixel shader, the creation of the pipeline
    state), [graphicsPipelineState] returns the error of that step; and
    whenever it returns an error, the cache holds the entries it held
    before (none is stored for the key), and every object the failed
    build created has been released. *)
Theorem graphicsPipelineState_failure key w :
  cacheLookup (pipeline (gfx w)) key = None ->
  (forall n c,
      (n < 5)%nat ->
      (forall j, (j < n)%nat -> ans_err (oracle w (tick w + j)) = None) ->
      ans_err (oracle w (tick w + n)) = Some c ->
      (n = 4%nat -> knownOperations (compositeMode key)) ->
      fst (graphicsPipelineState key w) = Err (DeviceError c))
  /\
  (forall e w',
      graphicsPipelineState key w = (Err e, w') ->
      (forall k, cacheLookup (pipeline (gfx w')) k = cacheLookup (pipeline (gfx w)) k)
      /\ (exists c, e = DeviceError c
                    /\ ans_err (oracle w (Nat.pred (tick w'))) = Some c)
      /\ (exists evs, trace w' = evs ++ trace w
                      /\ forall ev h, In ev evs -> created ev = Some h ->
                                      In (EvRelease h) evs)
      /\ objs w' = objs w /\ heaps w' = heaps w).
Proof. params.
  intros Hmiss. split.
  - intros n c Hn Hprev Hfail Hops.
    assert (H0 : (1 <= n)%nat -> ans_err (oracle w (tick w)) = None).
    { intros. rewrite <- (Nat.add_0_r (tick w)). apply Hprev. lia. }
    assert (H1 : (2 <= n)%nat -> ans_err (oracle w (S (tick w))) = None).
    { intros. replace (S (tick w)) with (tick w + 1)%nat by lia. apply Hprev. lia. }
    assert (H2 : (3 <= n)%nat -> ans_err (oracle w (S (S (tick w)))) = None).
    { intros. replace (S (S (tick w))) with (tick w + 2)%nat by lia. apply Hprev. lia. }
    assert (H3 : (4 <= n)%nat -> ans_err (oracle w (S (S (S (tick w))))) = None).
    { intros. replace (S (S (S (tick w)))) with (tick w + 3)%nat by lia. apply Hprev. lia. }
    clear Hprev.
    unfold graphicsPipelineState. cbn. rewrite Hmiss. cbn.
    destruct n as [|[|[|[|[|n]]]]]; try lia.
    + rewrite Nat.add_0_r in Hfail.
      destruct (cache (pipeline (gfx w))); cbn; rewrite Hfail; reflexivity.
    + replace (tick w + 1)%nat with (S (tick w)) in Hfail by lia.
      destruct (cache (pipeline (gfx w))); cbn; rewrite H0 by lia; cbn;
        rewrite Hfail; reflexivity.
    + replace (tick w + 2)%nat with (S (S (tick w))) in Hfail by lia.
      destruct (cache (pipeline (gfx w))); cbn; rewrite H0 by lia; cbn;
        rewrite H1 by lia; cbn; rewrite Hfail; reflexivity.
    + replace (tick w + 3)%nat with (S (S (S (tick w)))) in Hfail by lia.
      destruct (cache (pipeline (gfx w))); cbn; rewrite H0 by lia; cbn;
        rewrite H1 by lia; cbn; rewrite H2 by lia; cbn; rewrite Hfail; reflexivity.
    + replace (tick w + 4)%nat with (S (S (S (S (tick w))))) in Hfail by lia.
      destruct (Hops eq_refl) as (src & dst & Hsrc & Hdst).
      destruct (cache (pipeline (gfx w))); cbn; rewrite H0 by lia; cbn;
        rewrite H1 by lia; cbn; rewrite H2 by lia; cbn; rewrite H3 by lia; cbn;
        rewrite Hsrc, Hdst; cbn; rewrite Hfail; reflexivity.
  - intros e w' Hrun.
    exact (wp_run_eq _ _ _ (graphicsPipelineState_on_error key w) _ _ Hrun).
Qed.

#[global] Instance cacheGrows_preorder : PreOrder cacheGrows.
Proof. params.
  split.
  - intros w k v H. exact H.
  - intros a b c Hab Hbc k v H. apply Hbc, Hab, H.
Qed.

Lemma graphicsPipelineState_cacheGrows key : preserves cacheGrows (graphicsPipelineState key).
Proof. params.
  intros w. change (wp (graphicsPipelineState key) w (fun _ w' => cacheGrows w w')).
  open_world w. unfold graphicsPipelineState. wp_run.
  all: unfold cacheGrows, cacheLookup in *; cbn in *; intros k v; try (intros H; exact H);
    try discriminate.
  all: destruct (decide (key = k)) as [<-|Hne];
    [ intros H; congruence | rewrite lookup_insert_ne by exact Hne; intros H; exact H ].
Qed.

(** The blend state of the render target for a pair of blend factors: the
    same factors for the color and for the alpha channel, both added. *)
Definition blendDescFor (src dst : D3D12_BLEND) : D3D12_RENDER_TARGET_BLEND_DESC :=
  {| BlendEnable := 1;
     LogicOpEnable := 0;
     SrcBlend := src;
     DestBlend := dst;
     BlendOp := D3D12_BLEND_OP_ADD;
     SrcBlendAlpha := src;
     DestBlendAlpha := dst;
     BlendOpAlpha := D3D12_BLEND_OP_ADD;
     LogicOp := D3D12_LOGIC_OP_NOOP;
     RenderTargetWriteMask := D3D12_COLOR_WRITE_ENABLE_ALL |}.

(** What holds when an entry [psv] has been built for [key], leaving
    [w']. *)
Definition built (key : pipelineStatesKey) (psv : pipelineStatesValue) (w' : world) : Prop :=
  cacheLookup (pipeline (gfx w')) key = Some psv
  /\ exists src dst desc h,
       operationToBlend (fst (Operations (compositeMode key))) = Ok src
       /\ operationToBlend (snd (Operations (compositeMode key))) = Ok dst
       /\ In (EvCreateGraphicsPipelineState desc h) (trace w')
       /\ state psv = Some h
       /\ rootSignature psv = Some (pRootSignature desc)
       /\ vertexShader psv = Some (VS desc)
       /\ pixelShader psv = Some (PS desc)
       /\ RenderTarget0 desc = blendDescFor src dst.

Lemma graphicsPipelineState_on_ok key w :
  cacheLookup (pipeline (gfx w)) key = None ->
  wp (graphicsPipelineState key) w
     (fun r w' => match r with Ok psv => built key psv w' | _ => True end).
Proof. params.
  intros Hmiss. open_world w. unfold cacheLookup in Hmiss. cbn in Hmiss.
  unfold graphicsPipelineState. wp_run.
  all: try exact I.
  all: try (unfold cacheLookup in *; cbn in *; congruence).
  all: unfold built, cacheLookup; cbn; (split; [apply lookup_insert_eq |]).
  all: repeat match goal with
         | H1 : ?x = Ok ?a, H2 : ?x = Ok ?b |- _ =>
             assert (a = b) by congruence; subst b; clear H2
         end.
  all: do 4 eexists; repeat (split; [eassumption || (cbn; eauto 10) || reflexivity |]);
       reflexivity.
Qed.

Lemma graphicsPipelineState_stores key w psv w' :
  graphicsPipelineState key w = (Ok psv, w') ->
  cacheLookup (pipeline (gfx w')) key = Some psv.
Proof. params.
  intros Hrun.
  destruct (cacheLookup (pipeline (gfx w)) key) as [v|] eqn:Hmiss.
  - rewrite (graphicsPipelineState_hit _ _ _ Hmiss) in Hrun.
    injection Hrun as <- <-. exact Hmiss.
  - exact (proj1 (wp_run_eq _ _ _ (graphicsPipelineState_on_ok key w Hmiss) _ _ Hrun)).
Qed.

Lemma graphicsPipelineState_total key w :
  cacheLookup (pipeline (gfx w)) key = None ->
  knownOperations (compositeMode key) ->
  (forall j, (j < 5)%nat -> ans_err (oracle w (tick w + j)) = None) ->
  exists psv, fst (graphicsPipelineState key w) = Ok psv.
Proof. params.
  intros Hmiss (src & dst & Hsrc & Hdst) Hok.
  assert (H0 : ans_err (oracle w (tick w)) = None).
  { rewrite <- (Nat.add_0_r (tick w)). apply Hok. lia. }
  assert (H1 : ans_err (oracle w (S (tick w))) = None).
  { replace (S (tick w)) with (tick w + 1)%nat by lia. apply Hok. lia. }
  assert (H2 : ans_err (oracle w (S (S (tick w)))) = None).
  { replace (S (S (tick w))) with (tick w + 2)%nat by lia. apply Hok. lia. }
  assert (H3 : ans_err (oracle w (S (S (S (tick w))))) = None).
  { replace (S (S (S (tick w)))) with (tick w + 3)%nat by lia. apply Hok. lia. }
  assert (H4 : ans_err (oracle w (S (S (S (S (tick w)))))) = None).
  { replace (S (S (S (S (tick w))))) with (tick w + 4)%nat by lia. apply Hok. lia. }
  unfold graphicsPipelineState. cbn. rewrite Hmiss. cbn.
  destruct (cache (pipeline (gfx w))) eqn:Hc; cbn; rewrite H0; cbn; rewrite H1; cbn;
    rewrite H2; cbn; rewrite H3; cbn; rewrite Hsrc, Hdst; cbn; rewrite H4; cbn;
    rewrite ?Hc; cbn; eexists; reflexivity.
Qed.

(** C3, as the code has it.  [operationToBlend] maps each of the seven
    blend operations it names to the D3D12 blend factor of the same
    meaning and panics on every other value; the entry built for a key
    whose two operations are among the seven has a pipeline state whose
    render target blends with the source and destination factors of the
    key, the same for color and alpha, and adds; and such an entry is
    built whenever the native calls succeed. *)
Theorem operationToBlend_mapping :
  (operationToBlend Zero = Ok D3D12_BLEND_ZERO
   /\ operationToBlend One = Ok D3D12_BLEND_ONE
   /\ operationToBlend SrcAlpha = Ok D3D12_BLEND_SRC_ALPHA
   /\ operationToBlend DstAlpha = Ok D3D12_BLEND_DEST_ALPHA
   /\ operationToBlend OneMinusSrcAlpha = Ok D3D12_BLEND_INV_SRC_ALPHA
   /\ operationToBlend OneMinusDstAlpha = Ok D3D12_BLEND_INV_DEST_ALPHA
   /\ operationToBlend DstColor = Ok D3D12_BLEND_DEST_COLOR
   /\ forall raw, operationToBlend (OtherOperation raw) = Panic (PanicInvalidOperation raw))
  /\ (forall key w psv w',
        cacheLookup (pipeline (gfx w)) key = None ->
        graphicsPipelineState key w = (Ok psv, w') ->
        exists src dst desc h,
          operationToBlend (fst (Operations (compositeMode key))) = Ok src
          /\ operationToBlend (snd (Operations (compositeMode key))) = Ok dst
          /\ In (EvCreateGraphicsPipelineState desc h) (trace w')
          /\ state psv = Some h
          /\ SrcBlend (RenderTarget0 desc) = src
          /\ SrcBlendAlpha (RenderTarget0 desc) = src
          /\ DestBlend (RenderTarget0 desc) = dst
          /\ DestBlendAlpha (RenderTarget0 desc) = dst
          /\ BlendOp (RenderTarget0 desc) = D3D12_BLEND_OP_ADD
          /\ BlendOpAlpha (RenderTarget0 desc) = D3D12_BLEND_OP_ADD
          /\ BlendEnable (RenderTarget0 desc) = 1)
  /\ (forall key w,
        cacheLookup (pipeline (gfx w)) key = None ->
        knownOperations (compositeMode key) ->
        (forall j, (j < 5)%nat -> ans_err (oracle w (tick w + j)) = None) ->
        exists psv, fst (graphicsPipelineState key w) = Ok psv).
Proof. params.
  split; [repeat split; reflexivity |]. split.
  - intros key w psv w' Hmiss Hrun.
    destruct (wp_run_eq _ _ _ (graphicsPipelineState_on_ok key w Hmiss) _ _ Hrun)
      as (_ & src & dst & desc & h & Hs & Hd & Hin & Hst & _ & _ & _ & Hrt).
    exists src, dst, desc, h. rewrite Hrt. cbn. tauto.
  - exact graphicsPipelineState_total.
Qed.

(** C3, as the claim has it, does not hold: [operationToBlend] returns a
    blend factor for seven operations, not for eight. *)
Lemma operationToBlend_not_eight :
  ~ exists l : list Operation,
      NoDup l /\ length l = 8%nat
      /\ Forall (fun c => exists b, operationToBlend c = Ok b) l.
Proof. params.
  intros (l & Hnd & Hlen & Hall).
  assert (Hincl : incl l [Zero; One; SrcAlpha; DstAlpha; OneMinusSrcAlpha;
                          OneMinusDstAlpha; DstColor]).
  { intros c Hc. rewrite Forall_forall in Hall.
    destruct (Hall c) as [b Hb]; [apply list_elem_of_In; exact Hc |].
    destruct c; cbn; try tauto. discriminate. }
  apply NoDup_ListNoDup in Hnd.
  pose proof (List.NoDup_incl_length Hnd Hincl) as Hle. cbn in Hle. lia.
Qed.

#[local] Hint Resolve graphicsPipelineState_cacheGrows : preserves.

Ltac keeps_cache := cbn; intros ? ? H; exact H.

Lemma perform_cacheGrows op : preserves cacheGrows (perform op).
Proof. params. destruct op; cbn [perform]; preserves_auto keeps_cache. Qed.

Lemma reachable_cacheGrows w w' : reachable w w' -> cacheGrows w w'.
Proof. params.
  induction 1 as [w | w w1 w2 [op ->] _ IH].
  - reflexivity.
  - etransitivity; [apply perform_cacheGrows | exact IH].
Qed.

(** C5.  Once [graphicsPipelineState] has built the entry of a key, every
    later call with that key, after any operations of the driver, returns
    that same entry and leaves the world as it is: no native call is
    made, nothing is created or compiled, and the entry is still in the
    cache. *)
Theorem graphicsPipelineState_idempotent key w psv w1 :
  graphicsPipelineState key w = (Ok psv, w1) ->
  forall w2, reachable w1 w2 ->
    graphicsPipelineState key w2 = (Ok psv, w2)
    /\ cacheLookup (pipeline (gfx w2)) key = Some psv.
Proof. params.
  intros Hbuild w2 Hreach.
  assert (Hin : cacheLookup (pipeline (gfx w2)) key = Some psv).
  { apply (reachable_cacheGrows _ _ Hreach), (graphicsPipelineState_stores _ _ _ _ Hbuild). }
  split; [apply graphicsPipelineState_hit, Hin | exact Hin].
Qed.

(** ** The descriptor table *)








(** * The frame scheduler *)

Lemma Begin_run w :
  wp Begin w (fun r w' =>
    let slot := match swapChain (gfx w) with
                | Some _ => uint32 (ans_val (oracle w (tick w)))
                | None => 0
                end in
    let t := match swapChain (gfx w) with
             | Some _ => S (tick w)
             | None => tick w
             end in
    frameIndex (gfx w') = slot
    /\ forall a cl,
         pf_get (commandAllocators (gfx w)) slot = Some (Some a) ->
         commandList (gfx w) = Some cl ->
         match ans_err (oracle w t), ans_err (oracle w (S t)) with
         | Some c, _ => r = Err (DeviceError c) /\ trace w' = trace w
         | None, Some c =>
             r = Err (DeviceError c) /\ trace w' = EvAllocatorReset a :: trace w
         | None, None =>
             r = Ok tt
             /\ trace w' = EvCommandListReset (Some a) :: EvAllocatorReset a :: trace w
         end).
Proof. params.
  open_world w. unfold Begin. wp_run.
  all: cbn; (split; [reflexivity |]); intros a' cl' Ha Hcl; cbn in *;
    try congruence;
    repeat match goal with
           | H : ans_err _ = _ |- _ => rewrite H
           end;
    split; congruence.
Qed.

(** C6, as the code has it.  [Begin] selects slot 0 when there is no swap
    chain, and the back-buffer index that the swap chain reports when
    there is one; it then resets the command allocator of that slot and
    resets the command list onto that allocator, and returns the error of
    the first of the two resets that fails. *)
Theorem Begin_selects_slot w :
  let slot := match swapChain (gfx w) with
              | Some _ => uint32 (ans_val (oracle w (tick w)))
              | None => 0
              end in
  let t := match swapChain (gfx w) with
           | Some _ => S (tick w)
           | None => tick w
           end in
  frameIndex (gfx (snd (Begin w))) = slot
  /\ forall a cl,
       pf_get (commandAllocators (gfx w)) slot = Some (Some a) ->
       commandList (gfx w) = Some cl ->
       match ans_err (oracle w t), ans_err (oracle w (S t)) with
       | Some c, _ =>
           fst (Begin w) = Err (DeviceError c) /\ trace (snd (Begin w)) = trace w
       | None, Some c =>
           fst (Begin w) = Err (DeviceError c)
           /\ trace (snd (Begin w)) = EvAllocatorReset a :: trace w
       | None, None =>
           fst (Begin w) = Ok tt
           /\ trace (snd (Begin w))
              = EvCommandListReset (Some a) :: EvAllocatorReset a :: trace w
       end.
Proof. params. exact (Begin_run w). Qed.

(** * The resource state tracker *)

Lemma resource_pure i w : snd (resource i w) = w.
Proof. params.
  change (wp (resource i) w (fun _ w' => w' = w)).
  unfold resource. wp_run; reflexivity.
Qed.



(** * Vertex and index buffers *)

Lemma sl_len_extend s : sl_len (extend s) = S (sl_len s).
Proof. params. unfold extend. destruct (_ <? _)%nat; reflexivity. Qed.

Lemma lastBuffer_at s n x :
  sl_len s = S n -> sl_array s !! n = Some x -> lastBuffer s = Some x.
Proof. params. unfold lastBuffer. intros -> H. exact H. Qed.

Lemma at_last (s : slice (option handle)) w :
  at_ s (Z.of_nat (sl_len s) - 1) w
  = (match lastBuffer s with
     | Some x => Ok x
     | None => Panic (PanicIndexOutOfRange (Z.of_nat (sl_len s) - 1) (Z.of_nat (sl_len s)))
     end, w).
Proof. params.
  unfold at_, lastBuffer. destruct s as [arr [|n]]; cbn [sl_len sl_array].
  - reflexivity.
  - replace (Z.of_nat (S n) - 1) with (Z.of_nat n) by lia.
    rewrite Nat2Z.id.
    replace ((0 <=? Z.of_nat n) && (Z.of_nat n <? Z.of_nat (S n))) with true
      by (symmetry; apply andb_true_intro; split; [apply Z.leb_le | apply Z.ltb_lt]; lia).
    destruct (arr !! n); reflexivity.
Qed.

Lemma wp_at_last (s : slice (option handle)) w Q :
  Q (match lastBuffer s with
     | Some x => Ok x
     | None => Panic (PanicIndexOutOfRange (Z.of_nat (sl_len s) - 1) (Z.of_nat (sl_len s)))
     end) w ->
  wp (at_ s (Z.of_nat (sl_len s) - 1)) w Q.
Proof. params. intros H. exact (wp_intro _ _ _ _ _ (at_last s w) H). Qed.

(** What [DrawTriangles] reads when it binds the buffers. *)
Definition drawState (w : world) :=
  (vertices (gfx w), indices (gfx w), frameIndex (gfx w), commandList (gfx w)).

Lemma drawSetup_drawState dstID src0 shaderID mode dstRegion :
  preserves (same drawState) (drawSetup dstID src0 shaderID mode dstRegion).
Proof. params. preserves_auto keeps_same. Qed.

(** While [bindBuffers] is run, reads of the last element go through
    [at_last]. *)
Ltac wp_hook ::=
  lazymatch goal with
  | |- wp (at_ ?s (Z.of_nat (sl_len ?s) - 1)) _ _ =>
      apply wp_at_last; let E := fresh "E" in destruct (lastBuffer s) eqn:E
  end.

Lemma bindBuffers_run w vs is_ :
  pf_get (vertices (gfx w)) (frameIndex (gfx w)) = Some vs ->
  pf_get (indices (gfx w)) (frameIndex (gfx w)) = Some is_ ->
  wp bindBuffers w (fun r w' =>
    (r = Ok tt ->
     exists v i,
       lastBuffer vs = Some (Some v) /\ lastBuffer is_ = Some (Some i)
       /\ gfx w' = gfx w /\ commandList (gfx w) <> None
       /\ trace w' = EvIASetIndexBuffer i (uint32 (IndicesNum * 2))
                     :: EvIASetVertexBuffers v (uint32 (IndicesNum * VertexFloatNum * 4))
                          (uint32 (VertexFloatNum * 4))
                     :: EvIASetPrimitiveTopology :: trace w)
    /\ (sl_len vs = 0%nat -> r <> Ok tt)
    /\ (sl_len vs = 0%nat -> commandList (gfx w) <> None ->
        r = Panic (PanicIndexOutOfRange (-1) 0))).
Proof. params.
  intros Hv Hi. open_world w. cbn in Hv, Hi. unfold bindBuffers.
  wp_run.
  all: cbn; repeat split; intros; try discriminate; try congruence.
  all: try match goal with
       | H : sl_len ?s = 0%nat, E : lastBuffer ?s = Some _ |- _ =>
           unfold lastBuffer in E; rewrite H in E; discriminate
       | H : sl_len ?s = 0%nat |- context [sl_len ?s] => rewrite H; reflexivity
       end.
  all: do 2 eexists; repeat split; try eassumption; try reflexivity; congruence.
Qed.
Ltac wp_hook ::= fail.

Lemma SetVertices_run vertexData indexData w :
  wp (SetVertices vertexData indexData) w (fun r w' =>
    r = Ok tt ->
    let fi := frameIndex (gfx w) in
    frameIndex (gfx w') = fi
    /\ exists vs is_ v i,
         pf_get (vertices (gfx w')) fi = Some vs
         /\ pf_get (indices (gfx w')) fi = Some is_
         /\ lastBuffer vs = Some (Some v) /\ lastBuffer is_ = Some (Some i)
         /\ exists rest,
              trace w' = EvUnmap i :: EvWrite i 0 indexData :: EvMap i
                         :: EvUnmap v :: EvWrite v 0 vertexData :: EvMap v :: rest).
Proof. params.
  open_world w. unfold SetVertices.
  destruct (decide (frameIndex0 = 0)) as [-> | N0]; [|
    destruct (decide (frameIndex0 = 1)) as [-> | N1]].
  3: { assert (Hnone : pf_get vertices0 frameIndex0 = None).
       { unfold pf_get. rewrite (proj2 (Z.eqb_neq _ _) N0), (proj2 (Z.eqb_neq _ _) N1).
         reflexivity. }
       wp_run. intros; discriminate. }
  all: wp_run.
  all: try (intros; discriminate).
  all: intros _; cbn; (split; [reflexivity |]); do 4 eexists;
    (split; [reflexivity |]); (split; [reflexivity |]);
    (split; [| split; [| eexists; reflexivity]]).
  all: eapply lastBuffer_at;
    [ cbn; rewrite sl_len_extend; reflexivity
    | rewrite Nat2Z.id in *; cbn; eassumption ].
Qed.

Lemma cmd_run e w cl :
  commandList (gfx w) = Some cl -> cmd e w = (Ok tt, set_trace (e :: trace w) w).
Proof. params. intros H. cbn. rewrite H. reflexivity. Qed.

(** C10.  A successful [SetVertices] leaves, as the last elements of the
    vertex and index buffer lists of the current frame slot, the buffers
    it has just written the data to.  [DrawTriangles] binds the last
    elements of these two lists.  When the vertex list of the current
    slot is empty, [DrawTriangles] does not succeed: once the setup of
    the draw is done, indexing the list at [len-1] panics with index -1
    out of range. *)
Theorem DrawTriangles_binds_last_buffers :
  (forall vertexData indexData w w',
      SetVertices vertexData indexData w = (Ok tt, w') ->
      let fi := frameIndex (gfx w) in
      frameIndex (gfx w') = fi
      /\ exists vs is_ v i,
           pf_get (vertices (gfx w')) fi = Some vs
           /\ pf_get (indices (gfx w')) fi = Some is_
           /\ lastBuffer vs = Some (Some v) /\ lastBuffer is_ = Some (Some i)
           /\ exists rest,
                trace w' = EvUnmap i :: EvWrite i 0 indexData :: EvMap i
                           :: EvUnmap v :: EvWrite v 0 vertexData :: EvMap v :: rest)
  /\ (forall dstID srcs shaderID indexLen indexOffset mode dstRegion w r w' vs is_,
        pf_get (vertices (gfx w)) (frameIndex (gfx w)) = Some vs ->
        pf_get (indices (gfx w)) (frameIndex (gfx w)) = Some is_ ->
        DrawTriangles dstID srcs shaderID indexLen indexOffset mode dstRegion w = (r, w') ->
        (r = Ok tt ->
         exists v i rest,
           lastBuffer vs = Some (Some v) /\ lastBuffer is_ = Some (Some i)
           /\ trace w' = EvDrawIndexedInstanced (uint32 indexLen) 1 (uint32 indexOffset)
                         :: EvIASetIndexBuffer i (uint32 (IndicesNum * 2))
                         :: EvIASetVertexBuffers v (uint32 (IndicesNum * VertexFloatNum * 4))
                              (uint32 (VertexFloatNum * 4))
                         :: EvIASetPrimitiveTopology :: rest)
        /\ (sl_len vs = 0%nat -> r <> Ok tt)
        /\ (sl_len vs = 0%nat ->
            fst (drawSetup dstID (srcs.1.1.1) shaderID mode dstRegion w) = Ok tt ->
            commandList (gfx w) <> None ->
            r = Panic (PanicIndexOutOfRange (-1) 0))).
Proof. params.
  split.
  - intros vertexData indexData w w' Hrun.
    exact (wp_run_eq _ _ _ (SetVertices_run vertexData indexData w) _ _ Hrun eq_refl).
  - intros dstID srcs shaderID indexLen indexOffset mode dstRegion w r w' vs is_ Hv Hi.
    unfold DrawTriangles.
    pose proof (drawSetup_drawState dstID (srcs.1.1.1) shaderID mode dstRegion w) as Hkeep.
    unfold same, drawState in Hkeep.
    destruct (drawSetup dstID (srcs.1.1.1) shaderID mode dstRegion w) as [[[]|e|p] w1] eqn:Hd;
      cbn [snd fst] in *.
    2: { rewrite (bind_Err _ _ _ _ _ Hd). intros H. injection H as <- <-.
         repeat split; intros; discriminate. }
    2: { rewrite (bind_Panic _ _ _ _ _ Hd). intros H. injection H as <- <-.
         repeat split; intros; discriminate. }
    rewrite (bind_Ok _ _ _ _ _ Hd).
    injection Hkeep as Kv Ki Kf Kc.
    assert (Hv1 : pf_get (vertices (gfx w1)) (frameIndex (gfx w1)) = Some vs) by congruence.
    assert (Hi1 : pf_get (indices (gfx w1)) (frameIndex (gfx w1)) = Some is_) by congruence.
    pose proof (bindBuffers_run w1 vs is_ Hv1 Hi1) as Hb. unfold wp in Hb.
    destruct (bindBuffers w1) as [[[]|e|p] w2] eqn:Hbb; cbn [snd fst] in Hb;
      destruct Hb as (Hok & Hnot & Hpanic).
    2: { rewrite (bind_Err _ _ _ _ _ Hbb). intros H. injection H as <- <-.
         repeat split; intros; try discriminate. apply Hpanic; congruence. }
    2: { rewrite (bind_Panic _ _ _ _ _ Hbb). intros H. injection H as <- <-.
         repeat split; intros; try discriminate. apply Hpanic; congruence. }
    rewrite (bind_Ok _ _ _ _ _ Hbb).
    destruct (Hok eq_refl) as (v & i & Lv & Li & Hg & Hcl & Htr).
    destruct (commandList (gfx w1)) as [cl|] eqn:Hcl1; [| congruence].
    rewrite (cmd_run _ _ cl) by congruence.
    intros H. injection H as <- <-. split; [| split].
    + intros _. exists v, i. eexists. repeat split; try assumption. cbn. rewrite Htr. reflexivity.
    + intros Hz. exfalso. exact (Hnot Hz eq_refl).
    + intros Hz. exfalso. exact (Hnot Hz eq_refl).
Qed.

(** * Further properties of the driver *)

(** ** Blend factors *)

(** X22.  Two operations that [operationToBlend] maps to the same blend factor
    are the same operation. *)
Theorem operationToBlend_injective a b x :
  operationToBlend a = Ok x -> operationToBlend b = Ok x -> a = b.
Proof. params. destruct a, b; cbn; intros Ha Hb; congruence. Qed.

(** ** Deferred disposal *)

(** The native objects of an image, in the order [disposeImpl] releases
    them, newest first. *)
Definition releasesOf (img : Image) : list event :=
  match img_texture img with Some h => [EvRelease h] | None => [] end
  ++ match img_stagingBuffer img with Some h => [EvRelease h] | None => [] end
  ++ match img_rtvDescriptorHeap img with Some h => [EvRelease h] | None => [] end.

(** An image whose native objects are gone. *)
Definition cleared (img : Image) : Prop :=
  img_texture img = None /\ img_stagingBuffer img = None
  /\ img_rtvDescriptorHeap img = None.

Definition clearImage (img : Image) : Image :=
  set_img_texture None (set_img_stagingBuffer None (set_img_rtvDescriptorHeap None img)).

Lemma world_eta w :
  w = World (gfx w) (objs w) (nextPtr w) (heaps w) (trace w) (nextHandle w)
        (oracle w) (tick w).
Proof. destruct w; reflexivity. Qed.

Lemma disposeImpl_run i w :
  wp (disposeImpl i) w (fun r w' =>
    match objs w !! i with
    | None => r = Panic PanicNilDereference /\ w' = w
    | Some img =>
        r = Ok tt
        /\ exists O, w' = set_objs O (set_trace (releasesOf img ++ trace w) w)
             /\ O !! i = Some (clearImage img)
             /\ forall j, j <> i -> O !! j = objs w !! j
    end).
Proof. params.
  unfold disposeImpl. wp_run.
  all: cbn; try (split; [reflexivity | destruct w; reflexivity]).
  all: split; [reflexivity |]; eexists; split; [| split].
  all: try (unfold releasesOf;
            repeat match goal with
                   | H : ?x = _ |- context [?x] => rewrite H
                   end; cbn; first [reflexivity | exact (world_eta w)]).
  all: try (intros j Hj; cbn; rewrite ?lookup_alter_ne by congruence; reflexivity).
  all: cbn; rewrite ?lookup_alter_eq;
    match goal with H : objs _ !! _ = Some _ |- _ => rewrite H end;
    cbn; f_equal; unfold clearImage;
    match goal with H : objs _ !! _ = Some ?img |- _ => destruct img end;
    cbn in *; congruence.
Qed.

Lemma clearImage_idem img : clearImage (clearImage img) = clearImage img.
Proof. reflexivity. Qed.

(** What the loop over the disposed images of a slot does: it changes
    only the listed objects and only appends releases of their native
    objects to the log; when it comes to its end, every listed image has
    lost its native objects and each of them was released. *)
Lemma disposeAll_run d : forall w,
  wp (forEach d disposeImpl) w (fun r w' =>
    exists O T,
      w' = set_objs O (set_trace (T ++ trace w) w)
      /\ (forall j, j ∉ d -> O !! j = objs w !! j)
      /\ (forall e, e ∈ T ->
            exists i img, i ∈ d /\ objs w !! i = Some img /\ e ∈ releasesOf img)
      /\ (forall e, r <> Err e)
      /\ (r = Ok tt ->
          forall i, i ∈ d ->
            exists img, objs w !! i = Some img
              /\ O !! i = Some (clearImage img)
              /\ forall e, e ∈ releasesOf img -> e ∈ T)).
Proof. params.
  induction d as [|x l IH]; intros w; unfold wp.
  - cbn. exists (objs w), []. split; [exact (world_eta w) |].
    split; [reflexivity |]. split; [intros e He; inversion He |].
    split; [discriminate |]. intros _ i Hi. inversion Hi.
  - cbn [forEach]. unfold bind.
    pose proof (disposeImpl_run x w) as Hx. unfold wp in Hx.
    destruct (disposeImpl x w) as [r1 w1]. cbn [fst snd] in Hx.
    destruct (objs w !! x) as [img|] eqn:Ex.
    + destruct Hx as (-> & O1 & -> & Hx1 & Hx2).
      specialize (IH (set_objs O1 (set_trace (releasesOf img ++ trace w) w))).
      unfold wp in IH.
      destruct (forEach l disposeImpl _) as [r2 w2]. cbn [fst snd] in *.
      destruct IH as (O & T & -> & Hout & Hrel & Herr & Hok).
      exists O, (T ++ releasesOf img). cbn in *.
      split; [rewrite <- app_assoc; reflexivity |].
      split; [| split; [| split; [exact Herr |]]].
      * intros j Hj. rewrite Hout by (intros Hin; apply Hj; right; exact Hin).
        apply Hx2. intros ->. apply Hj. left.
      * intros e He. apply elem_of_app in He as [He|He].
        -- destruct (Hrel e He) as (i & img' & Hi & Hlk & Hin).
           destruct (decide (i = x)) as [->|Hne].
           ++ rewrite Hx1 in Hlk. injection Hlk as <-. inversion Hin.
           ++ exists i, img'. split; [right; exact Hi |].
              split; [rewrite <- Hx2 by exact Hne; exact Hlk | exact Hin].
        -- exists x, img. split; [left | split; [exact Ex | exact He]].
      * intros Hr i Hi. destruct (decide (i = x)) as [->|Hne].
        -- exists img. split; [exact Ex |]. split.
           ++ destruct (decide (x ∈ l)) as [Hxl|Hxl].
              ** destruct (Hok Hr x Hxl) as (img' & Hlk & HO & _).
                 rewrite Hx1 in Hlk. injection Hlk as <-. exact HO.
              ** rewrite Hout by exact Hxl. exact Hx1.
           ++ intros e He. apply elem_of_app. right. exact He.
        -- apply elem_of_cons in Hi as [Hi|Hi]; [contradiction |].
           destruct (Hok Hr i Hi) as (img' & Hlk & HO & Hall).
           exists img'. split; [rewrite <- Hx2 by exact Hne; exact Hlk |].
           split; [exact HO |]. intros e He. apply elem_of_app. left. apply Hall, He.
    + destruct Hx as [-> ->]. exists (objs w), []. cbn.
      split; [exact (world_eta w) |]. split; [reflexivity |].
      split; [intros e He; inversion He |]. split; [discriminate | discriminate].
Qed.

Lemma wp_disposeAll d w (Q : result unit -> world -> Prop) :
  (forall r O T,
     (forall j, j ∉ d -> O !! j = objs w !! j) ->
     (forall e, e ∈ T ->
        exists i img, i ∈ d /\ objs w !! i = Some img /\ e ∈ releasesOf img) ->
     (forall e, r <> Err e) ->
     (r = Ok tt ->
      forall i, i ∈ d ->
        exists img, objs w !! i = Some img
          /\ O !! i = Some (clearImage img)
          /\ forall e, e ∈ releasesOf img -> e ∈ T) ->
     Q r (set_objs O (set_trace (T ++ trace w) w))) ->
  wp (forEach d disposeImpl) w Q.
Proof. params.
  intros H. pose proof (disposeAll_run d w) as Hd. unfold wp in *.
  destruct (forEach d disposeImpl w) as [r w']. cbn [fst snd] in *.
  destruct Hd as (O & T & -> & H1 & H2 & H3 & H4). apply H; assumption.
Qed.

Lemma pf_get_out {T} (a : perFrame T) i : i <> 0 -> i <> 1 -> pf_get a i = None.
Proof. params.
  unfold pf_get. intros H0 H1.
  destruct (Z.eqb_spec i 0); [contradiction |].
  destruct (Z.eqb_spec i 1); [contradiction | reflexivity].
Qed.

(** ** The end of a frame *)

(** What an image is created with: its ID, size, screen flag, texture and
    footprint. *)
Definition fixedFields (img : Image) :=
  (img_id img, img_width img, img_height img, img_screen img, img_texture img,
   img_rowSizeInBytes img, img_totalBytes img).

(** What a presenting [End] that returns nil has done to the driver's
    state: the fence value of the current slot is one more; in the other
    slot the vertex and index lists are empty and keep their arrays, and
    the list of disposed images is empty; every image that was on that
    list has lost its native objects, each of them released; every other
    image is there as it was created. *)
Definition reclaimed (w w' : world) : Prop :=
  let fi := frameIndex (gfx w) in
  let next := Z.rem (fi + 1) frameCount in
  exists vs is_ d v evs,
    pf_get (vertices (gfx w)) next = Some vs
    /\ pf_get (indices (gfx w)) next = Some is_
    /\ pf_get (disposedImages (gfx w)) next = Some d
    /\ pf_get (fenceValues (gfx w)) fi = Some v
    /\ gfx w'
       = set_disposedImages (pf_set (disposedImages (gfx w)) next [])
           (set_indices (pf_set (indices (gfx w)) next (reslice is_ 0))
              (set_vertices (pf_set (vertices (gfx w)) next (reslice vs 0))
                 (set_fenceValues (pf_set (fenceValues (gfx w)) fi (uint64 (v + 1)))
                    (gfx w))))
    /\ trace w' = evs ++ trace w
    /\ (forall i, i ∈ d ->
          exists img img',
            objs w !! i = Some img /\ objs w' !! i = Some img' /\ cleared img'
            /\ forall e, e ∈ releasesOf img -> e ∈ evs)
    /\ (forall j img, j ∉ d -> objs w !! j = Some img ->
          exists img', objs w' !! j = Some img' /\ fixedFields img' = fixedFields img).

Ltac wp_hook ::=
  lazymatch goal with
  | |- context [Z.rem (0 + 1) frameCount] => change (Z.rem (0 + 1) frameCount) with 1
  | |- context [Z.rem (1 + 1) frameCount] => change (Z.rem (1 + 1) frameCount) with 0
  | |- wp (forEach _ disposeImpl) _ _ =>
      apply wp_disposeAll; intros ? ? ? ? ? ? ?
  | Hn0 : ?i <> 0, Hn1 : ?i <> 1 |- wp (index ?a ?i) _ _ =>
      unfold index; rewrite (pf_get_out a i Hn0 Hn1)
  end.

Lemma End_true_run w :
  wp (End true) w (fun r w' => r = Ok tt -> reclaimed w w').
Proof. params.
  open_world w.
  destruct (decide (frameIndex0 = 0)) as [->|Hn0];
    [| destruct (decide (frameIndex0 = 1)) as [->|Hn1]].
  all: unfold End; wp_run.
  all: cbn; intros Hr; try discriminate.
  all: unfold reclaimed; cbn; do 5 eexists; repeat (split; [reflexivity |]).
  all: split;
    [ match goal with
      | |- ?T ++ ?tail = _ ++ ?base =>
          let p := log_since tail base in change tail with (p ++ base); apply app_assoc
      end |].
  all: split.
  all: try (lazymatch goal with |- forall i, i ∈ _ -> _ => idtac end;
            intros j Hj;
            match goal with
            | Hok : Ok ?a = Ok tt -> forall i, i ∈ _ -> _ |- _ =>
                destruct a; destruct (Hok eq_refl j Hj) as (img & Hlk & HO & Hall)
            end; cbn in Hlk).
  all: try (match goal with
            | Hlk : alter _ ?p _ !! _ = Some _ |- _ =>
                destruct (decide (j = p)) as [->|Hne];
                [ rewrite lookup_alter_eq in Hlk;
                  match goal with E : _ !! p = Some _ |- _ => rewrite E in Hlk end;
                  cbn in Hlk; injection Hlk as <-
                | rewrite lookup_alter_ne in Hlk by congruence ]
            end).
  all: try (do 2 eexists; split; [eassumption |]; split; [exact HO |];
            split; [repeat split |]; intros e He; apply elem_of_app; left;
            apply Hall, He).
  all: intros j img Hj Hlk;
    match goal with
    | Hout : forall j, j ∉ _ -> ?O !! j = _ |- _ => rewrite (Hout j Hj)
    end; cbn.
  all: try (exists img; split; [exact Hlk | reflexivity]).
  all: match goal with
       | |- context [alter _ ?p _ !! _] =>
           destruct (decide (j = p)) as [->|Hne];
           [ rewrite lookup_alter_eq, Hlk; cbn; eexists; split; reflexivity
           | rewrite lookup_alter_ne by congruence; exists img;
             split; [exact Hlk | reflexivity] ]
       end.
Qed.
Ltac wp_hook ::= fail.

(** X1.  A presenting [End] that returns nil has bumped the fence value of the
    current slot by one and reclaimed the other slot: its vertex and index
    lists are empty but keep their arrays, its list of disposed images is
    empty, and every image that was on that list has lost its texture,
    staging buffer and descriptor heap, each released in the log of this
    call.  Nothing else of the driver's state has changed. *)
Theorem End_reclaims_other_slot w :
  fst (End true w) = Ok tt -> reclaimed w (snd (End true w)).
Proof. params. exact (End_true_run w). Qed.

(** X3.  [End] without presenting changes neither the driver's state nor any
    image nor any descriptor heap, whatever its outcome; when it returns
    nil it has recorded exactly the closing of the command list and its
    submission to the queue: no present, no fence signal, no wait and no
    release. *)
Theorem End_false_only_submits w :
  gfx (snd (End false w)) = gfx w
  /\ objs (snd (End false w)) = objs w
  /\ heaps (snd (End false w)) = heaps w
  /\ (fst (End false w) = Ok tt ->
      exists cl, commandList (gfx w) = Some cl
                 /\ trace (snd (End false w))
                    = EvExecuteCommandLists cl :: EvClose :: trace w).
Proof. params.
  change (wp (End false) w (fun r w' =>
    gfx w' = gfx w /\ objs w' = objs w /\ heaps w' = heaps w
    /\ (r = Ok tt -> exists cl, commandList (gfx w) = Some cl
                     /\ trace w' = EvExecuteCommandLists cl :: EvClose :: trace w))).
  open_world w. unfold End. wp_run.
  all: cbn; repeat (split; [congruence |]); intros Hr; try discriminate.
  eexists. split; reflexivity.
Qed.

(** X5.  Disposing of an image a second time releases nothing and changes
    nothing. *)
Theorem disposeImpl_twice i w :
  is_Some (objs w !! i) ->
  fst (disposeImpl i w) = Ok tt
  /\ disposeImpl i (snd (disposeImpl i w)) = (Ok tt, snd (disposeImpl i w)).
Proof. params.
  intros [img Hi]. pose proof (disposeImpl_run i w) as H1. unfold wp in H1.
  rewrite Hi in H1. destruct H1 as (Hr & O & Hw & HO & Hother).
  split; [exact Hr |].
  pose proof (disposeImpl_run i (snd (disposeImpl i w))) as H2. unfold wp in H2.
  destruct (disposeImpl i w) as [r1 w1]. cbn [fst snd] in *. subst w1.
  cbn [objs set_objs set_trace] in H2. rewrite HO in H2.
  destruct H2 as (Hr2 & O2 & Hw2 & HO2 & Hother2).
  destruct (disposeImpl i _) as [r2 w2]. cbn [fst snd] in *. subst r2 w2.
  f_equal. cbn. f_equal. apply map_eq. intros j.
  destruct (decide (j = i)) as [->|Hne].
  - rewrite HO2, HO. reflexivity.
  - apply Hother2, Hne.
Qed.

(** ** Failed set-up leaves nothing behind *)

(** Every object a log creates is released in the same log. *)
Definition releasesWhatItCreates (evs : list event) : Prop :=
  forall ev h, In ev evs -> created ev = Some h -> In (EvRelease h) evs.

Ltac all_released :=
  since_log;
  let ev := fresh "ev" in
  let h := fresh "h" in
  let Hin := fresh "Hin" in
  let Hcr := fresh "Hcr" in
  intros ev h Hin Hcr; cbn in Hin;
  repeat (destruct Hin as [<- | Hin];
          [cbn in Hcr; try discriminate; injection Hcr as <-; cbn; tauto |]);
  contradiction.





(** What a successful [Initialize] has set up: a command queue, an
    allocator and a fence per slot, a command list created on the
    allocator of slot 0, a heap of [frameCount] render-target descriptors,
    a shader-visible heap of 2560 descriptors and a heap of one sampler,
    which is written; all objects are distinct. *)
Definition setUp (w w' : world) : Prop :=
  exists q a0 a1 f0 f1 cl rtv sh sm dh,
    commandQueue (gfx w') = Some q
    /\ commandAllocators (gfx w') = PerFrame (Some a0) (Some a1)
    /\ fences (gfx w') = PerFrame (Some f0) (Some f1)
    /\ fenceValues (gfx w') = fenceValues (gfx w)
    /\ commandList (gfx w') = Some cl
    /\ rtvDescriptorHeap (gfx w') = Some rtv
    /\ shaderDescriptorHeap (pipeline (gfx w')) = Some sh
    /\ samplerDescriptorHeap (pipeline (gfx w')) = Some sm
    /\ NoDup [q; a0; a1; f0; f1; cl; rtv; sh; sm]
    /\ heaps w' !! rtv = Some (DescriptorHeap D3D12_DESCRIPTOR_HEAP_TYPE_RTV frameCount ∅)
    /\ heaps w' !! sh
       = Some (DescriptorHeap D3D12_DESCRIPTOR_HEAP_TYPE_CBV_SRV_UAV 2560 ∅)
    /\ heaps w' !! sm = Some dh
    /\ dh_type dh = D3D12_DESCRIPTOR_HEAP_TYPE_SAMPLER /\ dh_num dh = 1
    /\ dh_slots dh !! 0 = Some Sampler
    /\ In (EvCreateCommandList (Some a0) cl) (trace w').

(** X7.  A successful [Initialize] has set the driver up, whatever state it
    started in. *)
Theorem Initialize_sets_up w :
  fst (Initialize w) = Ok tt -> setUp w (snd (Initialize w)).
Proof. params.
  change (wp Initialize w (fun r w' => r = Ok tt -> setUp w w')).
  open_world w. unfold Initialize. wp_run.
  all: cbn; intros Hr; try discriminate.
  unfold setUp. cbn. do 10 eexists.
  repeat (split; [reflexivity |]).
  split.
  { repeat (apply NoDup_cons; split;
              [rewrite ?not_elem_of_cons; repeat split; try lia; apply not_elem_of_nil |]).
    apply NoDup_nil_2. }
  split.
  { rewrite lookup_alter_ne by lia. rewrite !lookup_insert_ne by lia.
    apply lookup_insert_eq. }
  split.
  { rewrite lookup_alter_ne by lia. rewrite lookup_insert_ne by lia.
    apply lookup_insert_eq. }
  split.
  { rewrite lookup_alter_eq, lookup_insert_eq. cbn. reflexivity. }
  cbn. repeat (split; [first [reflexivity | apply lookup_insert_eq] |]).
  repeat (first [left; reflexivity | right]).
Qed.

(** ** The registry of images *)

(** Reading back the object that was just allocated. *)
Ltac wp_hook ::=
  lazymatch goal with
  | |- context [<[?k := _]> _ !! ?k] => rewrite lookup_insert_eq
  end.

Lemma NewImage_run width height w :
  wp (NewImage width height) w (fun r w' =>
    forall i, r = Ok i ->
      let id := int64 (nextImageID (gfx w) + 1) in
      let t := nextHandle w in
      i = nextPtr w
      /\ objs w' = <[i := {| img_id := id;
                             img_width := width;
                             img_height := height;
                             img_screen := false;
                             img_state := D3D12_RESOURCE_STATE_PIXEL_SHADER_RESOURCE;
                             img_texture := Some t;
                             img_rowSizeInBytes := uint64 (ans_val (oracle w (S (tick w))));
                             img_totalBytes := uint64 (ans_val (oracle w (S (S (tick w)))));
                             img_stagingBuffer := None;
                             img_rtvDescriptorHeap := None;
                             img_needsSync := false |}]> (objs w)
      /\ trace w'
         = EvCreateCommittedResource D3D12_HEAP_TYPE_DEFAULT
             D3D12_RESOURCE_DIMENSION_TEXTURE2D
             (uint64 (InternalImageSize width)) (uint32 (InternalImageSize height))
             D3D12_RESOURCE_STATE_PIXEL_SHADER_RESOURCE t :: trace w
      /\ fst (lookupImage id w) = Ok None
      /\ gfx w' = set_images (Some (<[id := i]> (default ∅ (images (gfx w)))))
                    (set_nextImageID id (gfx w))).
Proof. params.
  open_world w. unfold NewImage. wp_run.
  all: cbn; intros i' Hr; try discriminate; injection Hr as <-.
  all: repeat (split; [reflexivity |]).
  all: first [ reflexivity | split; [f_equal; assumption | reflexivity] ].
Qed.

(** X10.  A successful [NewImage] has created one texture of the internal size,
    in the state of a pixel-shader resource, and a new image object that
    holds it, with neither staging buffer nor descriptor heap; the image
    is registered under an ID that was not registered before, the other
    IDs keep their images, and every other image object and the screen
    image are as before. *)
Theorem NewImage_registers width height w i :
  fst (NewImage width height w) = Ok i ->
  exists img t,
    objs (snd (NewImage width height w)) !! i = Some img
    /\ (forall p, p <> i -> objs (snd (NewImage width height w)) !! p = objs w !! p)
    /\ img_width img = width /\ img_height img = height /\ img_screen img = false
    /\ img_state img = D3D12_RESOURCE_STATE_PIXEL_SHADER_RESOURCE
    /\ img_texture img = Some t
    /\ img_stagingBuffer img = None /\ img_rtvDescriptorHeap img = None
    /\ trace (snd (NewImage width height w))
       = EvCreateCommittedResource D3D12_HEAP_TYPE_DEFAULT
           D3D12_RESOURCE_DIMENSION_TEXTURE2D
           (uint64 (InternalImageSize width)) (uint32 (InternalImageSize height))
           D3D12_RESOURCE_STATE_PIXEL_SHADER_RESOURCE t :: trace w
    /\ fst (lookupImage (img_id img) w) = Ok None
    /\ fst (lookupImage (img_id img) (snd (NewImage width height w))) = Ok (Some i)
    /\ (forall id, id <> img_id img ->
          fst (lookupImage id (snd (NewImage width height w))) = fst (lookupImage id w))
    /\ screenImage (gfx (snd (NewImage width height w))) = screenImage (gfx w).
Proof. params.
  intros Hr. pose proof (NewImage_run width height w) as H. unfold wp in H.
  destruct (H i Hr) as (Hi & Hobjs & Htrace & Hfresh & Hgfx). clear H.
  destruct (NewImage width height w) as [r w']. cbn [fst snd] in *.
  eexists _, _. split; [rewrite Hobjs; apply lookup_insert_eq |].
  split; [intros p Hp; rewrite Hobjs; apply lookup_insert_ne; congruence |].
  cbn [img_width img_height img_screen img_state img_texture img_stagingBuffer
       img_rtvDescriptorHeap img_id].
  repeat (split; [reflexivity |]). split; [exact Htrace |]. split; [exact Hfresh |].
  unfold lookupImage in *. cbn in *. rewrite Hgfx. cbn.
  split; [rewrite lookup_insert_eq; reflexivity |]. split; [| reflexivity].
  intros id Hid. rewrite lookup_insert_ne by congruence.
  destruct (images (gfx w)); [reflexivity | cbn; rewrite lookup_empty; reflexivity].
Qed.

(** X11.  A [NewImage] that returns an error has changed nothing but the count
    of native calls: no object is created, no image registered, no ID
    consumed. *)
Theorem NewImage_failure_changes_nothing width height w e :
  fst (NewImage width height w) = Err e ->
  snd (NewImage width height w) = set_tick (S (tick w)) w
  /\ e = DeviceError (default 0 (ans_err (oracle w (tick w)))).
Proof. params.
  change (wp (NewImage width height) w (fun r w' =>
    r = Err e -> w' = set_tick (S (tick w)) w
                 /\ e = DeviceError (default 0 (ans_err (oracle w (tick w)))))).
  open_world w. unfold NewImage. wp_run.
  all: cbn; intros Hr; try discriminate.
  injection Hr as <-. split; [reflexivity |].
  match goal with H : ans_err _ = Some _ |- _ => rewrite H end. reflexivity.
Qed.

(** What a successful [NewScreenFramebufferImage] has done about the swap
    chain. *)
Definition swapChainReady (width height : Z) (w w' : world) : Prop :=
  match swapChain (gfx w) with
  | Some sc =>
      (* the swap chain is kept as it is, whatever the size asked for *)
      swapChain (gfx w') = Some sc /\ trace w' = trace w
      /\ renderTargets (gfx w') = renderTargets (gfx w)
      /\ frameIndex (gfx w') = uint32 (ans_val (oracle w (tick w)))
  | None =>
      exists sc r0 r1 rtv,
        swapChain (gfx w') = Some sc
        /\ rtvDescriptorHeap (gfx w) = Some rtv
        /\ renderTargets (gfx w') = PerFrame (Some r0) (Some r1)
        /\ trace w'
           = EvCreateRenderTargetView (Some r1) rtv 1 :: EvGetBuffer 1 r1
             :: EvCreateRenderTargetView (Some r0) rtv 0 :: EvGetBuffer 0 r0
             :: EvCreateSwapChainForHwnd (window (gfx w)) (uint32 width) (uint32 height) sc
             :: trace w
        /\ frameIndex (gfx w') = uint32 (ans_val (oracle w (S (S (S (tick w))))))
  end.

Lemma NewScreenFramebufferImage_run width height w :
  wp (NewScreenFramebufferImage width height) w (fun r w' =>
    match r with
    | Ok i =>
        let id := int64 (nextImageID (gfx w) + 1) in
        i = nextPtr w
        /\ window (gfx w) <> 0
        /\ swapChainReady width height w w'
        /\ objs w' = <[i := {| img_id := id;
                               img_width := width;
                               img_height := height;
                               img_screen := true;
                               img_state := D3D12_RESOURCE_STATE_PRESENT;
                               img_texture := None;
                               img_rowSizeInBytes := 0;
                               img_totalBytes := 0;
                               img_stagingBuffer := None;
                               img_rtvDescriptorHeap := None;
                               img_needsSync := false |}]> (objs w)
        /\ fst (lookupImage id w) = Ok None
        /\ images (gfx w') = Some (<[id := i]> (default ∅ (images (gfx w))))
        /\ screenImage (gfx w') = Some i
        /\ nextImageID (gfx w') = id
    | Err e =>
        (window (gfx w) = 0 -> e = ErrWindowNotInitialized /\ w' = w)
        /\ swapChain (gfx w') = swapChain (gfx w)
        /\ frameIndex (gfx w') = frameIndex (gfx w)
        /\ images (gfx w') = images (gfx w)
        /\ screenImage (gfx w') = screenImage (gfx w)
        /\ nextImageID (gfx w') = nextImageID (gfx w)
        /\ objs w' = objs w
        /\ exists evs, trace w' = evs ++ trace w /\ releasesWhatItCreates evs
    | Panic _ => True
    end).
Proof. params.
  open_world w. unfold NewScreenFramebufferImage. wp_run.
  all: try exact I.
  all: cbn;
    lazymatch goal with
    | |- (_ -> _) /\ _ =>
        split;
        [ intros Hw; first [ split; reflexivity
                           | exfalso; subst; discriminate ]
        | repeat (split; [reflexivity |]); unfold releasesWhatItCreates; all_released ]
    | |- _ =>
        split; [reflexivity |];
        split; [apply Z.eqb_neq; assumption |];
        split;
        [ unfold swapChainReady; cbn;
          first [ repeat split; reflexivity
                | do 4 eexists; repeat split; reflexivity ]
        | repeat (split; [first [reflexivity | f_equal; assumption] |]); reflexivity ]
    end.
Qed.
Ltac wp_hook ::= fail.

(** X12.  A successful [NewScreenFramebufferImage] needs a window.  It creates
    the swap chain, with its two render targets and their views, only
    when the driver has none: an existing swap chain is kept as it is,
    whatever size is asked for, and nothing is recorded.  The new image is
    the screen image: it has no texture, its tracked state is PRESENT,
    and it is registered under an ID that was not registered before. *)
Theorem NewScreenFramebufferImage_registers width height w i :
  fst (NewScreenFramebufferImage width height w) = Ok i ->
  window (gfx w) <> 0
  /\ swapChainReady width height w (snd (NewScreenFramebufferImage width height w))
  /\ exists img,
       objs (snd (NewScreenFramebufferImage width height w)) !! i = Some img
       /\ img_width img = width /\ img_height img = height /\ img_screen img = true
       /\ img_state img = D3D12_RESOURCE_STATE_PRESENT /\ img_texture img = None
       /\ screenImage (gfx (snd (NewScreenFramebufferImage width height w))) = Some i
       /\ fst (lookupImage (img_id img) w) = Ok None
       /\ fst (lookupImage (img_id img) (snd (NewScreenFramebufferImage width height w)))
          = Ok (Some i).
Proof. params.
  intros Hr. pose proof (NewScreenFramebufferImage_run width height w) as H.
  unfold wp in H. rewrite Hr in H.
  destruct H as (Hi & Hwin & Hsc & Hobjs & Hfresh & Himgs & Hscreen & Hnext).
  destruct (NewScreenFramebufferImage width height w) as [r w']. cbn [fst snd] in *.
  split; [exact Hwin |]. split; [exact Hsc |].
  eexists. split; [rewrite Hobjs; apply lookup_insert_eq |].
  cbn [img_width img_height img_screen img_state img_texture img_id].
  repeat (split; [reflexivity |]). split; [exact Hscreen |]. split; [exact Hfresh |].
  unfold lookupImage. cbn. rewrite Himgs. rewrite lookup_insert_eq. reflexivity.
Qed.

(** X13.  A [NewScreenFramebufferImage] that returns an error has registered no
    image and consumed no ID; the driver has the swap chain and the frame
    index it had, and the swap chain and the render targets that the
    failed call created are released.  Without a window the call fails
    without any effect. *)
Theorem NewScreenFramebufferImage_failure width height w e :
  fst (NewScreenFramebufferImage width height w) = Err e ->
  (window (gfx w) = 0 ->
     e = ErrWindowNotInitialized /\ snd (NewScreenFramebufferImage width height w) = w)
  /\ swapChain (gfx (snd (NewScreenFramebufferImage width height w))) = swapChain (gfx w)
  /\ frameIndex (gfx (snd (NewScreenFramebufferImage width height w))) = frameIndex (gfx w)
  /\ images (gfx (snd (NewScreenFramebufferImage width height w))) = images (gfx w)
  /\ screenImage (gfx (snd (NewScreenFramebufferImage width height w)))
     = screenImage (gfx w)
  /\ nextImageID (gfx (snd (NewScreenFramebufferImage width height w)))
     = nextImageID (gfx w)
  /\ objs (snd (NewScreenFramebufferImage width height w)) = objs w
  /\ exists evs,
       trace (snd (NewScreenFramebufferImage width height w)) = evs ++ trace w
       /\ releasesWhatItCreates evs.
Proof. params.
  intros Hr. pose proof (NewScreenFramebufferImage_run width height w) as H.
  unfold wp in H. rewrite Hr in H. exact H.
Qed.

Lemma pf_get_set_eq {T} (a : perFrame T) i x v :
  pf_get a i = Some x -> pf_get (pf_set a i v) i = Some v.
Proof. params.
  unfold pf_get, pf_set. destruct (Z.eqb_spec i 0) as [->|H0]; [reflexivity |].
  destruct (Z.eqb_spec i 1) as [->|H1]; [reflexivity | discriminate].
Qed.

Lemma pf_get_set_ne {T} (a : perFrame T) i j v :
  i <> j -> pf_get (pf_set a i v) j = pf_get a j.
Proof. params.
  unfold pf_get, pf_set. intros Hne.
  destruct (Z.eqb_spec i 0) as [->|Hi0].
  - destruct (Z.eqb_spec j 0) as [->|Hj0]; [contradiction | reflexivity].
  - destruct (Z.eqb_spec i 1) as [->|Hi1]; [| reflexivity].
    destruct (Z.eqb_spec j 0) as [->|Hj0]; [reflexivity |].
    destruct (Z.eqb_spec j 1) as [->|Hj1]; [contradiction | reflexivity].
Qed.

(** X4.  [Dispose] releases nothing: it makes no native call and leaves every
    image object, with its texture, as it is.  It unregisters the ID of
    the image, keeps the other IDs, and puts the image at the end of the
    list of disposed images of the current slot; the list of the other
    slot is as before.  Disposing of the screen image clears the driver's
    screen image. *)
Theorem Dispose_defers_release i w img d :
  objs w !! i = Some img ->
  pf_get (disposedImages (gfx w)) (frameIndex (gfx w)) = Some d ->
  fst (Dispose i w) = Ok tt
  /\ trace (snd (Dispose i w)) = trace w
  /\ tick (snd (Dispose i w)) = tick w
  /\ objs (snd (Dispose i w)) = objs w
  /\ fst (lookupImage (img_id img) (snd (Dispose i w))) = Ok None
  /\ (forall id, id <> img_id img ->
        fst (lookupImage id (snd (Dispose i w))) = fst (lookupImage id w))
  /\ pf_get (disposedImages (gfx (snd (Dispose i w)))) (frameIndex (gfx w))
     = Some (d ++ [i])
  /\ (forall j, j <> frameIndex (gfx w) ->
        pf_get (disposedImages (gfx (snd (Dispose i w)))) j
        = pf_get (disposedImages (gfx w)) j)
  /\ screenImage (gfx (snd (Dispose i w)))
     = (if img_screen img then None else screenImage (gfx w)).
Proof. params.
  intros Hi Hd.
  change (wp (Dispose i) w (fun r w' =>
    r = Ok tt /\ trace w' = trace w /\ tick w' = tick w /\ objs w' = objs w
    /\ fst (lookupImage (img_id img) w') = Ok None
    /\ (forall id, id <> img_id img -> fst (lookupImage id w') = fst (lookupImage id w))
    /\ pf_get (disposedImages (gfx w')) (frameIndex (gfx w)) = Some (d ++ [i])
    /\ (forall j, j <> frameIndex (gfx w) ->
          pf_get (disposedImages (gfx w')) j = pf_get (disposedImages (gfx w)) j)
    /\ screenImage (gfx w') = (if img_screen img then None else screenImage (gfx w)))).
  open_world w. cbn in Hi, Hd. unfold Dispose, removeImage. wp_run.
  all: cbn; repeat (split; [reflexivity |]).
  all: split; [destruct images0; cbn; [rewrite lookup_delete_eq |]; reflexivity |].
  all: split; [intros id Hid; destruct images0; cbn;
               [rewrite lookup_delete_ne by congruence |]; reflexivity |].
  all: split; [eapply pf_get_set_eq; exact Hd |].
  all: split; [intros j Hj; apply pf_get_set_ne; congruence |].
  all: reflexivity.
Qed.

(** ** Reuse of buffers *)

Lemma extend_reuse (s : slice (option handle)) x :
  sl_array s !! sl_len s = Some x -> extend s = reslice s (S (sl_len s)).
Proof. params.
  intros H. unfold extend, cap.
  apply lookup_lt_Some in H. apply Nat.ltb_lt in H. rewrite H. reflexivity.
Qed.

Lemma at_reuse {T} (s : slice T) x w :
  sl_array s !! sl_len s = Some x ->
  at_ (reslice s (S (sl_len s))) (Z.of_nat (sl_len s)) w = (Ok x, w).
Proof. params.
  intros H. unfold at_, reslice. cbn [sl_len sl_array].
  replace ((0 <=? Z.of_nat (sl_len s)) && (Z.of_nat (sl_len s) <? Z.of_nat (S (sl_len s))))
    with true
    by (symmetry; apply andb_true_intro; split; [apply Z.leb_le | apply Z.ltb_lt]; lia).
  rewrite Nat2Z.id, H. reflexivity.
Qed.

Lemma wp_at_reuse {T} (s : slice T) x w (Q : result T -> world -> Prop) :
  sl_array s !! sl_len s = Some x ->
  Q (Ok x) w -> wp (at_ (reslice s (S (sl_len s))) (Z.of_nat (sl_len s))) w Q.
Proof. params. intros H HQ. exact (wp_intro _ _ _ _ _ (at_reuse s x w H) HQ). Qed.

(** While a run reuses the element behind the window of a list. *)
Ltac wp_hook ::=
  lazymatch goal with
  | H : sl_array ?s !! sl_len ?s = Some _ |- context [extend ?s] =>
      rewrite (extend_reuse s _ H)
  | H : sl_array ?s !! sl_len ?s = Some ?x
    |- wp (at_ _ (Z.of_nat (sl_len ?s))) _ _ =>
      apply (wp_at_reuse s x _ _ H)
  end.

Lemma SetVertices_reuse_run vertexData indexData w vs is_ v i :
  pf_get (vertices (gfx w)) (frameIndex (gfx w)) = Some vs ->
  pf_get (indices (gfx w)) (frameIndex (gfx w)) = Some is_ ->
  sl_array vs !! sl_len vs = Some (Some v) ->
  sl_array is_ !! sl_len is_ = Some (Some i) ->
  wp (SetVertices vertexData indexData) w (fun r w' =>
    let fi := frameIndex (gfx w) in
    (forall p, r <> Panic p)
    /\ (forall ev, In ev (trace w') -> created ev <> None -> In ev (trace w))
    /\ (r = Ok tt ->
        trace w' = EvUnmap i :: EvWrite i 0 indexData :: EvMap i
                   :: EvUnmap v :: EvWrite v 0 vertexData :: EvMap v :: trace w
        /\ gfx w' = set_indices (pf_set (indices (gfx w)) fi (reslice is_ (S (sl_len is_))))
                      (set_vertices
                         (pf_set (vertices (gfx w)) fi (reslice vs (S (sl_len vs))))
                         (gfx w)))).
Proof. params.
  intros Hv Hi Hva Hia. open_world w. cbn in Hv, Hi.
  assert (Hfi : frameIndex0 = 0 \/ frameIndex0 = 1).
  { unfold pf_get in Hv. destruct (Z.eqb_spec frameIndex0 0); [tauto |].
    destruct (Z.eqb_spec frameIndex0 1); [tauto | discriminate]. }
  destruct Hfi as [-> | ->]; cbn in Hv, Hi;
    injection Hv as <-; injection Hi as <-.
  all: unfold SetVertices; wp_run.
  all: cbn; (split; [intros p; discriminate |]).
  all: split;
    [ intros ev Hin Hc;
      repeat (destruct Hin as [<- | Hin]; [cbn in Hc; congruence |]); exact Hin |].
  all: intros Hr; try discriminate; split; reflexivity.
Qed.
Ltac wp_hook ::= fail.

(** X14.  [SetVertices] in a slot whose lists hold a vertex and an index buffer
    just behind their windows (as they do after [End] has emptied the
    lists) creates no buffer and does not panic; when it returns nil it
    has widened both windows by one and written the data to the two
    buffers it found there. *)
Theorem SetVertices_reuses_buffers vertexData indexData w vs is_ v i :
  pf_get (vertices (gfx w)) (frameIndex (gfx w)) = Some vs ->
  pf_get (indices (gfx w)) (frameIndex (gfx w)) = Some is_ ->
  sl_array vs !! sl_len vs = Some (Some v) ->
  sl_array is_ !! sl_len is_ = Some (Some i) ->
  (forall p, fst (SetVertices vertexData indexData w) <> Panic p)
  /\ (forall ev, In ev (trace (snd (SetVertices vertexData indexData w))) ->
                 created ev <> None -> In ev (trace w))
  /\ (fst (SetVertices vertexData indexData w) = Ok tt ->
      trace (snd (SetVertices vertexData indexData w))
      = EvUnmap i :: EvWrite i 0 indexData :: EvMap i
        :: EvUnmap v :: EvWrite v 0 vertexData :: EvMap v :: trace w
      /\ gfx (snd (SetVertices vertexData indexData w))
         = set_indices (pf_set (indices (gfx w)) (frameIndex (gfx w))
                          (reslice is_ (S (sl_len is_))))
             (set_vertices (pf_set (vertices (gfx w)) (frameIndex (gfx w))
                              (reslice vs (S (sl_len vs))))
                (gfx w))).
Proof. params.
  intros Hv Hi Hva Hia.
  exact (SetVertices_reuse_run vertexData indexData w vs is_ v i Hv Hi Hva Hia).
Qed.

Lemma at_again {T} (s : slice T) n y w :
  (0 <=? Z.of_nat n) && (Z.of_nat n <? Z.of_nat (sl_len s)) = true ->
  sl_array s !! Z.to_nat (Z.of_nat n) = Some y ->
  at_ s (Z.of_nat n) w = (Ok y, w).
Proof. params. intros Hc Hl. unfold at_. rewrite Hc, Hl. reflexivity. Qed.

Lemma at_store {T} (s : slice T) n x y w :
  (0 <=? Z.of_nat n) && (Z.of_nat n <? Z.of_nat (sl_len s)) = true ->
  sl_array s !! Z.to_nat (Z.of_nat n) = Some y ->
  at_ (store s n x) (Z.of_nat n) w = (Ok x, w).
Proof. params.
  intros Hc Hl. unfold at_, store. cbn [sl_len sl_array]. rewrite Hc.
  rewrite Nat2Z.id in *. rewrite list_lookup_insert_eq by (eapply lookup_lt_Some, Hl).
  reflexivity.
Qed.

(** While a run reads again an element it has read or stored. *)
Ltac wp_hook ::=
  match goal with
  | Hc : (0 <=? Z.of_nat ?n) && (Z.of_nat ?n <? Z.of_nat (sl_len ?s)) = true,
    Hl : sl_array ?s !! Z.to_nat (Z.of_nat ?n) = Some ?y
    |- wp (at_ _ (Z.of_nat ?n)) _ _ =>
      first [ eapply wp_intro; [exact (at_store s n _ y _ Hc Hl) |]
            | eapply wp_intro; [exact (at_again s n y _ Hc Hl) |] ]
  | |- wp (at_ _ _) _ _ => unfold at_ at 1
  end.

Lemma SetVertices_on_error vertexData indexData w :
  wp (SetVertices vertexData indexData) w (fun r w' =>
    match r with
    | Err e => exists evs, trace w' = evs ++ trace w /\ releasesWhatItCreates evs
    | _ => True
    end).
Proof. params.
  open_world w. unfold SetVertices.
  destruct (decide (frameIndex0 = 0)) as [-> | N0]; [|
    destruct (decide (frameIndex0 = 1)) as [-> | N1]].
  3: { assert (Hnone : pf_get vertices0 frameIndex0 = None)
         by (apply pf_get_out; assumption).
       wp_run. exact I. }
  all: wp_run.
  all: try exact I.
  all: cbn; unfold releasesWhatItCreates; all_released.
Qed.
Ltac wp_hook ::= fail.

(** X15.  A [SetVertices] that returns an error has released each buffer it
    created. *)
Theorem SetVertices_failure_releases vertexData indexData w e :
  fst (SetVertices vertexData indexData w) = Err e ->
  exists evs,
    trace (snd (SetVertices vertexData indexData w)) = evs ++ trace w
    /\ releasesWhatItCreates evs.
Proof. params.
  intros Hr. pose proof (SetVertices_on_error vertexData indexData w) as H.
  unfold wp in H. rewrite Hr in H. exact H.
Qed.

(** While a run reuses the element behind the window of a list. *)
Ltac wp_hook ::=
  lazymatch goal with
  | H : sl_array ?s !! sl_len ?s = Some _ |- context [extend ?s] =>
      rewrite (extend_reuse s _ H)
  | H : sl_array ?s !! sl_len ?s = Some ?x
    |- wp (at_ _ (Z.of_nat (sl_len ?s))) _ _ =>
      apply (wp_at_reuse s x _ _ H)
  end.

Lemma useGraphicsPipelineState_reuse_run fi key sw sh tex w psv s cb :
  cacheLookup (pipeline (gfx w)) key = Some psv ->
  pf_get (constantBuffers (pipeline (gfx w))) fi = Some s ->
  sl_array s !! (if lastFrameIndex (pipeline (gfx w)) =? fi then sl_len s else 0%nat)
  = Some (Some cb) ->
  wp (useGraphicsPipelineState fi key sw sh tex) w (fun r w' =>
    let idx := if lastFrameIndex (pipeline (gfx w)) =? fi then sl_len s else 0%nat in
    r = Ok tt ->
    exists h sm,
      shaderDescriptorHeap (pipeline (gfx w)) = Some h
      /\ samplerDescriptorHeap (pipeline (gfx w)) = Some sm
      /\ trace w'
         = EvSetGraphicsRootDescriptorTable 2 sm 0
           :: EvSetGraphicsRootDescriptorTable 1 h (tableOffset fi idx + 1)
           :: EvSetGraphicsRootDescriptorTable 0 h (tableOffset fi idx)
           :: EvSetDescriptorHeaps [Some h; Some sm]
           :: EvSetGraphicsRootSignature (rootSignature psv)
           :: EvSetPipelineState (state psv)
           :: EvUnmap cb :: EvWrite cb 0 [sw; sh] :: EvMap cb
           :: EvCreateShaderResourceView tex h
                (int32 (fi * numDescriptorsPerFrame
                        + numConstantBufferAndSourceTextures * Z.of_nat idx + 1))
           :: trace w
      /\ pf_get (constantBuffers (pipeline (gfx w'))) fi = Some (reslice s (S idx))
      /\ lastFrameIndex (pipeline (gfx w')) = fi).
Proof. params.
  intros Hhit Hs Hcb. open_world w. cbn in Hhit, Hs, Hcb |- *.
  assert (Hfi : fi = 0 \/ fi = 1).
  { unfold pf_get in Hs. destruct (Z.eqb_spec fi 0); [tauto |].
    destruct (Z.eqb_spec fi 1); [tauto | discriminate]. }
  unfold useGraphicsPipelineState, graphicsPipelineState.
  destruct (Z.eqb_spec lastFrameIndex0 fi) as [Hl | Hl].
  - assert (Hneg : negb (lastFrameIndex0 =? fi) = false)
      by (apply negb_false_iff, Z.eqb_eq, Hl).
    destruct Hfi as [-> | ->]; cbn in Hs; injection Hs as <-.
    all: wp_run.
    all: cbn; intros Hr; try discriminate.
    all: do 2 eexists; repeat split; reflexivity.
  - assert (Hneg : negb (lastFrameIndex0 =? fi) = true)
      by (apply negb_true_iff, Z.eqb_neq, Hl).
    destruct Hfi as [-> | ->]; cbn in Hs; injection Hs as <-.
    all: match type of Hcb with
         | sl_array ?s !! _ = _ =>
             assert (Hcb' : sl_array (reslice s 0) !! sl_len (reslice s 0)
                            = Some (Some cb)) by exact Hcb
         end.
    all: wp_run.
    all: cbn; intros Hr; try discriminate.
    all: do 2 eexists; repeat split; reflexivity.
Qed.
Ltac wp_hook ::= fail.

(** X16.  A draw that finds a constant buffer in the list of its slot, just
    behind the window (the window is emptied first when the slot was not
    the one of the previous draw), reuses it: when the pipeline entry is
    cached and the call returns nil, it has created nothing and written
    no constant-buffer view; it has written the view of the source
    texture, updated the buffer it found, and bound the pipeline, the
    heaps and the three descriptor tables. *)
Theorem useGraphicsPipelineState_reuses_constant_buffer fi key sw sh tex w psv s cb :
  cacheLookup (pipeline (gfx w)) key = Some psv ->
  pf_get (constantBuffers (pipeline (gfx w))) fi = Some s ->
  sl_array s !! (if lastFrameIndex (pipeline (gfx w)) =? fi then sl_len s else 0%nat)
  = Some (Some cb) ->
  fst (useGraphicsPipelineState fi key sw sh tex w) = Ok tt ->
  let idx := if lastFrameIndex (pipeline (gfx w)) =? fi then sl_len s else 0%nat in
  exists h sm,
    shaderDescriptorHeap (pipeline (gfx w)) = Some h
    /\ samplerDescriptorHeap (pipeline (gfx w)) = Some sm
    /\ trace (snd (useGraphicsPipelineState fi key sw sh tex w))
       = EvSetGraphicsRootDescriptorTable 2 sm 0
         :: EvSetGraphicsRootDescriptorTable 1 h (tableOffset fi idx + 1)
         :: EvSetGraphicsRootDescriptorTable 0 h (tableOffset fi idx)
         :: EvSetDescriptorHeaps [Some h; Some sm]
         :: EvSetGraphicsRootSignature (rootSignature psv)
         :: EvSetPipelineState (state psv)
         :: EvUnmap cb :: EvWrite cb 0 [sw; sh] :: EvMap cb
         :: EvCreateShaderResourceView tex h
              (int32 (fi * numDescriptorsPerFrame
                      + numConstantBufferAndSourceTextures * Z.of_nat idx + 1))
         :: trace w
    /\ pf_get (constantBuffers (pipeline (gfx (snd (useGraphicsPipelineState fi key sw sh
                                                      tex w))))) fi
       = Some (reslice s (S idx))
    /\ lastFrameIndex (pipeline (gfx (snd (useGraphicsPipelineState fi key sw sh tex w))))
       = fi.
Proof. params.
  intros Hhit Hs Hcb Hr.
  exact (useGraphicsPipelineState_reuse_run fi key sw sh tex w psv s cb Hhit Hs Hcb Hr).
Qed.

(** ** Images keep what they were created with *)

(** Every image object was allocated by [newObject]. *)
Definition wfObjs (w : world) : Prop :=
  forall i, is_Some (objs w !! i) -> (i < nextPtr w)%nat.

(** No image object is lost, and each keeps the fields it was created
    with. *)
Definition imagesKept : relation world := fun w w' =>
  wfObjs w ->
  wfObjs w'
  /\ forall i img, objs w !! i = Some img ->
       exists img', objs w' !! i = Some img' /\ fixedFields img' = fixedFields img.

#[global] Instance imagesKept_preorder : PreOrder imagesKept.
Proof. params.
  split.
  - intros w Hw. split; [exact Hw |]. intros i img H. exists img. auto.
  - intros a b c Hab Hbc Ha. destruct (Hab Ha) as [Hb Kab].
    destruct (Hbc Hb) as [Hc Kbc]. split; [exact Hc |].
    intros i img H. destruct (Kab i img H) as (img1 & H1 & F1).
    destruct (Kbc i img1 H1) as (img2 & H2 & F2). exists img2. split; congruence.
Qed.

Lemma imagesKept_same w w' :
  objs w' = objs w -> nextPtr w' = nextPtr w -> imagesKept w w'.
Proof. params.
  intros Ho Hn Hw. split.
  - intros i. rewrite Ho, Hn. apply Hw.
  - intros i img H. exists img. rewrite Ho. auto.
Qed.

Lemma imagesKept_alter w w' f i :
  (forall img, fixedFields (f img) = fixedFields img) ->
  objs w' = alter f i (objs w) -> nextPtr w' = nextPtr w -> imagesKept w w'.
Proof. params.
  intros Hf Ho Hn Hw. split.
  - intros j. rewrite Ho, Hn. intros Hj. apply Hw.
    destruct (decide (i = j)) as [<-|Hne].
    + rewrite lookup_alter_eq in Hj. apply fmap_is_Some in Hj. exact Hj.
    + rewrite lookup_alter_ne in Hj by exact Hne. exact Hj.
  - intros j img H. rewrite Ho. destruct (decide (i = j)) as [<-|Hne].
    + rewrite lookup_alter_eq, H. cbn. eexists. split; [reflexivity | apply Hf].
    + rewrite lookup_alter_ne by exact Hne. exists img. auto.
Qed.

Lemma newObject_imagesKept img : preserves imagesKept (newObject img).
Proof. params.
  intros w Hw. unfold newObject. cbn. split.
  - intros j Hj. cbn in *. destruct (decide (j = nextPtr w)) as [->|Hne]; [lia |].
    rewrite lookup_insert_ne in Hj by congruence. apply Hw in Hj. lia.
  - intros j x H. exists x. split; [| reflexivity]. cbn.
    rewrite lookup_insert_ne; [exact H |].
    intros <-. assert (Hlt : (nextPtr w < nextPtr w)%nat) by (apply Hw; eauto). lia.
Qed.

#[local] Hint Resolve newObject_imagesKept : preserves.

Ltac keeps_images :=
  first [ apply imagesKept_same; reflexivity
        | eapply imagesKept_alter; [| reflexivity | reflexivity]; intros []; reflexivity ].

Lemma perform_imagesKept op :
  op <> OpEnd true -> preserves imagesKept (perform op).
Proof.
  intros Hop. destruct op as [| | |[|]| | | | | | |]; cbn [perform];
    try congruence.
  all: try (cbv beta iota delta [End]).
  all: preserves_auto keeps_images.
Qed.

(** Image objects stay allocated below [nextPtr]. *)
Definition wfKept : relation world := fun w w' => wfObjs w -> wfObjs w'.

#[global] Instance wfKept_preorder : PreOrder wfKept.
Proof. params.
  split; [intros w H; exact H | intros a b c Hab Hbc H; exact (Hbc (Hab H))].
Qed.

Lemma wfKept_same w w' : objs w' = objs w -> nextPtr w' = nextPtr w -> wfKept w w'.
Proof. params. intros Ho Hn Hw i. rewrite Ho, Hn. apply Hw. Qed.

Lemma wfKept_alter w w' f i :
  objs w' = alter f i (objs w) -> nextPtr w' = nextPtr w -> wfKept w w'.
Proof. params.
  intros Ho Hn Hw j. rewrite Ho, Hn. intros Hj. apply Hw.
  destruct (decide (i = j)) as [<-|Hne].
  - rewrite lookup_alter_eq in Hj. apply fmap_is_Some in Hj. exact Hj.
  - rewrite lookup_alter_ne in Hj by exact Hne. exact Hj.
Qed.

Lemma newObject_wfKept img : preserves wfKept (newObject img).
Proof. params.
  intros w Hw j Hj. unfold newObject in *. cbn in *.
  destruct (decide (j = nextPtr w)) as [->|Hne]; [lia |].
  rewrite lookup_insert_ne in Hj by congruence. apply Hw in Hj. lia.
Qed.

#[local] Hint Resolve newObject_wfKept : preserves.

Ltac keeps_wf :=
  first [ apply wfKept_same; reflexivity
        | eapply wfKept_alter; reflexivity ].

Lemma perform_wfKept op : preserves wfKept (perform op).
Proof. destruct op; cbn [perform]; preserves_auto keeps_wf. Qed.

Lemma reachable_wfObjs w w' : reachable w w' -> wfObjs w -> wfObjs w'.
Proof.
  induction 1 as [w | w w1 w2 [op ->] _ IH]; intros Hw.
  - exact Hw.
  - apply IH. exact (perform_wfKept op w Hw).
Qed.

(** X6.  Only a presenting [End] disposes of images.  In a world that the
    driver reaches from process start, no other operation loses an image
    object or changes the ID, the size, the screen flag, the texture or
    the footprint it was created with. *)
Theorem only_presenting_End_disposes o w op i img :
  reachable (boot o) w ->
  op <> OpEnd true ->
  objs w !! i = Some img ->
  exists img',
    objs (exec (perform op) w) !! i = Some img'
    /\ fixedFields img' = fixedFields img.
Proof.
  intros Hreach Hop Hi.
  assert (Hw : wfObjs w).
  { apply (reachable_wfObjs _ _ Hreach). intros j [x Hx]. cbn in Hx.
    rewrite lookup_empty in Hx. discriminate. }
  destruct (perform_imagesKept op Hop w Hw) as [_ Hkeep].
  exact (Hkeep i img Hi).
Qed.

(** ** Pixels *)

(** While a run reads an image object it has just updated. *)
Ltac wp_hook ::=
  lazymatch goal with
  | |- context [alter _ ?i _ !! ?i] => rewrite lookup_alter_eq
  | |- context [<[?i := _]> _ !! ?i] => rewrite lookup_insert_eq
  | H : ?m !! ?i = Some _ |- context [?m !! ?i] => rewrite H
  end.

Lemma ReadPixels_run i w :
  wp (ReadPixels i) w (fun r w' =>
    r <> Ok tt
    /\ (forall img, objs w !! i = Some img -> img_screen img = true ->
          r = Err ErrPixelsOnScreen /\ w' = w)
    /\ (r = Err ErrPixelsNotImplemented ->
        exists img', objs w' !! i = Some img'
                     /\ img_state img' = D3D12_RESOURCE_STATE_COPY_SOURCE
                     /\ img_stagingBuffer img' <> None)).
Proof. params.
  open_world w. unfold ReadPixels. wp_run.
  all: cbn; (split; [discriminate |]).
  all: split; [intros img' Hi' Hs';
               first [discriminate | split; reflexivity | congruence] |].
  all: intros Hr; try discriminate.
  all: rewrite ?lookup_alter_eq, E; cbn; eexists; (split; [reflexivity |]); cbn.
  all: split;
    [ first [ reflexivity
            | match goal with
              | H : bool_decide _ = true |- _ => apply bool_decide_eq_true in H; exact H
              end ]
    | congruence ].
Qed.

(** X21.  [ReadPixels] never returns nil.  On the screen image it returns its
    error without any effect.  When it returns the error that says that
    it is not implemented, the image has a staging buffer and its tracked
    state is COPY_SOURCE. *)
Theorem ReadPixels_never_succeeds i w :
  fst (ReadPixels i w) <> Ok tt
  /\ (forall img, objs w !! i = Some img -> img_screen img = true ->
        fst (ReadPixels i w) = Err ErrPixelsOnScreen /\ snd (ReadPixels i w) = w)
  /\ (fst (ReadPixels i w) = Err ErrPixelsNotImplemented ->
      exists img', objs (snd (ReadPixels i w)) !! i = Some img'
                   /\ img_state img' = D3D12_RESOURCE_STATE_COPY_SOURCE
                   /\ img_stagingBuffer img' <> None).
Proof. params. exact (ReadPixels_run i w). Qed.

(** ** Render targets *)

Lemma setAsRenderTarget_run i w img :
  objs w !! i = Some img ->
  wp (setAsRenderTarget i) w (fun r w' =>
    r = Ok tt ->
    exists img' h slot rest,
      objs w' !! i = Some img'
      /\ img_state img' = D3D12_RESOURCE_STATE_RENDER_TARGET
      /\ img_needsSync img' = true
      /\ fixedFields img' = fixedFields img
      /\ trace w' = EvOMSetRenderTargets h slot :: rest
      /\ (img_screen img = true ->
          rtvDescriptorHeap (gfx w) = Some h /\ slot = int32 (frameIndex (gfx w))
          /\ img_rtvDescriptorHeap img' = img_rtvDescriptorHeap img
          /\ heaps w' = heaps w)
      /\ (img_screen img = false ->
          slot = 0 /\ img_rtvDescriptorHeap img' = Some h
          /\ match img_rtvDescriptorHeap img with
             | Some h0 =>
                 h = h0 /\ heaps w' = heaps w
                 /\ forall ev, In ev (trace w') -> created ev <> None -> In ev (trace w)
             | None =>
                 heaps w' !! h
                 = Some (DescriptorHeap D3D12_DESCRIPTOR_HEAP_TYPE_RTV 1
                           (<[0 := RenderTargetView (img_texture img)]> ∅))
             end)).
Proof. params.
  intros Hi. open_world w. cbn in Hi. unfold setAsRenderTarget. wp_run.
  all: cbn; intros Hr; try discriminate.
  all: rewrite ?lookup_alter_eq, Hi; cbn.
  all: do 4 eexists; (split; [reflexivity |]); cbn in *.
  all: repeat match goal with
              | H : bool_decide _ = true |- _ => apply bool_decide_eq_true in H
              | H : bool_decide _ = false |- _ => clear H
              end.
  all: (split; [first [reflexivity | assumption] |]); do 3 (split; [reflexivity |]).
  all: split; intros Hs; try congruence.
  all: try (repeat split; reflexivity).
  all: (split; [reflexivity |]); (split; [first [reflexivity | assumption] |]).
  all: match goal with H : img_rtvDescriptorHeap _ = _ |- _ => rewrite H end.
  all: first
    [ rewrite lookup_alter_eq, lookup_insert_eq; reflexivity
    | do 2 (split; [reflexivity |]); intros ev Hin Hc;
      repeat (destruct Hin as [<- | Hin]; [cbn in Hc; congruence |]); exact Hin ].
Qed.

(** X17.  A successful [setAsRenderTarget] leaves the image in the tracked
    state RENDER_TARGET, marked as needing synchronisation and otherwise
    as it was created, and the command it records last binds the render
    target: for the screen image, the view of the current slot in the
    driver's heap; for any other image, view 0 of the image's own heap.
    That heap is created, with the view of the texture, only when the
    image has none: an image that has its heap keeps it and nothing is
    created. *)
Theorem setAsRenderTarget_binds_view i w img :
  objs w !! i = Some img ->
  fst (setAsRenderTarget i w) = Ok tt ->
  exists img' h slot rest,
    objs (snd (setAsRenderTarget i w)) !! i = Some img'
    /\ img_state img' = D3D12_RESOURCE_STATE_RENDER_TARGET
    /\ img_needsSync img' = true
    /\ fixedFields img' = fixedFields img
    /\ trace (snd (setAsRenderTarget i w)) = EvOMSetRenderTargets h slot :: rest
    /\ (img_screen img = true ->
        rtvDescriptorHeap (gfx w) = Some h /\ slot = int32 (frameIndex (gfx w))
        /\ img_rtvDescriptorHeap img' = img_rtvDescriptorHeap img
        /\ heaps (snd (setAsRenderTarget i w)) = heaps w)
    /\ (img_screen img = false ->
        slot = 0 /\ img_rtvDescriptorHeap img' = Some h
        /\ match img_rtvDescriptorHeap img with
           | Some h0 =>
               h = h0 /\ heaps (snd (setAsRenderTarget i w)) = heaps w
               /\ forall ev, In ev (trace (snd (setAsRenderTarget i w))) ->
                             created ev <> None -> In ev (trace w)
           | None =>
               heaps (snd (setAsRenderTarget i w)) !! h
               = Some (DescriptorHeap D3D12_DESCRIPTOR_HEAP_TYPE_RTV 1
                         (<[0 := RenderTargetView (img_texture img)]> ∅))
           end).
Proof. params.
  intros Hi Hr. exact (setAsRenderTarget_run i w img Hi Hr).
Qed.
Ltac wp_hook ::= fail.

(** ** Draws *)

(** X19.  A draw with a shader fails without any effect: it returns the
    error that shaders are not implemented and the world is as before. *)
Theorem DrawTriangles_rejects_shaders dstID srcs shaderID indexLen indexOffset mode
    dstRegion w :
  shaderID <> InvalidShaderID ->
  DrawTriangles dstID srcs shaderID indexLen indexOffset mode dstRegion w
  = (Err ErrShaderNotImplemented, w).
Proof. params.
  intros Hs. unfold DrawTriangles, drawSetup. cbn.
  apply Z.eqb_neq in Hs. rewrite Hs. reflexivity.
Qed.

Lemma useGraphicsPipelineState_objs fi key sw sh tex :
  preserves (same objs) (useGraphicsPipelineState fi key sw sh tex).
Proof. params. preserves_auto keeps_same. Qed.

Lemma wp_same_objs {A} (m : M A) w (Q : result A -> world -> Prop) :
  preserves (same objs) m ->
  (forall r w', objs w' = objs w -> Q r w') ->
  wp m w Q.
Proof. params. intros Hm HQ. apply HQ. symmetry. apply Hm. Qed.

(** While a run follows the image objects through a draw. *)
Ltac wp_hook ::=
  lazymatch goal with
  | |- wp (useGraphicsPipelineState _ _ _ _ _) _ _ =>
      apply wp_same_objs; [apply useGraphicsPipelineState_objs | intros ? ? ?]
  | |- context [alter _ ?i _ !! ?i] => rewrite lookup_alter_eq
  | H : ?i <> ?j |- context [alter _ ?i _ !! ?j] => rewrite lookup_alter_ne by exact H
  | |- context [alter _ ?i _ !! ?j] => destruct (decide (i = j)) as [->|?]
  | H : ?m !! ?i = Some _ |- context [?m !! ?i] => rewrite H
  end.

Lemma DrawTriangles_states_run dstID srcs shaderID indexLen indexOffset mode dstRegion w :
  wp (DrawTriangles dstID srcs shaderID indexLen indexOffset mode dstRegion) w
    (fun r w' =>
       r = Ok tt ->
       exists d s simg,
         fst (lookupImage dstID w) = Ok (Some d)
         /\ fst (lookupImage (srcs.1.1.1) w) = Ok (Some s)
         /\ objs w' !! s = Some simg
         /\ img_state simg = D3D12_RESOURCE_STATE_PIXEL_SHADER_RESOURCE
         /\ (d = s -> img_needsSync simg = true)
         /\ (d <> s ->
             exists dimg, objs w' !! d = Some dimg
                          /\ img_state dimg = D3D12_RESOURCE_STATE_RENDER_TARGET
                          /\ img_needsSync dimg = true)).
Proof. params.
  open_world w. unfold DrawTriangles, drawSetup. wp_run.
  all: cbn; intros Hr; try discriminate.
  all: cbn in *.
  all: repeat match goal with
              | H : bool_decide _ = true |- _ => apply bool_decide_eq_true in H
              | H : bool_decide _ = false |- _ => clear H
              end.
  all: match goal with H : objs _ = _ |- _ => rewrite H end.
  all: do 3 eexists; (split; [f_equal; eassumption |]); (split; [f_equal; eassumption |]).
  all: repeat first [ rewrite lookup_alter_eq | rewrite lookup_alter_ne by congruence ].
  all: repeat match goal with
              | H : ?m !! ?k = Some _ |- context [?m !! ?k] => rewrite H
              end; cbn.
  all: (split; [reflexivity |]); cbn; (split; [first [reflexivity | assumption] |]).
  all: split; intros Hd; try congruence; try reflexivity.
  all: eexists; (split; [reflexivity |]); cbn;
    split; [first [reflexivity | assumption] | reflexivity].
Qed.
Ltac wp_hook ::= fail.

(** X18.  After a successful [DrawTriangles] the source image is tracked as a
    pixel-shader resource.  A destination that is another image is
    tracked as a render target and marked as needing synchronisation;
    when an image is drawn onto itself it is left tracked as a
    pixel-shader resource, although it is the bound render target. *)
Theorem DrawTriangles_tracks_states dstID srcs shaderID indexLen indexOffset mode
    dstRegion w :
  fst (DrawTriangles dstID srcs shaderID indexLen indexOffset mode dstRegion w) = Ok tt ->
  exists d s simg,
    fst (lookupImage dstID w) = Ok (Some d)
    /\ fst (lookupImage (srcs.1.1.1) w) = Ok (Some s)
    /\ objs (snd (DrawTriangles dstID srcs shaderID indexLen indexOffset mode dstRegion w))
       !! s = Some simg
    /\ img_state simg = D3D12_RESOURCE_STATE_PIXEL_SHADER_RESOURCE
    /\ (d = s -> img_needsSync simg = true)
    /\ (d <> s ->
        exists dimg,
          objs (snd (DrawTriangles dstID srcs shaderID indexLen indexOffset mode
                       dstRegion w)) !! d = Some dimg
          /\ img_state dimg = D3D12_RESOURCE_STATE_RENDER_TARGET
          /\ img_needsSync dimg = true).
Proof.
  intros Hr.
  exact (DrawTriangles_states_run dstID srcs shaderID indexLen indexOffset mode
           dstRegion w Hr).
Qed.

(** ** An [End] that fails reclaims nothing *)

Definition isRelease (e : event) : Prop := exists h, e = EvRelease h.

Ltac wp_hook ::=
  lazymatch goal with
  | |- context [Z.rem (0 + 1) frameCount] => change (Z.rem (0 + 1) frameCount) with 1
  | |- context [Z.rem (1 + 1) frameCount] => change (Z.rem (1 + 1) frameCount) with 0
  | |- wp (forEach _ disposeImpl) _ _ =>
      apply wp_disposeAll; intros ? ? ? ? ? ? ?
  | Hn0 : ?i <> 0, Hn1 : ?i <> 1 |- wp (index ?a ?i) _ _ =>
      unfold index; rewrite (pf_get_out a i Hn0 Hn1)
  end.

Lemma End_on_error present w :
  wp (End present) w (fun r w' =>
    match r with
    | Err e =>
        vertices (gfx w') = vertices (gfx w)
        /\ indices (gfx w') = indices (gfx w)
        /\ disposedImages (gfx w') = disposedImages (gfx w)
        /\ (forall i img, objs w !! i = Some img ->
              exists img', objs w' !! i = Some img'
                           /\ fixedFields img' = fixedFields img
                           /\ releasesOf img' = releasesOf img)
        /\ exists evs, trace w' = evs ++ trace w /\ Forall (fun e => ~ isRelease e) evs
    | _ => True
    end).
Proof. params.
  open_world w.
  destruct (decide (frameIndex0 = 0)) as [->|Hn0];
    [| destruct (decide (frameIndex0 = 1)) as [->|Hn1]].
  all: unfold End; destruct present; wp_run.
  all: try exact I.
  all: try match goal with H : forall e, Err _ <> Err e |- _ => exfalso; exact (H _ eq_refl) end.
  all: cbn; do 3 (split; [reflexivity |]).
  all: split;
    [ intros j img Hj;
      first
        [ exists img; split; [exact Hj | split; reflexivity]
        | match goal with
          | |- context [alter _ ?p _ !! _] =>
              destruct (decide (j = p)) as [->|Hne];
              [ rewrite lookup_alter_eq, Hj; cbn; eexists; split; [reflexivity |];
                split; reflexivity
              | rewrite lookup_alter_ne by congruence; exists img;
                split; [exact Hj | split; reflexivity] ]
          end ]
    | since_log; repeat (constructor; [intros [? Hh]; discriminate Hh |]); constructor ].
Qed.
Ltac wp_hook ::= fail.

(** X2.  An [End] that returns an error has reclaimed nothing: the vertex and
    index lists and the lists of disposed images are as before, every
    image object is there with the fields it was created with and with
    its native objects, and no release is recorded. *)
Theorem End_failure_reclaims_nothing present w e :
  fst (End present w) = Err e ->
  vertices (gfx (snd (End present w))) = vertices (gfx w)
  /\ indices (gfx (snd (End present w))) = indices (gfx w)
  /\ disposedImages (gfx (snd (End present w))) = disposedImages (gfx w)
  /\ (forall i img, objs w !! i = Some img ->
        exists img', objs (snd (End present w)) !! i = Some img'
                     /\ fixedFields img' = fixedFields img
                     /\ releasesOf img' = releasesOf img)
  /\ exists evs, trace (snd (End present w)) = evs ++ trace w
                 /\ Forall (fun e => ~ isRelease e) evs.
Proof. params.
  intros Hr. pose proof (End_on_error present w) as H. unfold wp in H.
  rewrite Hr in H. exact H.
Qed.

(** ** Uploading pixels *)

(** The events of the copy loop of [ReplacePixels]: writes into the
    mapped staging buffer and copies from it into the texture. *)
Definition copies (sb : handle) (tex : option handle) (e : event) : Prop :=
  (exists off data, e = EvWrite sb off data)
  \/ (exists x y r b, e = EvCopyTextureRegion tex x y sb r b).

(** The copy loop changes nothing but the log. *)
Definition pixelLoop (sb : handle) (tex : option handle) : relation world :=
  fun w w' =>
    objs w' = objs w /\ gfx w' = gfx w /\ heaps w' = heaps w
    /\ logs (copies sb tex) w w'.

#[global] Instance pixelLoop_preorder sb tex : PreOrder (pixelLoop sb tex).
Proof. params.
  split.
  - intros w. repeat split. reflexivity.
  - intros a b c (O1 & G1 & H1 & L1) (O2 & G2 & H2 & L2).
    repeat split; try congruence. etransitivity; eassumption.
Qed.

Lemma wp_pixelLoop {A} sb tex (m : M A) w (Q : result A -> world -> Prop) :
  preserves (pixelLoop sb tex) m ->
  (forall r w', pixelLoop sb tex w w' -> Q r w') ->
  wp m w Q.
Proof. params. intros Hm HQ. apply HQ, Hm. Qed.

Ltac keeps_pixelLoop :=
  cbn; split; [reflexivity |]; split; [reflexivity |]; split; [reflexivity |];
  first [ apply logs_nil; reflexivity
        | eapply logs_one;
          [ reflexivity
          | first [ left; do 2 eexists; reflexivity
                  | right; do 4 eexists; reflexivity ] ] ].

Ltac wp_hook ::=
  lazymatch goal with
  | |- wp (forEach _ _) _ _ =>
      eapply wp_pixelLoop; [preserves_auto keeps_pixelLoop | intros ? ? (? & ? & ? & ? & ? & ?)]
  | |- context [alter _ ?i _ !! ?i] => rewrite lookup_alter_eq
  | H : ?m !! ?i = Some _ |- context [?m !! ?i] => rewrite H
  end.

(** What [ReplacePixels] records before it maps the staging buffer. *)
Definition stagingPrologue (img : Image) (sb : handle) : list event :=
  (if bool_decide (img_state img = D3D12_RESOURCE_STATE_COPY_DEST) then []
   else [EvResourceBarrier (img_texture img) (img_state img)
           D3D12_RESOURCE_STATE_COPY_DEST])
  ++ match img_stagingBuffer img with
     | Some _ => []
     | None =>
         [EvCreateCommittedResource D3D12_HEAP_TYPE_UPLOAD
            D3D12_RESOURCE_DIMENSION_BUFFER (img_totalBytes img) 1
            D3D12_RESOURCE_STATE_GENERIC_READ sb]
     end.

Lemma ReplacePixels_run i args w img :
  objs w !! i = Some img ->
  wp (ReplacePixels i args) w (fun r w' =>
    r = Ok tt ->
    exists img' sb mid,
      img_screen img = false
      /\ objs w' !! i = Some img'
      /\ fixedFields img' = fixedFields img
      /\ img_state img' = D3D12_RESOURCE_STATE_COPY_DEST
      /\ img_needsSync img' = false
      /\ img_stagingBuffer img' = Some sb
      /\ match img_stagingBuffer img with Some sb0 => sb = sb0 | None => True end
      /\ trace w' = EvUnmap sb :: mid ++ EvMap sb :: stagingPrologue img sb ++ trace w
      /\ Forall (copies sb (img_texture img)) mid).
Proof. params.
  intros Hi. open_world w. destruct img. cbn in Hi. unfold ReplacePixels, stagingPrologue.
  wp_run.
  all: cbn; intros Hr; try discriminate.
  all: cbn in *; simplify_eq.
  all: repeat match goal with
              | H : objs _ = _ |- _ => rewrite H; clear H
              | H : trace _ = _ ++ _ |- _ => rewrite H; clear H
              end.
  all: rewrite ?lookup_alter_eq, Hi; cbn.
  all: try (match goal with H : bool_decide _ = _ |- _ => rewrite H end); cbn.
  all: do 3 eexists; repeat (split; [reflexivity |]); try assumption.
  all: (split; [match goal with
                | H : bool_decide _ = true |- _ => apply bool_decide_eq_true in H; exact H
                end |]);
    repeat (split; [reflexivity |]); assumption.
Qed.
Ltac wp_hook ::= fail.

(** X20.  A [ReplacePixels] that returns nil was not called on the screen
    image.  It leaves the image tracked as COPY_DEST, not needing
    synchronisation, with the staging buffer it had (one is created only
    when it had none), and otherwise as it was created.  It has recorded,
    in this order: the creation of the staging buffer and the transition
    barrier where they were needed, the mapping of the staging buffer,
    only writes into that buffer and copies from it into the texture of
    the image, and the unmapping of the buffer. *)
Theorem ReplacePixels_stages i args w img :
  objs w !! i = Some img ->
  fst (ReplacePixels i args w) = Ok tt ->
  exists img' sb mid,
    img_screen img = false
    /\ objs (snd (ReplacePixels i args w)) !! i = Some img'
    /\ fixedFields img' = fixedFields img
    /\ img_state img' = D3D12_RESOURCE_STATE_COPY_DEST
    /\ img_needsSync img' = false
    /\ img_stagingBuffer img' = Some sb
    /\ match img_stagingBuffer img with Some sb0 => sb = sb0 | None => True end
    /\ trace (snd (ReplacePixels i args w))
       = EvUnmap sb :: mid ++ EvMap sb :: stagingPrologue img sb ++ trace w
    /\ Forall (copies sb (img_texture img)) mid.
Proof. params.
  intros Hi Hr. exact (ReplacePixels_run i args w img Hi Hr).
Qed.

End Driver.

(** * Runs of the driver

    The theorems above hold for all values of the parameters.  The runs
    below fix them: every composite mode is source-over (One,
    OneMinusSrcAlpha), internal image sizes are powers of two of at least
    16, and the buffer sizes are those of 65535 indices and 8 floats per
    vertex. *)

Definition sourceOver (mode : Z) : Operation * Operation := (One, OneMinusSrcAlpha).
Definition internalImageSize (x : Z) : Z := Z.max 16 (2 ^ Z.log2_up x).
Definition indicesNum : Z := 65535.
Definition vertexFloatNum : Z := 8.
Definition invalidShaderID : Z := 0.

Definition draw : Z -> Z * Z * Z * Z -> Z -> Z -> Z -> Z -> Region -> M unit :=
  DrawTriangles sourceOver internalImageSize indicesNum vertexFloatNum invalidShaderID.
Definition setVerts : list Z -> list Z -> M unit := SetVertices indicesNum vertexFloatNum.
Definition canReach : relation world :=
  reachable sourceOver internalImageSize indicesNum vertexFloatNum invalidShaderID.

Fixpoint times (n : nat) (m : M unit) : M unit :=
  match n with
  | O => ret tt
  | S n' => let* _ := m in times n' m
  end.

(** A native side that gives the listed answers to the calls of the
    listed numbers, and succeeds with value 0 otherwise. *)
Definition answers (l : list (nat * answer)) : nat -> answer :=
  fun n =>
    match List.find (fun p => Nat.eqb (fst p) n) l with
    | Some p => snd p
    | None => succeed
    end.

(** The first frame up to its draws: the screen is image 1; images 2 and
    3 are textures. *)
Definition start : M unit :=
  let* _ := Initialize in
  let* _ := SetWindow 1 in
  let* _ := Begin in
  let* _ := NewScreenFramebufferImage 640 480 in
  let* _ := NewImage internalImageSize 64 64 in
  let* _ := NewImage internalImageSize 32 32 in
  ret tt.

Definition wholeScreen : Region := MkRegion 0 0 640 480.

(** One draw of image 2, and one of image 3, onto the screen. *)
Definition draw2 : M unit := draw 1 (2, 0, 0, 0) invalidShaderID 3 0 3 wholeScreen.
Definition draw3 : M unit := draw 1 (3, 0, 0, 0) invalidShaderID 3 0 3 wholeScreen.

Definition screenKey : pipelineStatesKey := PipelineStatesKey 3 true.

(** The descriptors of a heap slot that a log has written, newest first. *)
Definition writers (heap : handle) (slot : Z) (tr : list event) : list event :=
  List.filter
    (fun e =>
       match e with
       | EvCreateConstantBufferView _ _ h s
       | EvCreateShaderResourceView _ h s => Nat.eqb h heap && (s =? slot)
       | _ => false
       end) tr.

(** ** The pipeline cache *)

(** The world after [Initialize], when the compilation of the pixel
    shader (the fourth native call of the build) fails with code 5. *)
Definition pixelShaderFails : world :=
  exec Initialize (boot (answers [(16%nat, Answer (Some 5) 0)])).

Lemma graphicsPipelineState_failure_witness :
  cacheLookup (pipeline (gfx pixelShaderFails)) screenKey = None
  /\ fst (graphicsPipelineState sourceOver screenKey pixelShaderFails) = Err (DeviceError 5)
  /\ (forall k,
        cacheLookup
          (pipeline (gfx (snd (graphicsPipelineState sourceOver screenKey pixelShaderFails)))) k
        = cacheLookup (pipeline (gfx pixelShaderFails)) k)
  /\ exists evs,
       trace (snd (graphicsPipelineState sourceOver screenKey pixelShaderFails))
       = evs ++ trace pixelShaderFails
       /\ forall ev h, In ev evs -> created ev = Some h -> In (EvRelease h) evs.
Proof.
  assert (Hmiss : cacheLookup (pipeline (gfx pixelShaderFails)) screenKey = None)
    by (vm_compute; reflexivity).
  destruct (graphicsPipelineState_failure sourceOver screenKey pixelShaderFails Hmiss)
    as [Hstep Hpost].
  assert (Hrun : fst (graphicsPipelineState sourceOver screenKey pixelShaderFails)
                 = Err (DeviceError 5)).
  { apply (Hstep 3%nat 5).
    - repeat constructor.
    - intros j Hj. destruct j as [|[|[|j]]]; [vm_compute; reflexivity .. |].
      exfalso. apply (Nat.lt_irrefl 3). eapply Nat.le_lt_trans; [| exact Hj].
      do 3 apply le_n_S. apply Nat.le_0_l.
    - vm_compute; reflexivity.
    - intros H; discriminate H. }
  destruct (graphicsPipelineState sourceOver screenKey pixelShaderFails) as [r w'] eqn:E.
  cbn [fst snd] in *. subst r.
  destruct (Hpost _ _ eq_refl) as (Hcache & _ & Hrel & _).
  split; [exact Hmiss |]. split; [reflexivity |]. split; [exact Hcache | exact Hrel].
Defined.

(** The world after [Initialize], when every native call succeeds. *)
Definition initialized : world := exec Initialize (boot (answers [])).

Lemma operationToBlend_mapping_witness :
  cacheLookup (pipeline (gfx initialized)) screenKey = None
  /\ exists psv desc h,
       fst (graphicsPipelineState sourceOver screenKey initialized) = Ok psv
       /\ In (EvCreateGraphicsPipelineState desc h)
             (trace (snd (graphicsPipelineState sourceOver screenKey initialized)))
       /\ state psv = Some h
       /\ SrcBlend (RenderTarget0 desc) = D3D12_BLEND_ONE
       /\ SrcBlendAlpha (RenderTarget0 desc) = D3D12_BLEND_ONE
       /\ DestBlend (RenderTarget0 desc) = D3D12_BLEND_INV_SRC_ALPHA
       /\ DestBlendAlpha (RenderTarget0 desc) = D3D12_BLEND_INV_SRC_ALPHA
       /\ BlendOp (RenderTarget0 desc) = D3D12_BLEND_OP_ADD
       /\ BlendOpAlpha (RenderTarget0 desc) = D3D12_BLEND_OP_ADD.
Proof.
  assert (Hmiss : cacheLookup (pipeline (gfx initialized)) screenKey = None)
    by (vm_compute; reflexivity).
  split; [exact Hmiss |].
  destruct (operationToBlend_mapping sourceOver) as (_ & Hbuilt & _).
  destruct (graphicsPipelineState sourceOver screenKey initialized) as [r w'] eqn:E.
  assert (Hr : exists psv, r = Ok psv).
  { assert (Hf : fst (graphicsPipelineState sourceOver screenKey initialized) = r)
      by (rewrite E; reflexivity).
    rewrite <- Hf. vm_compute. eexists. reflexivity. }
  destruct Hr as [psv ->].
  destruct (Hbuilt screenKey initialized psv w' Hmiss E)
    as (src & dst & desc & h & Hs & Hd & Hin & Hst & H1 & H2 & H3 & H4 & H5 & H6 & _).
  exists psv, desc, h. cbn [fst snd].
  assert (src = D3D12_BLEND_ONE) by (cbn in Hs; congruence).
  assert (dst = D3D12_BLEND_INV_SRC_ALPHA) by (cbn in Hd; congruence).
  subst. repeat split; try assumption; try reflexivity; congruence.
Defined.

(** After the entry of [screenKey] is built, a frame is begun; the next
    lookup finds the entry. *)
Lemma graphicsPipelineState_idempotent_witness :
  let built := graphicsPipelineState sourceOver screenKey initialized in
  let later := exec Begin (snd built) in
  exists psv,
    fst built = Ok psv
    /\ canReach (snd built) later
    /\ graphicsPipelineState sourceOver screenKey later = (Ok psv, later).
Proof.
  intros built later.
  destruct built as [r w1] eqn:E.
  assert (Hr : exists psv, r = Ok psv).
  { assert (Hf : fst (graphicsPipelineState sourceOver screenKey initialized) = r)
      by (fold built; rewrite E; reflexivity).
    rewrite <- Hf. vm_compute. eexists. reflexivity. }
  destruct Hr as [psv ->]. exists psv. cbn [fst snd] in *.
  assert (Hreach : canReach w1 later).
  { apply rtc_once. exists OpBegin. reflexivity. }
  split; [reflexivity |]. split; [exact Hreach |].
  exact (proj1 (graphicsPipelineState_idempotent sourceOver internalImageSize indicesNum
                  vertexFloatNum invalidShaderID screenKey initialized psv w1 E later Hreach)).
Defined.

(** ** Frames *)

(** The first frame: one draw of image 2 onto the screen, image 2 is
    disposed, and the frame is presented. *)
Definition firstFrame : M unit :=
  let* _ := start in
  let* _ := setVerts [1; 2; 3] [0; 1; 2] in
  let* _ := draw2 in
  let* _ := Dispose 1%nat in
  End true.

(** The second frame up to its [End]: the swap chain reports back buffer
    1, and image 3 is drawn onto the screen. *)
Definition secondFrame : M unit :=
  let* _ := firstFrame in
  let* _ := Begin in
  let* _ := setVerts [4; 5; 6] [0; 1; 2] in
  draw3.

(** C6, as the claim has it, does not hold: without a swap chain [Begin]
    selects slot 0 every time, not the slot after the current one. *)
Lemma Begin_without_swap_chain_is_not_round_robin :
  swapChain (gfx initialized) = None
  /\ outcome Begin initialized = Ok tt
  /\ frameIndex (gfx (exec Begin initialized)) = 0
  /\ outcome Begin (exec Begin initialized) = Ok tt
  /\ frameIndex (gfx (exec Begin (exec Begin initialized))) = 0
  /\ frameIndex (gfx (exec Begin (exec Begin initialized)))
     <> Z.rem (frameIndex (gfx (exec Begin initialized)) + 1) frameCount.
Proof. vm_compute. repeat split; try reflexivity. discriminate. Qed.

(** The world after the first frame, when the swap chain then reports
    back buffer 1 (the answer to native call 43). *)
Definition afterFirstFrame : world :=
  exec firstFrame (boot (answers [(43%nat, Answer None 1)])).

Lemma Begin_selects_slot_witness :
  swapChain (gfx afterFirstFrame) <> None
  /\ frameIndex (gfx (snd (Begin afterFirstFrame))) = 1
  /\ fst (Begin afterFirstFrame) = Ok tt
  /\ trace (snd (Begin afterFirstFrame))
     = EvCommandListReset (Some 3%nat) :: EvAllocatorReset 3%nat :: trace afterFirstFrame.
Proof.
  pose proof (Begin_selects_slot afterFirstFrame) as H. cbv zeta in H.
  destruct H as [Hslot Hreset].
  assert (Hsc : swapChain (gfx afterFirstFrame) = Some 10%nat) by (vm_compute; reflexivity).
  rewrite Hsc in Hslot, Hreset.
  assert (Hone : uint32 (ans_val (oracle afterFirstFrame (tick afterFirstFrame))) = 1)
    by (vm_compute; reflexivity).
  rewrite Hone in Hslot, Hreset.
  specialize (Hreset 3%nat 6%nat).
  assert (Ha : pf_get (commandAllocators (gfx afterFirstFrame)) 1 = Some (Some 3%nat))
    by (vm_compute; reflexivity).
  assert (Hcl : commandList (gfx afterFirstFrame) = Some 6%nat) by (vm_compute; reflexivity).
  specialize (Hreset Ha Hcl).
  assert (A1 : ans_err (oracle afterFirstFrame (S (tick afterFirstFrame))) = None)
    by (vm_compute; reflexivity).
  assert (A2 : ans_err (oracle afterFirstFrame (S (S (tick afterFirstFrame)))) = None)
    by (vm_compute; reflexivity).
  rewrite A1, A2 in Hreset. destruct Hreset as [Hok Htr].
  split; [rewrite Hsc; discriminate |]. split; [exact Hslot |]. split; assumption.
Defined.

(** The world before the [End] of the second frame.  The event of the
    fence wait is 77.  The fence of slot 0 has been signaled with 1; the
    native side will report 0 as its completed value (call 58) and
    WAIT_TIMEOUT as the result of the wait (call 60). *)
Definition gpuHangs : world :=
  exec secondFrame
    (boot (answers [(0%nat, Answer None 77); (43%nat, Answer None 1);
                    (60%nat, Answer None WAIT_TIMEOUT)])).

(** C4, on the code.  The wait of [End] is given 10000 ms.  When it runs
    into the time-out, [WaitForSingleObject] returns WAIT_TIMEOUT and no
    error, and [End] returns nil: the native calls of this [End] end with
    the wait that timed out, once, and the release of a texture. *)
Theorem End_returns_nil_after_wait_timeout :
  gpuWaitTimeout = 10000
  /\ pf_get (fenceValues (gfx gpuHangs)) 0 = Some 1
  /\ uint64 (ans_val (oracle gpuHangs (tick gpuHangs + 3))) = 0
  /\ outcome (End true) gpuHangs = Ok tt
  /\ firstn 3 (trace (exec (End true) gpuHangs))
     = [EvRelease 13%nat;
        EvWaitForSingleObject 77 gpuWaitTimeout WAIT_TIMEOUT;
        EvSetEventOnCompletion 4%nat 1 77].
Proof. vm_compute. repeat split; reflexivity. Qed.

(** C1, on the code.  In the same run slot 0 is reclaimed although its
    fence has not reached the value signaled for it: the completed value
    read is 0, the value signaled is 1, and the wait ended by time-out.
    [End] truncates the vertex and index lists of slot 0 and releases the
    texture of the image disposed in slot 0. *)
Theorem End_reclaims_slot_after_wait_timeout :
  frameIndex (gfx gpuHangs) = 1
  /\ pf_get (fenceValues (gfx gpuHangs)) 0 = Some 1
  /\ uint64 (ans_val (oracle gpuHangs (tick gpuHangs + 3))) < 1
  /\ uint32 (ans_val (oracle gpuHangs (tick gpuHangs + 5))) = WAIT_TIMEOUT
  /\ sl_len (frame0 (vertices (gfx gpuHangs))) = 1%nat
  /\ sl_len (frame0 (indices (gfx gpuHangs))) = 1%nat
  /\ frame0 (disposedImages (gfx gpuHangs)) = [1%nat]
  /\ (img_texture <$> objs gpuHangs !! 1%nat) = Some (Some 13%nat)
  /\ outcome (End true) gpuHangs = Ok tt
  /\ sl_len (frame0 (vertices (gfx (exec (End true) gpuHangs)))) = 0%nat
  /\ sl_len (frame0 (indices (gfx (exec (End true) gpuHangs)))) = 0%nat
  /\ frame0 (disposedImages (gfx (exec (End true) gpuHangs))) = []
  /\ (img_texture <$> objs (exec (End true) gpuHangs) !! 1%nat) = Some None
  /\ hd_error (trace (exec (End true) gpuHangs)) = Some (EvRelease 13%nat).
Proof. vm_compute. repeat split; reflexivity. Qed.

(** ** The descriptor table *)

(** Frame 0 records 52 draws and is presented; frame 1, in slot 1,
    records 462 draws.  The swap chain reports back buffer 1 at the second
    [Begin] (native call 196). *)
Definition manyDrawsRun : M unit :=
  let* _ := start in
  let* _ := setVerts [1; 2; 3] [0; 1; 2] in
  let* _ := times 52 draw2 in
  let* _ := End true in
  let* _ := Begin in
  let* _ := setVerts [1; 2; 3] [0; 1; 2] in
  times 462 draw2.

Definition manyDraws : world :=
  exec manyDrawsRun (boot (answers [(196%nat, Answer None 1)])).

(** C2, on the code.  All these draws succeed.  The table has 2560
    descriptors.  Draw 51 of slot 0 wrote its texture view to descriptor
    256, and draw 0 of slot 1 then wrote its constant-buffer view to the
    same descriptor; draw 461 of slot 1 wrote its constant-buffer view to
    descriptor 2561, past the end of the table. *)
Theorem descriptor_regions_overlap_and_overflow :
  outcome manyDrawsRun (boot (answers [(196%nat, Answer None 1)])) = Ok tt
  /\ frameIndex (gfx manyDraws) = 1
  /\ shaderDescriptorHeap (pipeline (gfx manyDraws)) = Some 8%nat
  /\ (dh_num <$> heaps manyDraws !! 8%nat)
     = Some (frameCount * numDescriptorsPerFrame * numConstantBufferAndSourceTextures)
  /\ frameCount * numDescriptorsPerFrame * numConstantBufferAndSourceTextures = 2560
  /\ tableOffset 0 51 + 1 = 256
  /\ tableOffset 1 0 = 256
  /\ writers 8%nat 256 (trace manyDraws)
     = [EvCreateConstantBufferView 76%nat 256 8%nat 256;
        EvCreateShaderResourceView (Some 13%nat) 8%nat 256]
  /\ tableOffset 1 461 = 2561
  /\ writers 8%nat 2561 (trace manyDraws)
     = [EvCreateConstantBufferView 537%nat 256 8%nat 2561].
Proof. vm_compute. repeat split; reflexivity. Qed.



(** ** Images and draws *)

(** The first frame before any [SetVertices]. *)
Definition started : world := exec start (boot (answers [])).


Lemma DrawTriangles_binds_last_buffers_witness :
  outcome draw2 started = Panic (PanicIndexOutOfRange (-1) 0)
  /\ outcome (setVerts [1; 2; 3] [0; 1; 2]) started = Ok tt
  /\ outcome draw2 (exec (setVerts [1; 2; 3] [0; 1; 2]) started) = Ok tt
  /\ exists rest,
       trace (exec draw2 (exec (setVerts [1; 2; 3] [0; 1; 2]) started))
       = EvDrawIndexedInstanced 3 1 0
         :: EvIASetIndexBuffer 16%nat (uint32 (indicesNum * 2))
         :: EvIASetVertexBuffers 15%nat (uint32 (indicesNum * vertexFloatNum * 4))
              (uint32 (vertexFloatNum * 4))
         :: EvIASetPrimitiveTopology :: rest.
Proof.
  destruct (DrawTriangles_binds_last_buffers sourceOver internalImageSize indicesNum
              vertexFloatNum invalidShaderID) as [Hset Hdraw].
  split; [| split; [vm_compute; reflexivity |]].
  - unfold outcome, draw2, draw.
    destruct (DrawTriangles sourceOver internalImageSize indicesNum vertexFloatNum
                invalidShaderID 1 (2, 0, 0, 0) invalidShaderID 3 0 3 wholeScreen started)
      as [r w'] eqn:E.
    assert (Hv : pf_get (vertices (gfx started)) (frameIndex (gfx started))
                 = Some (frame0 (vertices (gfx started)))) by (vm_compute; reflexivity).
    assert (Hi : pf_get (indices (gfx started)) (frameIndex (gfx started))
                 = Some (frame0 (indices (gfx started)))) by (vm_compute; reflexivity).
    destruct (Hdraw _ _ _ _ _ _ _ _ _ _ _ _ Hv Hi E) as (_ & _ & Hpanic).
    apply Hpanic.
    + vm_compute; reflexivity.
    + vm_compute; reflexivity.
    + vm_compute. intros H; discriminate H.
  - set (w1 := exec (setVerts [1; 2; 3] [0; 1; 2]) started).
    unfold outcome, exec, draw2, draw.
    destruct (DrawTriangles sourceOver internalImageSize indicesNum vertexFloatNum
                invalidShaderID 1 (2, 0, 0, 0) invalidShaderID 3 0 3 wholeScreen w1)
      as [r w'] eqn:E.
    assert (Hr : r = Ok tt).
    { assert (Hf : fst (DrawTriangles sourceOver internalImageSize indicesNum vertexFloatNum
                          invalidShaderID 1 (2, 0, 0, 0) invalidShaderID 3 0 3 wholeScreen w1)
                   = r) by (rewrite E; reflexivity).
      rewrite <- Hf. vm_compute. reflexivity. }
    assert (Hv : pf_get (vertices (gfx w1)) (frameIndex (gfx w1))
                 = Some (frame0 (vertices (gfx w1)))) by (vm_compute; reflexivity).
    assert (Hi : pf_get (indices (gfx w1)) (frameIndex (gfx w1))
                 = Some (frame0 (indices (gfx w1)))) by (vm_compute; reflexivity).
    destruct (Hdraw _ _ _ _ _ _ _ _ _ _ _ _ Hv Hi E) as (Hok & _ & _).
    destruct (Hok Hr) as (v & i & rest & Lv & Li & Htr).
    assert (v = 15%nat) by (vm_compute in Lv; congruence).
    assert (i = 16%nat) by (vm_compute in Li; congruence).
    subst. cbn [fst snd]. split; [reflexivity |]. exists rest. exact Htr.
Defined.

(** ** More runs *)

Lemma operationToBlend_injective_witness :
  operationToBlend SrcAlpha = Ok D3D12_BLEND_SRC_ALPHA /\ SrcAlpha = SrcAlpha.
Proof.
  assert (H : operationToBlend SrcAlpha = Ok D3D12_BLEND_SRC_ALPHA) by reflexivity.
  exact (conj H (operationToBlend_injective SrcAlpha SrcAlpha D3D12_BLEND_SRC_ALPHA H H)).
Defined.

(** The second frame is presented while the GPU hangs: slot 0, in which
    image 2 was disposed of, is reclaimed. *)
Lemma End_reclaims_other_slot_witness :
  fst (End true gpuHangs) = Ok tt
  /\ frameIndex (gfx gpuHangs) = 1
  /\ frame0 (disposedImages (gfx gpuHangs)) = [1%nat]
  /\ reclaimed gpuHangs (snd (End true gpuHangs)).
Proof.
  assert (H : fst (End true gpuHangs) = Ok tt) by (vm_compute; reflexivity).
  split; [exact H |]. split; [vm_compute; reflexivity |]. split; [vm_compute; reflexivity |].
  exact (End_reclaims_other_slot gpuHangs H).
Defined.

Lemma disposeImpl_twice_witness :
  is_Some (objs started !! 1%nat)
  /\ fst (disposeImpl 1%nat started) = Ok tt
  /\ disposeImpl 1%nat (snd (disposeImpl 1%nat started))
     = (Ok tt, snd (disposeImpl 1%nat started)).
Proof.
  assert (H : is_Some (objs started !! 1%nat)) by (vm_compute; eexists; reflexivity).
  exact (conj H (disposeImpl_twice 1%nat started H)).
Defined.




Lemma Initialize_sets_up_witness :
  fst (Initialize (boot (answers []))) = Ok tt
  /\ setUp (boot (answers [])) (snd (Initialize (boot (answers [])))).
Proof.
  assert (H : fst (Initialize (boot (answers []))) = Ok tt) by (vm_compute; reflexivity).
  exact (conj H (Initialize_sets_up (boot (answers [])) H)).
Defined.

(** ** Images *)

Lemma NewImage_registers_witness :
  fst (NewImage internalImageSize 16 16 started) = Ok 3%nat
  /\ exists img t,
       objs (snd (NewImage internalImageSize 16 16 started)) !! 3%nat = Some img
       /\ img_texture img = Some t
       /\ img_state img = D3D12_RESOURCE_STATE_PIXEL_SHADER_RESOURCE
       /\ fst (lookupImage (img_id img) started) = Ok None
       /\ fst (lookupImage (img_id img) (snd (NewImage internalImageSize 16 16 started)))
          = Ok (Some 3%nat).
Proof.
  assert (H : fst (NewImage internalImageSize 16 16 started) = Ok 3%nat)
    by (vm_compute; reflexivity).
  split; [exact H |].
  destruct (NewImage_registers internalImageSize 16 16 started 3%nat H)
    as (img & t & Hi & _ & _ & _ & _ & Hst & Ht & _ & _ & _ & Hfresh & Hreg & _).
  exists img, t.
  exact (conj Hi (conj Ht (conj Hst (conj Hfresh Hreg)))).
Defined.

(** The first frame, on a native side that refuses every further call
    with code 9. *)
Definition refusing : world := set_oracle (fun _ => Answer (Some 9) 0) started.

Lemma NewImage_failure_changes_nothing_witness :
  fst (NewImage internalImageSize 16 16 refusing) = Err (DeviceError 9)
  /\ snd (NewImage internalImageSize 16 16 refusing)
     = set_tick (S (tick refusing)) refusing.
Proof.
  assert (H : fst (NewImage internalImageSize 16 16 refusing) = Err (DeviceError 9))
    by (vm_compute; reflexivity).
  split; [exact H |].
  exact (proj1 (NewImage_failure_changes_nothing internalImageSize 16 16 refusing
                  (DeviceError 9) H)).
Defined.

(** The driver after [Initialize] and [SetWindow]. *)
Definition windowed : world := exec (SetWindow 1) initialized.

Lemma NewScreenFramebufferImage_registers_witness :
  fst (NewScreenFramebufferImage 640 480 windowed) = Ok 0%nat
  /\ swapChain (gfx windowed) = None
  /\ swapChainReady 640 480 windowed (snd (NewScreenFramebufferImage 640 480 windowed))
  /\ screenImage (gfx (snd (NewScreenFramebufferImage 640 480 windowed))) = Some 0%nat.
Proof.
  assert (H : fst (NewScreenFramebufferImage 640 480 windowed) = Ok 0%nat)
    by (vm_compute; reflexivity).
  split; [exact H |]. split; [vm_compute; reflexivity |].
  destruct (NewScreenFramebufferImage_registers 640 480 windowed 0%nat H)
    as (_ & Hsc & img & _ & _ & _ & _ & _ & _ & Hscreen & _).
  exact (conj Hsc Hscreen).
Defined.

Lemma NewScreenFramebufferImage_failure_witness :
  window (gfx initialized) = 0
  /\ fst (NewScreenFramebufferImage 640 480 initialized) = Err ErrWindowNotInitialized
  /\ snd (NewScreenFramebufferImage 640 480 initialized) = initialized.
Proof.
  assert (Hw : window (gfx initialized) = 0) by (vm_compute; reflexivity).
  assert (H : fst (NewScreenFramebufferImage 640 480 initialized)
              = Err ErrWindowNotInitialized) by (vm_compute; reflexivity).
  split; [exact Hw |]. split; [exact H |].
  destruct (NewScreenFramebufferImage_failure 640 480 initialized
              ErrWindowNotInitialized H) as [Hnone _].
  exact (proj2 (Hnone Hw)).
Defined.

Lemma Dispose_defers_release_witness :
  exists img,
    objs started !! 1%nat = Some img
    /\ fst (Dispose 1%nat started) = Ok tt
    /\ trace (snd (Dispose 1%nat started)) = trace started
    /\ objs (snd (Dispose 1%nat started)) = objs started
    /\ fst (lookupImage (img_id img) (snd (Dispose 1%nat started))) = Ok None
    /\ pf_get (disposedImages (gfx (snd (Dispose 1%nat started)))) 0 = Some [1%nat].
Proof.
  assert (Hi : exists img, objs started !! 1%nat = Some img)
    by (vm_compute; eexists; reflexivity).
  destruct Hi as [img Hi]. exists img.
  assert (Hd : pf_get (disposedImages (gfx started)) (frameIndex (gfx started)) = Some [])
    by (vm_compute; reflexivity).
  destruct (Dispose_defers_release 1%nat started img [] Hi Hd)
    as (Hr & Ht & _ & Ho & Hl & _ & Hq & _).
  assert (Hf : frameIndex (gfx started) = 0) by (vm_compute; reflexivity).
  rewrite Hf in Hq.
  exact (conj Hi (conj Hr (conj Ht (conj Ho (conj Hl Hq))))).
Defined.

(** ** Reuse *)

(** The third frame: after the second frame is presented, [Begin] finds
    back buffer 0, whose lists [End] has emptied. *)
Definition thirdFrame : world := exec Begin (exec (End true) gpuHangs).

Lemma SetVertices_reuses_buffers_witness :
  frameIndex (gfx thirdFrame) = 0
  /\ frame0 (vertices (gfx thirdFrame)) = Slice [Some 15%nat] 0
  /\ frame0 (indices (gfx thirdFrame)) = Slice [Some 16%nat] 0
  /\ fst (SetVertices indicesNum vertexFloatNum [7; 8; 9] [0; 1; 2] thirdFrame) = Ok tt
  /\ trace (snd (SetVertices indicesNum vertexFloatNum [7; 8; 9] [0; 1; 2] thirdFrame))
     = EvUnmap 16%nat :: EvWrite 16%nat 0 [0; 1; 2] :: EvMap 16%nat
       :: EvUnmap 15%nat :: EvWrite 15%nat 0 [7; 8; 9] :: EvMap 15%nat
       :: trace thirdFrame.
Proof.
  assert (Hv : pf_get (vertices (gfx thirdFrame)) (frameIndex (gfx thirdFrame))
               = Some (Slice [Some 15%nat] 0)) by (vm_compute; reflexivity).
  assert (Hi : pf_get (indices (gfx thirdFrame)) (frameIndex (gfx thirdFrame))
               = Some (Slice [Some 16%nat] 0)) by (vm_compute; reflexivity).
  assert (Hr : fst (SetVertices indicesNum vertexFloatNum [7; 8; 9] [0; 1; 2] thirdFrame)
               = Ok tt) by (vm_compute; reflexivity).
  destruct (SetVertices_reuses_buffers indicesNum vertexFloatNum [7; 8; 9] [0; 1; 2]
              thirdFrame (Slice [Some 15%nat] 0) (Slice [Some 16%nat] 0) 15%nat 16%nat
              Hv Hi eq_refl eq_refl) as (_ & _ & Hok).
  split; [vm_compute; reflexivity |]. split; [vm_compute; reflexivity |].
  split; [vm_compute; reflexivity |]. split; [exact Hr |].
  exact (proj1 (Hok Hr)).
Defined.

(** The first frame, on a native side that refuses the creation of the
    index buffer (the next call but one) with code 3. *)
Definition indexBufferFails : world :=
  set_oracle (answers [(26%nat, Answer (Some 3) 0)]) started.

Lemma SetVertices_failure_releases_witness :
  fst (SetVertices indicesNum vertexFloatNum [1; 2; 3] [0; 1; 2] indexBufferFails)
  = Err (DeviceError 3)
  /\ exists evs,
       trace (snd (SetVertices indicesNum vertexFloatNum [1; 2; 3] [0; 1; 2]
                     indexBufferFails))
       = evs ++ trace indexBufferFails
       /\ releasesWhatItCreates evs.
Proof.
  assert (Hr : fst (SetVertices indicesNum vertexFloatNum [1; 2; 3] [0; 1; 2]
                      indexBufferFails) = Err (DeviceError 3))
    by (vm_compute; reflexivity).
  exact (conj Hr (SetVertices_failure_releases indicesNum vertexFloatNum [1; 2; 3]
                    [0; 1; 2] indexBufferFails (DeviceError 3) Hr)).
Defined.

Lemma useGraphicsPipelineState_reuses_constant_buffer_witness :
  lastFrameIndex (pipeline (gfx thirdFrame)) = 1
  /\ frame0 (constantBuffers (pipeline (gfx thirdFrame))) = Slice [Some 22%nat] 1
  /\ fst (useGraphicsPipelineState sourceOver 0 screenKey 640 480 (Some 13%nat) thirdFrame)
     = Ok tt
  /\ pf_get (constantBuffers
               (pipeline (gfx (snd (useGraphicsPipelineState sourceOver 0 screenKey 640 480
                                      (Some 13%nat) thirdFrame))))) 0
     = Some (Slice [Some 22%nat] 1)
  /\ lastFrameIndex
       (pipeline (gfx (snd (useGraphicsPipelineState sourceOver 0 screenKey 640 480
                              (Some 13%nat) thirdFrame))))
     = 0.
Proof.
  assert (Hl : lastFrameIndex (pipeline (gfx thirdFrame)) = 1) by (vm_compute; reflexivity).
  assert (Hhit : cacheLookup (pipeline (gfx thirdFrame)) screenKey
                 = Some (PipelineStatesValue (Some 18%nat) (Some 19%nat) (Some 20%nat)
                           (Some 21%nat))) by (vm_compute; reflexivity).
  assert (Hs : pf_get (constantBuffers (pipeline (gfx thirdFrame))) 0
               = Some (Slice [Some 22%nat] 1)) by (vm_compute; reflexivity).
  assert (Hcb : sl_array (Slice [Some 22%nat] 1)
                !! (if lastFrameIndex (pipeline (gfx thirdFrame)) =? 0
                    then sl_len (Slice [Some 22%nat] 1) else 0%nat)
                = Some (Some 22%nat)) by (rewrite Hl; reflexivity).
  assert (Hr : fst (useGraphicsPipelineState sourceOver 0 screenKey 640 480 (Some 13%nat)
                      thirdFrame) = Ok tt) by (vm_compute; reflexivity).
  pose proof (useGraphicsPipelineState_reuses_constant_buffer sourceOver 0 screenKey 640 480
                (Some 13%nat) thirdFrame _ _ 22%nat Hhit Hs Hcb Hr) as H.
  cbv zeta in H. rewrite Hl in H. cbn [Z.eqb Pos.eqb sl_len] in H.
  destruct H as (h & sm & _ & _ & _ & Hcbs & Hlast).
  split; [exact Hl |]. split; [vm_compute; reflexivity |]. split; [exact Hr |].
  split; [exact Hcbs | exact Hlast].
Defined.

(** ** Images through the operations *)

Definition does : operation -> M unit :=
  perform sourceOver internalImageSize indicesNum vertexFloatNum invalidShaderID.

(** [Initialize], then a first image. *)
Definition oneImage : world :=
  exec (does (OpNewImage 64 64)) (exec (does OpInitialize) (boot (answers []))).

Lemma only_presenting_End_disposes_witness :
  canReach (boot (answers [])) oneImage
  /\ OpDispose 0%nat <> OpEnd true
  /\ exists img img',
       objs oneImage !! 0%nat = Some img
       /\ objs (exec (does (OpDispose 0%nat)) oneImage) !! 0%nat = Some img'
       /\ fixedFields img' = fixedFields img.
Proof.
  assert (Hreach : canReach (boot (answers [])) oneImage).
  { unfold canReach, oneImage, does.
    eapply rtc_l; [exists OpInitialize; reflexivity |].
    eapply rtc_l; [exists (OpNewImage 64 64); reflexivity |].
    apply rtc_refl. }
  assert (Hop : OpDispose 0%nat <> OpEnd true) by discriminate.
  assert (Hi : exists img, objs oneImage !! 0%nat = Some img)
    by (vm_compute; eexists; reflexivity).
  destruct Hi as [img Hi].
  destruct (only_presenting_End_disposes sourceOver internalImageSize indicesNum
              vertexFloatNum invalidShaderID (answers []) oneImage (OpDispose 0%nat)
              0%nat img Hreach Hop Hi) as (img' & Hi' & Hf).
  split; [exact Hreach |]. split; [exact Hop |].
  exists img, img'. exact (conj Hi (conj Hi' Hf)).
Defined.

(** A frame with the screen and one texture of 2 x 2 pixels, whose
    footprint the device reports as rows of 8 bytes, 16 bytes in all. *)
Definition textured : world :=
  exec (let* _ := Initialize in
        let* _ := SetWindow 1 in
        let* _ := Begin in
        let* _ := NewScreenFramebufferImage 640 480 in
        let* _ := NewImage internalImageSize 2 2 in
        ret tt)
       (boot (answers [(20%nat, Answer None 8); (21%nat, Answer None 16)])).

Definition fourPixels : list ReplacePixelsArgs :=
  [MkReplacePixelsArgs [1; 2; 3; 4; 5; 6; 7; 8; 9; 10; 11; 12; 13; 14; 15; 16] 0 0 2 2].

Lemma ReplacePixels_stages_witness :
  exists img,
    objs textured !! 1%nat = Some img
    /\ fst (ReplacePixels 1%nat fourPixels textured) = Ok tt
    /\ exists img' sb mid,
         objs (snd (ReplacePixels 1%nat fourPixels textured)) !! 1%nat = Some img'
         /\ img_state img' = D3D12_RESOURCE_STATE_COPY_DEST
         /\ img_stagingBuffer img' = Some sb
         /\ trace (snd (ReplacePixels 1%nat fourPixels textured))
            = EvUnmap sb :: mid ++ EvMap sb :: stagingPrologue img sb ++ trace textured
         /\ Forall (copies sb (img_texture img)) mid.
Proof.
  assert (Hi : exists img, objs textured !! 1%nat = Some img)
    by (vm_compute; eexists; reflexivity).
  destruct Hi as [img Hi]. exists img.
  assert (Hr : fst (ReplacePixels 1%nat fourPixels textured) = Ok tt)
    by (vm_compute; reflexivity).
  destruct (ReplacePixels_stages 1%nat fourPixels textured img Hi Hr)
    as (img' & sb & mid & _ & Hi' & _ & Hst & _ & Hsb & _ & Htr & Hmid).
  split; [exact Hi |]. split; [exact Hr |].
  exists img', sb, mid. exact (conj Hi' (conj Hst (conj Hsb (conj Htr Hmid)))).
Defined.

Lemma setAsRenderTarget_binds_view_witness :
  exists img,
    objs started !! 1%nat = Some img
    /\ fst (setAsRenderTarget 1%nat started) = Ok tt
    /\ exists img' h slot rest,
         objs (snd (setAsRenderTarget 1%nat started)) !! 1%nat = Some img'
         /\ img_state img' = D3D12_RESOURCE_STATE_RENDER_TARGET
         /\ img_needsSync img' = true
         /\ trace (snd (setAsRenderTarget 1%nat started))
            = EvOMSetRenderTargets h slot :: rest.
Proof.
  assert (Hi : exists img, objs started !! 1%nat = Some img)
    by (vm_compute; eexists; reflexivity).
  destruct Hi as [img Hi]. exists img.
  assert (Hr : fst (setAsRenderTarget 1%nat started) = Ok tt) by (vm_compute; reflexivity).
  destruct (setAsRenderTarget_binds_view 1%nat started img Hi Hr)
    as (img' & h & slot & rest & Hi' & Hst & Hns & _ & Htr & _).
  split; [exact Hi |]. split; [exact Hr |].
  exists img', h, slot, rest. exact (conj Hi' (conj Hst (conj Hns Htr))).
Defined.

(** ** Draws *)

Lemma DrawTriangles_rejects_shaders_witness :
  1 <> invalidShaderID
  /\ DrawTriangles sourceOver internalImageSize indicesNum vertexFloatNum invalidShaderID
       1 (2, 0, 0, 0) 1 3 0 3 wholeScreen started
     = (Err ErrShaderNotImplemented, started).
Proof.
  assert (H : 1 <> invalidShaderID) by discriminate.
  exact (conj H (DrawTriangles_rejects_shaders sourceOver internalImageSize indicesNum
                   vertexFloatNum invalidShaderID 1 (2, 0, 0, 0) 1 3 0 3 wholeScreen
                   started H)).
Defined.

(** The first frame after its [SetVertices]. *)
Definition withVertices : world := exec (setVerts [1; 2; 3] [0; 1; 2]) started.

Lemma DrawTriangles_tracks_states_witness :
  fst (DrawTriangles sourceOver internalImageSize indicesNum vertexFloatNum invalidShaderID
         1 (2, 0, 0, 0) invalidShaderID 3 0 3 wholeScreen withVertices) = Ok tt
  /\ exists d s simg,
       fst (lookupImage 1 withVertices) = Ok (Some d)
       /\ fst (lookupImage 2 withVertices) = Ok (Some s)
       /\ objs (snd (DrawTriangles sourceOver internalImageSize indicesNum vertexFloatNum
                       invalidShaderID 1 (2, 0, 0, 0) invalidShaderID 3 0 3 wholeScreen
                       withVertices)) !! s = Some simg
       /\ img_state simg = D3D12_RESOURCE_STATE_PIXEL_SHADER_RESOURCE.
Proof.
  assert (Hr : fst (DrawTriangles sourceOver internalImageSize indicesNum vertexFloatNum
                      invalidShaderID 1 (2, 0, 0, 0) invalidShaderID 3 0 3 wholeScreen
                      withVertices) = Ok tt) by (vm_compute; reflexivity).
  destruct (DrawTriangles_tracks_states sourceOver internalImageSize indicesNum
              vertexFloatNum invalidShaderID 1 (2, 0, 0, 0) invalidShaderID 3 0 3
              wholeScreen withVertices Hr) as (d & s & simg & Hd & Hs & Hi & Hst & _).
  split; [exact Hr |]. exists d, s, simg. exact (conj Hd (conj Hs (conj Hi Hst))).
Defined.

(** ** Frames without a swap chain *)

Lemma End_failure_reclaims_nothing_witness :
  fst (End true initialized) = Err ErrSwapChainNotInitializedAtEnd
  /\ vertices (gfx (snd (End true initialized))) = vertices (gfx initialized)
  /\ indices (gfx (snd (End true initialized))) = indices (gfx initialized)
  /\ disposedImages (gfx (snd (End true initialized))) = disposedImages (gfx initialized).
Proof.
  assert (Hr : fst (End true initialized) = Err ErrSwapChainNotInitializedAtEnd)
    by (vm_compute; reflexivity).
  destruct (End_failure_reclaims_nothing true initialized ErrSwapChainNotInitializedAtEnd Hr)
    as (Hv & Hi & Hd & _).
  exact (conj Hr (conj Hv (conj Hi Hd))).
Defined.
